(** * Pairs mean-reversion backtester ([src/v2/backtest_v2.py])

    A shallow embedding of [Backtester]: the signal engine ([prepare_data]),
    the bar loop of [run] (position state machine fused with the PnL
    accountant) and [performance_metrics]; then the decision function and
    the order sizing of the live layer ([src/v2/exec_layer_v2.py]) and the
    position lookup and order guard of [src/initial_connection.py].

    Numbers.  The bar loop works on Python floats.  It is written once over
    an arithmetic interface [Num] and read at two instances: IEEE binary64
    ([float], what the interpreter computes, bit for bit) and the rationals
    ([Q], the loop read in exact arithmetic, used where a statement is only
    meant up to rounding).  The dataframe code is modelled on [float]
    directly, NaN being the "undefined" of pandas.

    Libraries.  What numpy and pandas compute from floats ([np.log],
    [np.polyfit], the rolling mean and standard deviation, the mean and
    standard deviation of a series, the difference of two timestamps) is a
    parameter of the definitions that call it, so a statement holds for
    the values these functions really return. *)

From Stdlib Require Import ZArith QArith Qabs Floats Lia Lqa Bool.
From stdpp Require Import gmap strings list fin_maps.

Set Warnings "-inexact-float".

Close Scope Q_scope.
Local Open Scope Z_scope.

(** ** Exceptions and results *)

Inductive exn : Set :=
  | ZeroDivisionError   (* float division by zero in the bar loop *)
  | KeyError            (* a missing column or index label *)
  | ValueError          (* reindexing on duplicate labels, a negative
                           rolling window, [int(nan)] *)
  | OverflowError       (* [int(inf)] *)
  | PolyfitError.       (* whatever [np.polyfit] raises *)

Inductive res (A : Type) : Type :=
  | Ok (a : A)
  | Raise (e : exn).
Arguments Ok {A} a.
Arguments Raise {A} e.

#[global] Instance res_ret : MRet res := fun _ a => Ok a.
#[global] Instance res_bind : MBind res := fun _ _ f m =>
  match m with Ok a => f a | Raise e => Raise e end.
#[global] Instance res_fmap : FMap res := fun _ _ f m =>
  match m with Ok a => Ok (f a) | Raise e => Raise e end.

(** ** The arithmetic of the bar loop *)

Class Num (F : Type) : Type := {
  num_add : F -> F -> F;
  num_sub : F -> F -> F;
  num_mul : F -> F -> F;
  num_div : F -> F -> F;
  num_neg : F -> F;
  num_abs : F -> F;
  num_ltb : F -> F -> bool;
  num_leb : F -> F -> bool;
  num_eqb : F -> F -> bool;
  of_int : Z -> F;          (* [float(n)] for a Python int [n] *)
}.

Declare Scope num_scope.
Delimit Scope num_scope with num.
Infix "+" := num_add : num_scope.
Infix "-" := num_sub : num_scope.
Infix "*" := num_mul : num_scope.
Infix "/" := num_div : num_scope.
Notation "- x" := (num_neg x) : num_scope.
Infix "<?" := num_ltb : num_scope.
Infix "<=?" := num_leb : num_scope.
Infix "=?" := num_eqb : num_scope.

(** [float(n)]: the integer rounded to binary64. *)
Definition float_of_Z (n : Z) : float :=
  SF2Prim (binary_normalize prec emax n 0 false).

#[global] Instance float_num : Num float := {
  num_add := PrimFloat.add;
  num_sub := PrimFloat.sub;
  num_mul := PrimFloat.mul;
  num_div := PrimFloat.div;
  num_neg := PrimFloat.opp;
  num_abs := PrimFloat.abs;
  num_ltb := PrimFloat.ltb;
  num_leb := PrimFloat.leb;
  num_eqb := PrimFloat.eqb;
  of_int := float_of_Z;
}.

#[global] Instance Q_num : Num Q := {
  num_add := Qplus;
  num_sub := Qminus;
  num_mul := Qmult;
  num_div := Qdiv;
  num_neg := Qopp;
  num_abs := Qabs;
  num_ltb := fun x y => negb (Qle_bool y x);
  num_leb := Qle_bool;
  num_eqb := Qeq_bool;
  of_int := inject_Z;
}.

(** ** Configuration, bars and the loop state *)

(** A Python number, an int or a float.  The constructor stores
    [max_hold_bars] and [spread_window] as they are given: the loop
    converts the first with [int] when it needs it (line 130), and
    [rolling] validates the second. *)
Inductive pynum : Set :=
  | PyInt (n : Z)
  | PyFloat (x : float).

(** [int(v)]: a float is truncated towards zero; an infinite one raises
    [OverflowError], NaN raises [ValueError]. *)
Definition py_int (v : pynum) : res Z :=
  match v with
  | PyInt n => Ok n
  | PyFloat x =>
      match Prim2SF x with
      | S754_nan => Raise ValueError
      | S754_infinity _ => Raise OverflowError
      | S754_zero _ => Ok 0
      | S754_finite s m e =>
          let a := if (0 <=? e)%Z then (Z.pos m * 2 ^ e)%Z
                   else (Z.pos m / 2 ^ (- e))%Z in
          Ok (if s then - a else a)
      end
  end.

(** The constructor's keyword arguments (lines 15-44), stored as they are
    given.  [spread_window] is any Python number: [rolling] refuses a
    negative int and a float.  [hedge_window] is a Python int, read as a
    natural number: with a negative one the hedge loop does what it does
    with 0 (no row has [i < hedge_window] and every slice of line 72 is
    empty).  The thresholds, the capital, the notional, the cost and the
    stop are floats. *)
Record Params (F : Type) : Type := {
  z_entry : F;
  z_exit : F;
  spread_window : pynum;
  hedge_window : nat;
  initial_capital : F;
  notional_per_leg : F;
  beta_neutral : bool;
  cost_bps : F;
  use_log_price_spread : bool;
  max_hold_bars : option pynum;
  stop_z : option F;
}.
Arguments z_entry {F} _.
Arguments z_exit {F} _.
Arguments spread_window {F} _.
Arguments hedge_window {F} _.
Arguments initial_capital {F} _.
Arguments notional_per_leg {F} _.
Arguments beta_neutral {F} _.
Arguments cost_bps {F} _.
Arguments use_log_price_spread {F} _.
Arguments max_hold_bars {F} _.
Arguments stop_z {F} _.

(** What the loop reads of a row of the prepared frame: its label [t] and
    the four fields of lines 117-120. *)
Record Bar (F : Type) : Type := {
  bar_t : Z;
  bar_z : F;
  bar_beta : F;
  bar_price_a : F;
  bar_price_b : F;
}.
Arguments bar_t {F} _.
Arguments bar_z {F} _.
Arguments bar_beta {F} _.
Arguments bar_price_a {F} _.
Arguments bar_price_b {F} _.

(** The local variables of [run] (lines 103-114). *)
Record State (F : Type) : Type := {
  capital : F;
  position : Z;                (* +1 long spread, -1 short spread, 0 flat *)
  entry_idx : option Z;
  sh_a : F;
  sh_b : F;
  equity_series : list F;
  trade_count : nat;
}.
Arguments capital {F} _.
Arguments position {F} _.
Arguments entry_idx {F} _.
Arguments sh_a {F} _.
Arguments sh_b {F} _.
Arguments equity_series {F} _.
Arguments trade_count {F} _.

(** [df.index.get_loc(t)]: the position of label [t] in an index whose
    labels are distinct, as those of a prepared frame are. *)
Definition get_loc (idx : list Z) (t : Z) : res nat :=
  match list_find (fun u => u = t) idx with
  | Some (i, _) => Ok i
  | None => Raise KeyError
  end.

Section Loop.
Context {F : Type} `{Num F}.
Local Open Scope num_scope.

Variable p : Params F.

(** Python's [x / y] on floats. *)
Definition pydiv (x y : F) : res F :=
  if y =? of_int 0 then Raise ZeroDivisionError else Ok (x / y).

(** Lines 94-98. *)
Definition _trade_cost : F :=
  if cost_bps p <=? of_int 0 then of_int 0
  else of_int 2 * notional_per_leg p * (cost_bps p / of_int 10000).

(** Line 123. *)
Definition stop_out (z : F) : bool :=
  match stop_z p with
  | Some s => s <=? num_abs z
  | None => false
  end.

(** Lines 126-130, evaluated on the state the bar starts in: the two
    positions are looked up, then the limit is converted. *)
Definition held_too_long (idx : list Z) (st : State F) (t : Z) : res bool :=
  if negb (position st =? 0)%Z then
    match max_hold_bars p, entry_idx st with
    | Some limit, Some e =>
        i ← get_loc idx t;
        j ← get_loc idx e;
        m ← py_int limit;
        mret (m <=? Z.of_nat i - Z.of_nat j)%Z
    | _, _ => mret false
    end
  else mret false.

(** Lines 134-137: the direction the signal asks for. *)
Definition entry_signal (z : F) : Z :=
  if z_entry p <? z then (-1)%Z
  else if z <? - z_entry p then 1%Z
  else 0%Z.

(** Lines 139-151: size both legs, pay the entry cost, count the trade. *)
Definition open_position (st : State F) (b : Bar F) (d : Z) : res (State F) :=
  qa ← pydiv (notional_per_leg p) (bar_price_a b);
  let sa := qa * of_int d in
  let scale := if beta_neutral p then num_abs (bar_beta b) else of_int 1 in
  qb ← pydiv (notional_per_leg p * scale) (bar_price_b b);
  let sb := (- qb) * of_int d in
  mret {| capital := capital st - _trade_cost;
          position := d;
          entry_idx := Some (bar_t b);
          sh_a := sa;
          sh_b := sb;
          equity_series := equity_series st;
          trade_count := S (trade_count st) |}.

(** Lines 132-160: the ENTRY branch; the EXIT branch is [pass]. *)
Definition entry_phase (st : State F) (b : Bar F) : res (State F) :=
  if (position st =? 0)%Z then
    let d := entry_signal (bar_z b) in
    if negb (d =? 0)%Z then open_position st b d else mret st
  else mret st.

(** Line 163. *)
Definition mtm (st : State F) (b : Bar F) : F :=
  sh_a st * bar_price_a b + sh_b st * bar_price_b b.

(** The condition of line 172, on the state after the ENTRY branch. *)
Definition exit_triggered (st : State F) (b : Bar F) (held : bool) : bool :=
  negb (position st =? 0)%Z
  && ((num_abs (bar_z b) <? z_exit p) || stop_out (bar_z b) || held).

(** Lines 173-180. *)
Definition realize_exit (st : State F) (equity : F) : State F :=
  {| capital := equity - _trade_cost;
     position := 0;
     entry_idx := None;
     sh_a := of_int 0;
     sh_b := of_int 0;
     equity_series := equity_series st;
     trade_count := trade_count st |}.

(** Lines 168-169. *)
Definition record_equity (st : State F) (equity : F) : State F :=
  {| capital := capital st;
     position := position st;
     entry_idx := entry_idx st;
     sh_a := sh_a st;
     sh_b := sh_b st;
     equity_series := equity_series st ++ [equity];
     trade_count := trade_count st |}.

(** One iteration of the loop of line 116. *)
Definition step (idx : list Z) (st : State F) (b : Bar F) : res (State F) :=
  held ← held_too_long idx st (bar_t b);
  mid ← entry_phase st b;
  let equity := capital mid + mtm mid b in
  let st' := record_equity mid equity in
  if exit_triggered st' b held then mret (realize_exit st' equity)
  else mret st'.

Fixpoint run_bars (idx : list Z) (st : State F) (bars : list (Bar F))
  : res (State F) :=
  match bars with
  | [] => mret st
  | b :: bars' => st' ← step idx st b; run_bars idx st' bars'
  end.

(** Lines 103-114. *)
Definition initial_state : State F :=
  {| capital := initial_capital p;
     position := 0;
     entry_idx := None;
     sh_a := of_int 0;
     sh_b := of_int 0;
     equity_series := [];
     trade_count := 0 |}.

(** The loop of [run] over the rows of the prepared frame. *)
Definition simulate (bars : list (Bar F)) : res (State F) :=
  run_bars (bar_t <$> bars) initial_state bars.

End Loop.

(** ** Series and dataframes *)

Local Open Scope float_scope.

(** A float64 column; its entries are read by position. *)
Abbreviation Series := (list float).

(** A dataframe: the index labels (timestamps) and the named columns. *)
Record DataFrame : Type := {
  index : list Z;
  columns : gmap string (list float);
}.

Definition notna (x : float) : bool := negb (is_nan x).

(** [v.iloc[i]]; a column too short for the index reads as NaN. *)
Definition iloc (v : Series) (i : nat) : float := default nan (v !! i).

(** [v.iloc[a:b]] for [0 <= a]. *)
Definition iloc_slice (a b : nat) (v : Series) : Series :=
  take (b - a) (drop a v).

(** [df[c]]. *)
Definition col (d : DataFrame) (c : string) : res Series :=
  match columns d !! c with
  | Some v => Ok v
  | None => Raise KeyError
  end.

(** [df[c] = v], as a value. *)
Definition set_col (d : DataFrame) (c : string) (v : Series) : DataFrame :=
  {| index := index d; columns := <[c := v]> (columns d) |}.

(** [pd.DataFrame(index=idx)]. *)
Definition new_frame (idx : list Z) : DataFrame :=
  {| index := idx; columns := ∅ |}.

(** A row survives [dropna] when none of its fields is NaN. *)
Definition row_ok (d : DataFrame) (i : nat) : bool :=
  forallb (fun cv : string * Series => notna (iloc cv.2 i))
          (map_to_list (columns d)).

Definition kept_rows (d : DataFrame) : list nat :=
  filter (fun i => row_ok d i = true) (seq 0 (length (index d))).

(** The entries of [l] at the positions [rows], in that order. *)
Definition select {A : Type} (rows : list nat) (l : list A) : list A :=
  omap (fun i => l !! i) rows.

(** [df.dropna()]: a new frame with the surviving rows. *)
Definition dropna (d : DataFrame) : DataFrame :=
  {| index := select (kept_rows d) (index d);
     columns := select (kept_rows d) <$> columns d |}.

(** [Index.unique]: first occurrences, in order. *)
Definition unique (l : list Z) : list Z :=
  foldl (fun acc t => if bool_decide (t ∈ acc) then acc else acc ++ [t]) [] l.

(** [a.intersection(b)] for indexes of labels, such as the timestamps of
    a price frame: the labels of [a] that [b] has, once each, in the order
    in which [a] has them.  (For two increasing indexes pandas merges them,
    which gives the same.  An integer [RangeIndex] is intersected as a
    range, and comes out increasing even where [a] runs backwards: that
    case is outside this model.) *)
Definition index_intersection (a b : list Z) : list Z :=
  unique (filter (fun t => t ∈ b) a).

(** The positions of label [t] in an index. *)
Definition positions (t : Z) (idx : list Z) : list nat :=
  filter (fun i => idx !! i = Some t) (seq 0 (length idx)).

(** [src.loc[idx, c]] as assigned to a column of a frame indexed by [idx]:
    a label [src] has several times cannot be aligned. *)
Definition loc_col (src : DataFrame) (idx : list Z) (c : string) : res Series :=
  v ← col src c;
  mapM (fun t => match positions t (index src) with
                 | [i] => Ok (iloc v i)
                 | [] => Raise KeyError
                 | _ => Raise ValueError
                 end) idx.

(** A function applied to every entry (a numpy ufunc on a column). *)
Definition smap (f : float -> float) (v : Series) : Series := f <$> v.

(** [v.shift(1)]. *)
Definition shift1 (v : Series) : Series := take (length v) (nan :: v).

(** [Series.pct_change()]: [v / v.shift(1) - 1], on a series without NaN
    (nothing to fill forward). *)
Definition pct_change (v : Series) : Series :=
  zip_with (fun cur prev => cur / prev - 1) v (shift1 v).

(** [v.rolling(w)]: the window is validated when the object is built, and
    has to be an integer that is 0 or greater. *)
Definition rolling_window (w : pynum) : res nat :=
  match w with
  | PyInt n => if (n <? 0)%Z then Raise ValueError else Ok (Z.to_nat n)
  | PyFloat _ => Raise ValueError
  end.

(** [v.rolling(w)] followed by a reduction ([mean], [std]).  The entry of
    row [i] is undefined until the window [i + 1 - w, i] holds [w] defined
    observations ([min_periods] defaults to [w]; an empty window holds
    none).  Where it is defined, pandas computes it with sums that it
    updates along the series, so the value is what the reduction [f] makes
    of the window size and of the series up to row [i]. *)
Definition rolling (w : nat) (f : nat -> Series -> float) (v : Series)
  : Series :=
  imap (fun i _ =>
          if (w =? 0)%nat || (i + 1 <? w)%nat then nan
          else if forallb notna (iloc_slice (i + 1 - w) (i + 1) v)
               then f w (take (i + 1) v)
               else nan) v.

(** ** The object store

    Dataframes are mutable objects; a reference is a position in the store.
    A computation threads the store and keeps it when an exception is
    raised. *)

Definition M (A : Type) : Type := list DataFrame -> res A * list DataFrame.

#[global] Instance M_ret : MRet M := fun _ a h => (Ok a, h).
#[global] Instance M_bind : MBind M := fun _ _ k m h =>
  match m h with
  | (Ok a, h') => k a h'
  | (Raise e, h') => (Raise e, h')
  end.

Definition lift {A : Type} (r : res A) : M A := fun h => (r, h).

(** A new object. *)
Definition alloc (d : DataFrame) : M nat :=
  fun h => (Ok (length h), h ++ [d]).

Definition load (l : nat) : M DataFrame :=
  fun h => match h !! l with
           | Some d => (Ok d, h)
           | None => (Raise KeyError, h)
           end.

Definition store (l : nat) (d : DataFrame) : M unit :=
  fun h => (Ok tt, <[l := d]> h).

(** [df[c] = f(df)] on a frame value. *)
Definition assign (c : string) (f : DataFrame -> res Series) (d : DataFrame)
  : res DataFrame :=
  v ← f d;
  mret (set_col d c v).

(** [df[c] = f(df)]: the right-hand side is evaluated, then the object
    that [l] refers to is updated in place. *)
Definition setitem (l : nat) (c : string) (f : DataFrame -> res Series) : M unit :=
  d ← load l;
  d' ← lift (assign c f d);
  store l d'.

(** [df.dropna()]: the result is a new object. *)
Definition dropna_new (l : nat) : M nat :=
  d ← load l;
  alloc (dropna d).

(** The object: two references and the configuration (lines 31-44). *)
Record Backtester : Type := {
  df_a : nat;
  df_b : nat;
  params : Params float;
}.

(** [__init__]: the object keeps copies of the caller's frames. *)
Definition __init__ (a b : nat) (p : Params float) : M Backtester :=
  fa ← load a;
  a' ← alloc fa;
  fb ← load b;
  b' ← alloc fb;
  mret {| df_a := a'; df_b := b'; params := p |}.

(** ** The signal engine ([prepare_data], lines 46-92) *)

Section Engine.

(** [np.log] on one float. *)
Variable ln : float -> float.
(** [np.polyfit(x, y, 1)], which returns [(beta, alpha)] or raises. *)
Variable polyfit : Series -> Series -> res (float * float).
(** The reductions [mean()] and [std(ddof=0)] of a rolling window of pandas:
    the window size and the series up to the row give the value at a row
    whose window is complete. *)
Variable rmean : nat -> Series -> float.
Variable rstd : nat -> Series -> float.

(** [np.log(df[c])]. *)
Definition log_col (c : string) (d : DataFrame) : res Series :=
  v ← col d c;
  mret (smap ln v).

(** [np.log(df[c] / df[c].shift(1))]. *)
Definition log_return_col (c : string) (d : DataFrame) : res Series :=
  v ← col d c;
  mret (zip_with (fun cur prev => ln (cur / prev)) v (shift1 v)).

(** Lines 68-77: the body of the hedge loop for one [i]. *)
Definition hedge_at (h : nat) (d : DataFrame) (i : nat) : res (float * float) :=
  if (i <? h)%nat then Ok (nan, nan)
  else
    y ← col d "y";
    x ← col d "x";
    polyfit (iloc_slice (i - h) i x) (iloc_slice (i - h) i y).

(** Lines 65-77: [betas] and [alphas]. *)
Fixpoint hedge_loop (h : nat) (d : DataFrame) (range : list nat)
  : res (Series * Series) :=
  match range with
  | [] => Ok ([], [])
  | i :: range' =>
      '(beta, alpha) ← hedge_at h d i;
      '(betas, alphas) ← hedge_loop h d range';
      mret (beta :: betas, alpha :: alphas)
  end.

Definition rolling_hedge (h : nat) (d : DataFrame) : res (Series * Series) :=
  hedge_loop h d (seq 0 (length (index d))).

(** Lines 83-86. *)
Definition spread_col (log_mode : bool) (d : DataFrame) : res Series :=
  y ← col d "y";
  if log_mode then
    alpha ← col d "alpha";
    beta ← col d "beta";
    x ← col d "x";
    mret (zip_with PrimFloat.sub y
            (zip_with PrimFloat.add alpha (zip_with PrimFloat.mul beta x)))
  else
    beta ← col d "beta";
    x ← col d "x";
    mret (zip_with PrimFloat.sub y (zip_with PrimFloat.mul beta x)).

(** Lines 88-89: [df[c].rolling(w)] and its reduction. *)
Definition rolling_col (w : pynum) (f : nat -> Series -> float) (c : string)
    (d : DataFrame) : res Series :=
  v ← col d c;
  n ← rolling_window w;
  mret (rolling n f v).

(** Line 90. *)
Definition z_col (d : DataFrame) : res Series :=
  s ← col d "spread";
  m ← col d "spread_mean";
  sd ← col d "spread_std";
  mret (zip_with PrimFloat.div (zip_with PrimFloat.sub s m) sd).

Definition prepare_data (self : Backtester) : M nat :=
  let p := params self in
  fa ← load (df_a self);
  fb ← load (df_b self);
  let idx := index_intersection (index fa) (index fb) in
  df ← alloc (new_frame idx);
  setitem df "price_a" (fun _ => loc_col fa idx "close");;
  setitem df "price_b" (fun _ => loc_col fb idx "close");;
  (if use_log_price_spread p then
     setitem df "x" (log_col "price_b");;
     setitem df "y" (log_col "price_a")
   else
     setitem df "y" (log_return_col "price_a");;
     setitem df "x" (log_return_col "price_b"));;
  df ← dropna_new df;
  d ← load df;
  '(betas, alphas) ← lift (rolling_hedge (hedge_window p) d);
  setitem df "beta" (fun _ => Ok betas);;
  setitem df "alpha" (fun _ => Ok alphas);;
  setitem df "spread" (spread_col (use_log_price_spread p));;
  setitem df "spread_mean" (rolling_col (spread_window p) rmean "spread");;
  setitem df "spread_std" (rolling_col (spread_window p) rstd "spread");;
  setitem df "z" z_col;;
  dropna_new df.

(** [df.iterrows()], with the four fields the loop reads of each row. *)
Definition iterrows (d : DataFrame) : res (list (Bar float)) :=
  match index d with
  | [] => Ok []
  | _ =>
      z ← col d "z";
      beta ← col d "beta";
      pa ← col d "price_a";
      pb ← col d "price_b";
      mret (imap (fun i t => {| bar_t := t; bar_z := iloc z i;
                                bar_beta := iloc beta i;
                                bar_price_a := iloc pa i;
                                bar_price_b := iloc pb i |}) (index d))
  end.

(** [run] (lines 100-186): the reference of [results] and the trade count. *)
Definition run (self : Backtester) : M (nat * nat) :=
  df ← prepare_data self;
  d ← load df;
  bars ← lift (iterrows d);
  st ← lift (simulate (params self) bars);
  results ← alloc (set_col (new_frame (index d)) "equity" (equity_series st));
  setitem results "returns" (fun r => e ← col r "equity"; mret (pct_change e));;
  mret (results, trade_count st).

(** *** The frames [prepare_data] builds, as values

    [aligned_frame] is the first frame when line 62 drops its rows,
    [signal_frame] the second one when line 92 drops its rows. *)

Definition aligned_frame (p : Params float) (fa fb : DataFrame) : res DataFrame :=
  let idx := index_intersection (index fa) (index fb) in
  d ← assign "price_a" (fun _ => loc_col fa idx "close") (new_frame idx);
  d ← assign "price_b" (fun _ => loc_col fb idx "close") d;
  if use_log_price_spread p then
    d ← assign "x" (log_col "price_b") d;
    assign "y" (log_col "price_a") d
  else
    d ← assign "y" (log_return_col "price_a") d;
    assign "x" (log_return_col "price_b") d.

Definition signal_frame (p : Params float) (d : DataFrame) : res DataFrame :=
  '(betas, alphas) ← rolling_hedge (hedge_window p) d;
  d ← assign "beta" (fun _ => Ok betas) d;
  d ← assign "alpha" (fun _ => Ok alphas) d;
  d ← assign "spread" (spread_col (use_log_price_spread p)) d;
  d ← assign "spread_mean" (rolling_col (spread_window p) rmean "spread") d;
  d ← assign "spread_std" (rolling_col (spread_window p) rstd "spread") d;
  assign "z" z_col d.

End Engine.

(** ** A caller's session

    The caller holds two frames in the store, builds a backtester on them
    and calls its methods any number of times, going on after an exception. *)

Inductive call : Set :=
  | CallPrepareData
  | CallRun.

(** [try: m / except: pass]. *)
Definition attempt {A : Type} (m : M A) : M unit :=
  fun h => (Ok tt, (m h).2).

Section Session.
Variable ln : float -> float.
Variable polyfit : Series -> Series -> res (float * float).
Variable rmean rstd : nat -> Series -> float.

Definition perform (self : Backtester) (c : call) : M unit :=
  match c with
  | CallPrepareData => attempt (prepare_data ln polyfit rmean rstd self)
  | CallRun => attempt (run ln polyfit rmean rstd self)
  end.

Fixpoint perform_all (self : Backtester) (cs : list call) : M unit :=
  match cs with
  | [] => mret tt
  | c :: cs' => perform self c;; perform_all self cs'
  end.

Definition session (a b : nat) (p : Params float) (cs : list call) : M unit :=
  self ← __init__ a b p;
  perform_all self cs.

End Session.

(** A computation leaves the first [n] objects of the store as they are,
    and what it returns satisfies [Q]. *)
Definition preserves {A : Type} (n : nat) (m : M A) (Q : A -> Prop) : Prop :=
  forall h, (n <= length h)%nat ->
    take n (m h).2 = take n h
    /\ (n <= length (m h).2)%nat
    /\ forall a, (m h).1 = Ok a -> Q a.

(** The object that a computation returned a reference to. *)
Definition returned {A : Type} (f : A -> nat) (x : res A * list DataFrame)
  : option DataFrame :=
  match x.1 with
  | Ok a => x.2 !! f a
  | Raise _ => None
  end.

(** ** The performance analyzer ([performance_metrics], lines 188-202) *)

Record Metrics : Type := {
  Sharpe : float;
  Max_Drawdown : float;
}.

(** [Series.dropna()]. *)
Definition series_dropna (v : Series) : Series :=
  filter (fun x => notna x = true) v.

(** [Series.cummax()] on a series without NaN. *)
Fixpoint cummax_from (m : float) (v : Series) : Series :=
  match v with
  | [] => []
  | x :: v' => let m' := if m <? x then x else m in m' :: cummax_from m' v'
  end.

Definition cummax (v : Series) : Series :=
  match v with
  | [] => []
  | x :: v' => x :: cummax_from x v'
  end.

(** [Series.min()], which skips NaN and is NaN on nothing. *)
Definition series_min (v : Series) : float :=
  match series_dropna v with
  | [] => nan
  | x :: v' => foldl (fun m y => if y <? m then y else m) x v'
  end.

Section Analyzer.

(** [Series.mean()] and [Series.std(ddof=0)] of pandas on a series without
    NaN. *)
Variable series_mean : Series -> float.
Variable series_std : Series -> float.

(** The Sharpe-like ratio of lines 193-196 on the returns [rets];
    [np.sqrt(252 * 78)] is the square root of the float 19656. *)
Definition sharpe_of (rets : Series) : float :=
  if (series_std rets =? 0) || (length rets <? 2)%nat then nan
  else sqrt 19656 * series_mean rets / series_std rets.

Definition performance_metrics (results : DataFrame) : res Metrics :=
  e ← col results "equity";
  r ← col results "returns";
  let equity := series_dropna e in
  let rets := series_dropna r in
  let rolling_max := cummax equity in
  let drawdown :=
    zip_with PrimFloat.div (zip_with PrimFloat.sub equity rolling_max)
             rolling_max in
  mret {| Sharpe := sharpe_of rets; Max_Drawdown := series_min drawdown |}.

End Analyzer.

(** [pd.DataFrame({"equity": ...})] followed by line 183, as a value:
    the [results] frame of an equity series. *)
Definition results_frame (idx : list Z) (equity : Series) : DataFrame :=
  set_col (set_col (new_frame idx) "equity" equity)
          "returns" (pct_change equity).

(** ** [run] as a function of the two frames

    The results frame and the trade count that [run] computes from the
    frames the object holds. *)

Section Backtest.
Variable ln : float -> float.
Variable polyfit : Series -> Series -> res (float * float).
Variable rmean rstd : nat -> Series -> float.

Definition backtest (p : Params float) (fa fb : DataFrame)
  : res (DataFrame * nat) :=
  d0 ← aligned_frame ln p fa fb;
  d2 ← signal_frame polyfit rmean rstd p (dropna d0);
  bars ← iterrows (dropna d2);
  st ← simulate p bars;
  mret (results_frame (index (dropna d2)) (equity_series st), trade_count st).

End Backtest.

(** ** The drawdown of lines 198-200, for any arithmetic

    On an equity series in which nothing is undefined, [dropna] and the
    NaN-skipping of [min] do nothing, and the three lines are the running
    maximum, the relative distance to it, and the least of these. *)

Section Drawdown.
Context {F : Type} `{Num F}.
Local Open Scope num_scope.

Fixpoint running_max_from (m : F) (v : list F) : list F :=
  match v with
  | [] => []
  | x :: v' => let m' := if m <? x then x else m in m' :: running_max_from m' v'
  end.

Definition running_max (v : list F) : list F :=
  match v with
  | [] => []
  | x :: v' => x :: running_max_from x v'
  end.

(** The drawdowns of the points that follow a running maximum [m]. *)
Definition drawdowns_from (m : F) (v : list F) : list F :=
  zip_with num_div (zip_with num_sub v (running_max_from m v))
           (running_max_from m v).

Definition drawdowns (equity : list F) : list F :=
  zip_with num_div (zip_with num_sub equity (running_max equity))
           (running_max equity).

Definition least (v : list F) : option F :=
  match v with
  | [] => None
  | x :: v' => Some (foldl (fun m y => if y <? m then y else m) x v')
  end.

Definition max_drawdown (equity : list F) : option F :=
  least (drawdowns equity).

End Drawdown.

(** An equity series that never falls. *)
Fixpoint nondecreasing_from (m : Q) (v : list Q) : Prop :=
  match v with
  | [] => True
  | x :: v' => (m <= x)%Q /\ nondecreasing_from x v'
  end.

Definition nondecreasing (v : list Q) : Prop :=
  match v with
  | [] => True
  | x :: v' => nondecreasing_from x v'
  end.

(** * The live execution layer ([src/v2/exec_layer_v2.py])

    [decide_portfolio_target] reads the last [z_spread] of the feature
    frame and a state dict that it updates in place; the model passes the
    state in and out.  The timestamps and the difference
    [(a - b).total_seconds()] belong to pandas and are parameters; the
    difference of two timestamps raises [TypeError] when one of them has a
    time zone and the other has none. *)

(** Python's [x > n] for a float [x] and an int [n], which compares the
    two numbers exactly. *)
Definition float_gt_int (x : float) (n : Z) : bool :=
  match Prim2SF x with
  | S754_nan => false
  | S754_infinity s => negb s
  | S754_zero _ => (n <? 0)%Z
  | S754_finite s m e =>
      let v := if s then Z.neg m else Z.pos m in
      if (0 <=? e)%Z then (n <? v * 2 ^ e)%Z else (n * 2 ^ (- e) <? v)%Z
  end.

(** [DataFrame.empty]: one of the two axes has length 0. *)
Definition frame_empty (d : DataFrame) : bool :=
  bool_decide (index d = []) || bool_decide (dom (columns d) = (∅ : gset string)).

(** A position that the broker reports ([ib.positions()]): the symbol of
    its contract and the number of shares. *)
Record Holding (F : Type) : Type := {
  held_symbol : string;
  held_position : F;
}.
Arguments held_symbol {F} _.
Arguments held_position {F} _.

Inductive Action : Set := BUY | SELL.

(** [MarketOrder(action, quantity)]. *)
Record MarketOrder (F : Type) : Type := {
  action : Action;
  totalQuantity : F;
}.
Arguments action {F} _.
Arguments totalQuantity {F} _.

Module ExecLayer.

(** Lines 15-26. *)
Record StrategyParams : Type := {
  z_entry : float;
  z_exit : float;
  max_hold_min : Z;
  base_size : Z;
  high_vol_multiplier : float;
}.

Record ExecParams : Type := {
  cooldown_min : Z;
}.

Inductive Side : Set := SHORT_A_LONG_B | LONG_A_SHORT_B.

(** What a call can raise: the [KeyError] of a feature frame without a
    [z_spread] column, and the [TypeError] of a timestamp minus [None] or
    minus a timestamp it cannot be compared with. *)
Inductive error : Set := KeyError | TypeError.

Inductive outcome (A : Type) : Type :=
  | Returned (a : A)
  | Raised (e : error).
Arguments Returned {A} a.
Arguments Raised {A} e.

Section Decide.
Variable Timestamp : Type.
(** [(a - b).total_seconds()], or [None] where [a - b] raises. *)
Variable total_seconds : Timestamp -> Timestamp -> option float.

(** The state dict of lines 33-39. *)
Record StateDict : Type := {
  in_trade : bool;
  side : option Side;
  entry_time : option Timestamp;
  entry_beta : option float;
}.

Definition init_state : StateDict :=
  {| in_trade := false; side := None; entry_time := None;
     entry_beta := None |}.

(** Lines 58-60: [features.iloc[-1]["z_spread"]]. *)
Definition last_z (features : DataFrame) : res float :=
  v ← col features "z_spread";
  mret (iloc v (length (index features) - 1)).

(** Lines 46-102: the targets returned and the state dict after the call. *)
Definition decide_portfolio_target (features : DataFrame) (state : StateDict)
    (strategy_params : StrategyParams) (exec_params : ExecParams)
    (now_ts : Timestamp) : outcome (gmap string Z * StateDict) :=
  let p := strategy_params in
  if frame_empty features then Returned (∅, state)
  else
    match last_z features with
    | Raise _ => Raised KeyError
    | Ok z =>
        if is_nan z then Returned (∅, state)
        else if negb (in_trade state) then
          if z_entry p <? z then
            Returned ({[ "A" := (- base_size p)%Z; "B" := base_size p ]},
                      {| in_trade := true; side := Some SHORT_A_LONG_B;
                         entry_time := Some now_ts;
                         entry_beta := entry_beta state |})
          else if z <? - z_entry p then
            Returned ({[ "A" := base_size p; "B" := (- base_size p)%Z ]},
                      {| in_trade := true; side := Some LONG_A_SHORT_B;
                         entry_time := Some now_ts;
                         entry_beta := entry_beta state |})
          else Returned (∅, state)
        else
          match entry_time state with
          | None => Raised TypeError
          | Some t0 =>
              match total_seconds now_ts t0 with
              | None => Raised TypeError
              | Some seconds =>
                  let hold_minutes := seconds / 60 in
                  if (abs z <? z_exit p)
                     || float_gt_int hold_minutes (max_hold_min p)
                  then
                    Returned ({[ "A" := 0%Z; "B" := 0%Z ]},
                              {| in_trade := false; side := None;
                                 entry_time := None;
                                 entry_beta := entry_beta state |})
                  else Returned (∅, state)
              end
          end
    end.

(** A caller that polls with the same state dict: the targets of the
    calls, in order, and the state after the last one. *)
Fixpoint decide_each (polls : list (DataFrame * Timestamp)) (state : StateDict)
    (strategy_params : StrategyParams) (exec_params : ExecParams)
  : outcome (list (gmap string Z) * StateDict) :=
  match polls with
  | [] => Returned ([], state)
  | (features, now_ts) :: polls' =>
      match decide_portfolio_target features state strategy_params
              exec_params now_ts with
      | Raised e => Raised e
      | Returned (target, state') =>
          match decide_each polls' state' strategy_params exec_params with
          | Raised e => Raised e
          | Returned (targets, state'') => Returned (target :: targets, state'')
          end
      end
  end.

(** The shapes of the state dict that the function itself produces. *)
Definition consistent (state : StateDict) : Prop :=
  entry_beta state = None
  /\ (if in_trade state
      then is_Some (side state) /\ is_Some (entry_time state)
      else side state = None /\ entry_time state = None).

End Decide.

Arguments in_trade {Timestamp} _.
Arguments side {Timestamp} _.
Arguments entry_time {Timestamp} _.
Arguments entry_beta {Timestamp} _.
Arguments init_state {Timestamp}.
Arguments consistent {Timestamp} _.
Arguments decide_portfolio_target {Timestamp} _ _ _ _ _ _.
Arguments decide_each {Timestamp} _ _ _ _ _.

Section Executor.
Context {F : Type} `{Num F}.
Local Open Scope num_scope.

(** Lines 116-124: the first reported position in [symbol], or 0. *)
Fixpoint get_position (positions : list (Holding F)) (symbol : string) : F :=
  match positions with
  | [] => of_int 0
  | p :: positions' =>
      if String.eqb (held_symbol p) symbol then held_position p
      else get_position positions' symbol
  end.

(** Lines 126-146: the order that [trade_to_target] places, if any. *)
Definition trade_to_target (positions : list (Holding F)) (symbol : string)
    (target_position : Z) : option (MarketOrder F) :=
  let current_position := get_position positions symbol in
  let delta := of_int target_position - current_position in
  if delta =? of_int 0 then None
  else
    Some {| action := if of_int 0 <? delta then BUY else SELL;
            totalQuantity := num_abs delta |}.

End Executor.

End ExecLayer.

(** * The first script ([src/initial_connection.py]) *)

Module InitialConnection.

Section Orders.
Context {F : Type} `{Num F}.
Local Open Scope num_scope.

(** Lines 57-59. *)
Definition get_position (positions : list (Holding F)) (symbol : string) : F :=
  match filter (fun p => held_symbol p = symbol) positions with
  | p :: _ => held_position p
  | [] => of_int 0
  end.

(** Lines 61-72: the order that [place_mkt_order] places; [None] when it
    prints the skip message and returns [False]. *)
Definition place_mkt_order (positions : list (Holding F)) (ticker : string)
    (side : Action) (volume max_position : F) : option (MarketOrder F) :=
  let current_position := get_position positions ticker in
  if max_position <=? current_position then None
  else Some {| action := side; totalQuantity := volume |}.

End Orders.

End InitialConnection.

(** ** Executable stand-ins for the library functions

    [np.log], [np.polyfit] and the reductions of pandas are parameters of
    the engine and of the analyzer.  To run them on a sample, an instance is
    needed: a series for the logarithm, the closed form of the least-squares
    line, and the mean and the population standard deviation recomputed from
    the values with sums taken from left to right.  The last digits of what
    numpy and pandas return may differ from theirs; no statement about the
    code rests on them. *)

Definition fsum (v : Series) : float := foldl PrimFloat.add 0 v.
Definition flen (v : Series) : float := float_of_Z (Z.of_nat (length v)).
Definition mean (v : Series) : float := fsum v / flen v.

(** Population standard deviation ([ddof=0]). *)
Definition pstd (v : Series) : float :=
  let m := mean v in
  sqrt (fsum ((fun x => (x - m) * (x - m)) <$> v) / flen v).

(** The two reductions on the last [w] values of the series so far. *)
Definition window_mean (w : nat) (v : Series) : float :=
  mean (drop (length v - w) v).
Definition window_std (w : nat) (v : Series) : float :=
  pstd (drop (length v - w) v).

Fixpoint atanh_sum (n : nat) (t2 pow k : float) : float :=
  match n with
  | O => 0
  | S n' => pow / k + atanh_sum n' t2 (pow * t2) (k + 2)
  end.

(** [log x = e * log 2 + 2 * atanh ((m - 1) / (m + 1))] for [x = m * 2^e]. *)
Definition ln_float (x : float) : float :=
  if is_nan x || (x <? 0) then nan
  else if x =? 0 then neg_infinity
  else if x =? infinity then infinity
  else
    let (m, e) := FloatOps.Z.frexp x in
    let t := (m - 1) / (m + 1) in
    float_of_Z e * 0.6931471805599453 + 2 * atanh_sum 30 (t * t) t 1.

Definition ols_fit (x y : Series) : res (float * float) :=
  match x with
  | [] => Raise PolyfitError
  | _ =>
      let n := flen x in
      let sx := fsum x in
      let sy := fsum y in
      let sxx := fsum (zip_with PrimFloat.mul x x) in
      let sxy := fsum (zip_with PrimFloat.mul x y) in
      let beta := (n * sxy - sx * sy) / (n * sxx - sx * sx) in
      let alpha := (sy - beta * sx) / n in
      Ok (beta, alpha)
  end.

(** ** Derived notions used by the statements *)

(** The same configuration with another [cost_bps]. *)
Definition with_cost {F : Type} (p : Params F) (c : F) : Params F :=
  {| z_entry := z_entry p; z_exit := z_exit p;
     spread_window := spread_window p; hedge_window := hedge_window p;
     initial_capital := initial_capital p;
     notional_per_leg := notional_per_leg p;
     beta_neutral := beta_neutral p; cost_bps := c;
     use_log_price_spread := use_log_price_spread p;
     max_hold_bars := max_hold_bars p; stop_z := stop_z p |}.

(** The last recorded equity. *)
Definition final_equity {F : Type} (st : State F) : option F :=
  last (equity_series st).

Section EntryCount.
Context {F : Type} `{Num F}.
Variable p : Params F.

(** A bar performs a FLAT-to-open transition when it starts flat and the
    ENTRY branch leaves a position open. *)
Definition opens (st : State F) (b : Bar F) : bool :=
  match entry_phase p st b with
  | Ok mid => (position st =? 0)%Z && negb (position mid =? 0)%Z
  | Raise _ => false
  end.

(** The number of such transitions along a run of the loop. *)
Fixpoint entries (idx : list Z) (st : State F) (bars : list (Bar F)) : nat :=
  match bars with
  | [] => 0
  | b :: bars' =>
      match step p idx st b with
      | Ok st' => ((if opens st b then 1 else 0) + entries idx st' bars')%nat
      | Raise _ => 0
      end
  end.

End EntryCount.

(** Two states of the loop that hold the same position. *)
Definition same_trades {F : Type} (s1 s2 : State F) : Prop :=
  position s1 = position s2
  /\ entry_idx s1 = entry_idx s2
  /\ sh_a s1 = sh_a s2
  /\ sh_b s1 = sh_b s2
  /\ trade_count s1 = trade_count s2
  /\ length (equity_series s1) = length (equity_series s2).

(** Two states of the loop run on the same bars at two costs: everything
    but the cash agrees, and the second run never has more cash or equity. *)
Definition dominated (s1 s2 : State Q) : Prop :=
  position s1 = position s2
  /\ entry_idx s1 = entry_idx s2
  /\ sh_a s1 = sh_a s2
  /\ sh_b s1 = sh_b s2
  /\ trade_count s1 = trade_count s2
  /\ (capital s2 <= capital s1)%Q
  /\ Forall2 (fun e1 e2 => (e2 <= e1)%Q) (equity_series s1) (equity_series s2).

(** The columns that lines 79-90 add. *)
Definition signal_columns : list string :=
  ["beta"; "alpha"; "spread"; "spread_mean"; "spread_std"; "z"].

(** Row [j] of a frame has a value that is not NaN in each of them. *)
Definition defined_at (d : DataFrame) (j : nat) : bool :=
  forallb (fun c => match columns d !! c with
                    | Some v => notna (iloc v j)
                    | None => false
                    end) signal_columns.

(** ** The warm-up, row by row

    The rows that survive the final [dropna], said without the frames: in
    terms of the two windows, of the columns [x] and [y] of the cleaned
    aligned frame, of the fitted [betas] and [alphas], and of the two
    rolling reductions. *)

(** The size of a rolling window that pandas accepted. *)
Definition window_size (w : pynum) : nat :=
  match w with
  | PyInt n => Z.to_nat n
  | PyFloat _ => 0
  end.

(** The spread of lines 83-86 at row [k]. *)
Definition spread_at (log_mode : bool) (xs ys betas alphas : Series) (k : nat)
  : float :=
  if log_mode then iloc ys k - (iloc alphas k + iloc betas k * iloc xs k)
  else iloc ys k - iloc betas k * iloc xs k.

(** Row [j] has a value in each signal field: [beta] and [alpha] at the
    row, the spread on the last [sw] rows up to [j], the mean and the
    standard deviation of these, and the z-score. *)
Definition signal_defined (rmean rstd : nat -> Series -> float)
    (log_mode : bool) (sw : nat) (xs ys betas alphas : Series) (j : nat)
  : bool :=
  let spread := spread_at log_mode xs ys betas alphas in
  let sofar := spread <$> seq 0 (j + 1) in
  let m := rmean sw sofar in
  let sd := rstd sw sofar in
  notna (iloc betas j) && notna (iloc alphas j)
  && forallb notna (drop (j + 1 - sw) sofar)
  && notna m && notna sd && notna ((spread j - m) / sd).

(** Row [j] is past the warm-up of the two windows, [hw] rows for the first
    regression and [sw - 1] more for the first rolling window, and has a
    value in each signal field. *)
Definition survives (rmean rstd : nat -> Series -> float)
    (log_mode : bool) (hw sw : nat) (xs ys betas alphas : Series) (j : nat)
  : bool :=
  (1 <=? sw)%nat && (hw + sw <=? j + 1)%nat
  && signal_defined rmean rstd log_mode sw xs ys betas alphas j.

(** ** Sample configurations and inputs *)

(** The constructor's defaults, with a cost of one basis point. *)
Definition demo_params : Params float :=
  {| z_entry := 1.2; z_exit := 0.2; spread_window := PyInt 300;
     hedge_window := 300;
     initial_capital := 1000000; notional_per_leg := 100000;
     beta_neutral := true; cost_bps := 1; use_log_price_spread := true;
     max_hold_bars := None; stop_z := None |}.

(** The same with a stop at [|z| >= 2.5]. *)
Definition stop_params : Params float :=
  {| z_entry := 1.2; z_exit := 0.2; spread_window := PyInt 300;
     hedge_window := 300;
     initial_capital := 1000000; notional_per_leg := 100000;
     beta_neutral := true; cost_bps := 1; use_log_price_spread := true;
     max_hold_bars := None; stop_z := Some 2.5 |}.

(** The same with a negative notional, which the constructor accepts. *)
Definition negative_notional_params : Params float :=
  {| z_entry := 1.2; z_exit := 0.2; spread_window := PyInt 300;
     hedge_window := 300;
     initial_capital := 1000000; notional_per_leg := -100000;
     beta_neutral := true; cost_bps := 1; use_log_price_spread := true;
     max_hold_bars := None; stop_z := None |}.

(** A row with signal [z] and prices 100 and 50, [beta = 1]. *)
Definition demo_bar (t : Z) (z : float) : Bar float :=
  {| bar_t := t; bar_z := z; bar_beta := 1;
     bar_price_a := 100; bar_price_b := 50 |}.

(** A row on which the signal is back inside the exit band, with the
    first leg one dollar up. *)
Definition falling_bar : Bar float :=
  {| bar_t := 1; bar_z := 0.1; bar_beta := 1;
     bar_price_a := 101; bar_price_b := 50 |}.

(** The state of [demo_params] after a short-spread entry on bar 0. *)
Definition short_state : State float :=
  {| capital := 999980; position := -1; entry_idx := Some 0%Z;
     sh_a := -1000; sh_b := 2000; equity_series := [999980];
     trade_count := 1 |}.

(** The constructor's defaults in exact arithmetic, and a row like
    [demo_bar]. *)
Definition exact_params : Params Q :=
  {| z_entry := (6 # 5)%Q; z_exit := (1 # 5)%Q; spread_window := PyInt 300;
     hedge_window := 300; initial_capital := 1000000%Q;
     notional_per_leg := 100000%Q; beta_neutral := true; cost_bps := 1%Q;
     use_log_price_spread := true; max_hold_bars := None; stop_z := None |}.

Definition exact_bar (t : Z) (z : Q) : Bar Q :=
  {| bar_t := t; bar_z := z; bar_beta := 1%Q;
     bar_price_a := 100%Q; bar_price_b := 50%Q |}.

(** A caller's store with two price frames of five bars, and the
    backtester that the constructor builds on it with both windows at 2. *)
Definition warm_params : Params float :=
  {| z_entry := 1.2; z_exit := 0.2; spread_window := PyInt 2; hedge_window := 2;
     initial_capital := 1000000; notional_per_leg := 100000;
     beta_neutral := true; cost_bps := 0; use_log_price_spread := true;
     max_hold_bars := None; stop_z := None |}.

Definition price_frame (ts : list Z) (close : Series) : DataFrame :=
  set_col (new_frame ts) "close" close.

Definition five_a : DataFrame :=
  price_frame [0; 1; 2; 3; 4]%Z [100; 101; 103; 102; 105].
Definition five_b : DataFrame :=
  price_frame [0; 1; 2; 3; 4]%Z [50; 51; 50; 52; 51].

Definition five_store : list DataFrame := [five_a; five_b].

Definition five_self : Backtester :=
  {| df_a := 2; df_b := 3; params := warm_params |}.

(** The same object with thresholds that the two prepared rows of the
    sample cross: with two values in the rolling window, [z] is 1 or -1, up
    to rounding. *)
Definition trade_params : Params float :=
  {| z_entry := 0.5; z_exit := 0.2; spread_window := PyInt 2; hedge_window := 2;
     initial_capital := 1000000; notional_per_leg := 100000;
     beta_neutral := true; cost_bps := 1; use_log_price_spread := true;
     max_hold_bars := None; stop_z := None |}.

Definition trade_self : Backtester :=
  {| df_a := 2; df_b := 3; params := trade_params |}.

(** The same with [max_hold_bars=float('inf')]. *)
Definition unbounded_trade_self : Backtester :=
  {| df_a := 2; df_b := 3;
     params :=
       {| z_entry := 0.5; z_exit := 0.2; spread_window := PyInt 2;
          hedge_window := 2;
          initial_capital := 1000000; notional_per_leg := 100000;
          beta_neutral := true; cost_bps := 1; use_log_price_spread := true;
          max_hold_bars := Some (PyFloat infinity); stop_z := None |} |}.

(** Two frames of four rows whose [x] and [y] agree on rows 0 and 1. *)
Definition xy_frame (x y : Series) : DataFrame :=
  set_col (set_col (new_frame [0; 1; 2; 3]%Z) "x" x) "y" y.

Definition xy_one : DataFrame := xy_frame [1; 2; 3; 4] [2; 4; 7; 8].
Definition xy_two : DataFrame := xy_frame [1; 2; 9; 9] [2; 4; 0; 0].

(** A start without cash: the first bar is flat, the second one enters. *)
Definition zero_capital_params : Params float :=
  {| z_entry := 1.2; z_exit := 0.2; spread_window := PyInt 300;
     hedge_window := 300;
     initial_capital := 0; notional_per_leg := 100000;
     beta_neutral := true; cost_bps := 1; use_log_price_spread := true;
     max_hold_bars := None; stop_z := None |}.

Definition zero_capital_bars : list (Bar float) :=
  [demo_bar 0 0; demo_bar 1 2; demo_bar 2 1.5].

(** ** The shapes of the loop state *)

(** The holding limit is [None], or a number that [int] converts: an int
    or a finite float. *)
Definition hold_limit_converts {F : Type} (p : Params F) : Prop :=
  forall limit, max_hold_bars p = Some limit -> exists m, py_int limit = Ok m.

(** Flat with nothing held and no entry label, or one unit long or short
    with an entry label. *)
Definition well_formed {F : Type} `{Num F} (st : State F) : Prop :=
  (position st = 0%Z /\ entry_idx st = None
   /\ sh_a st = of_int 0 /\ sh_b st = of_int 0)
  \/ ((position st = 1%Z \/ position st = (-1)%Z) /\ is_Some (entry_idx st)).

(** The equity that line 168 records on a bar that starts and stays flat
    with the initial capital. *)
Definition flat_equity {F : Type} `{Num F} (p : Params F) (b : Bar F) : F :=
  (initial_capital p + (of_int 0 * bar_price_a b + of_int 0 * bar_price_b b))%num.

(** The state of a run of the loop that never left the flat state. *)
Definition quiet_state {F : Type} `{Num F} (p : Params F) (bars : list (Bar F))
  : State F :=
  {| capital := initial_capital p; position := 0; entry_idx := None;
     sh_a := of_int 0; sh_b := of_int 0;
     equity_series := flat_equity p <$> bars; trade_count := 0 |}.

(** After [i] bars of the index [idx], an open position was entered on one
    of them, at a position [j], and the [i - 1 - j] bars it has been held
    since are fewer than [limit]. *)
Definition held_within {F : Type} (idx : list Z) (limit : Z) (i : nat)
    (st : State F) : Prop :=
  position st <> 0%Z ->
  exists j e, (j < i)%nat /\ entry_idx st = Some e /\ idx !! j = Some e
              /\ (Z.of_nat i - 1 - Z.of_nat j < limit)%Z.

(** Bars whose signal stays inside the entry band; the second one has no
    prices. *)
Definition quiet_bars : list (Bar float) :=
  [demo_bar 0 0.5;
   {| bar_t := 1; bar_z := -1; bar_beta := 1;
      bar_price_a := 0; bar_price_b := 0 |};
   demo_bar 2 1.2].

(** The same store and object with both windows at 3: the five common
    bars are fewer than the warm-up needs. *)
Definition wide_params : Params float :=
  {| z_entry := 1.2; z_exit := 0.2; spread_window := PyInt 3; hedge_window := 3;
     initial_capital := 1000000; notional_per_leg := 100000;
     beta_neutral := true; cost_bps := 0; use_log_price_spread := true;
     max_hold_bars := None; stop_z := None |}.

Definition wide_self : Backtester :=
  {| df_a := 2; df_b := 3; params := wide_params |}.

(** The same with [spread_window=-1], and with [spread_window=2.0]. *)
Definition negative_window_params : Params float :=
  {| z_entry := 1.2; z_exit := 0.2; spread_window := PyInt (-1);
     hedge_window := 2;
     initial_capital := 1000000; notional_per_leg := 100000;
     beta_neutral := true; cost_bps := 0; use_log_price_spread := true;
     max_hold_bars := None; stop_z := None |}.

Definition negative_window_self : Backtester :=
  {| df_a := 2; df_b := 3; params := negative_window_params |}.

Definition float_window_params : Params float :=
  {| z_entry := 1.2; z_exit := 0.2; spread_window := PyFloat 2;
     hedge_window := 2;
     initial_capital := 1000000; notional_per_leg := 100000;
     beta_neutral := true; cost_bps := 0; use_log_price_spread := true;
     max_hold_bars := None; stop_z := None |}.

Definition float_window_self : Backtester :=
  {| df_a := 2; df_b := 3; params := float_window_params |}.

(** An object whose first frame has labels and no [close] column. *)
Definition bare_store : list DataFrame := [new_frame [0; 1; 2]%Z; five_b].

Definition bare_self : Backtester :=
  {| df_a := 0; df_b := 1; params := warm_params |}.

(** [five_b] with a last price of 0. *)
Definition five_b_zero : DataFrame :=
  price_frame [0; 1; 2; 3; 4]%Z [50; 51; 50; 52; 0].

(** [five_a] with other prices on the last two bars. *)
Definition five_a_late : DataFrame :=
  price_frame [0; 1; 2; 3; 4]%Z [100; 101; 103; 90; 120].

(** The aligned frame and the signal frame of the sample, with the
    stand-ins, for [five_a] and for [five_a_late]. *)
Definition five_aligned : DataFrame :=
  Eval vm_compute in
    match aligned_frame ln_float warm_params five_a five_b with
    | Ok d => d
    | Raise _ => new_frame []
    end.

Definition five_signal : DataFrame :=
  Eval vm_compute in
    match signal_frame ols_fit window_mean window_std warm_params
        (dropna five_aligned) with
    | Ok d => d
    | Raise _ => new_frame []
    end.

Definition five_aligned_late : DataFrame :=
  Eval vm_compute in
    match aligned_frame ln_float warm_params five_a_late five_b with
    | Ok d => d
    | Raise _ => new_frame []
    end.

Definition five_signal_late : DataFrame :=
  Eval vm_compute in
    match signal_frame ols_fit window_mean window_std warm_params
        (dropna five_aligned_late) with
    | Ok d => d
    | Raise _ => new_frame []
    end.

(** ** Samples for the live layer

    Timestamps in whole seconds stand in for those of pandas. *)
Definition seconds_between (a b : Z) : option float :=
  Some (float_of_Z (a - b)).

(** Seconds with a flag for the time zone: two timestamps are subtracted
    when both have one or none has. *)
Definition zoned_seconds_between (a b : Z * bool) : option float :=
  if Bool.eqb a.2 b.2 then Some (float_of_Z (a.1 - b.1)) else None.

(** The defaults of lines 15-26. *)
Definition live_params : ExecLayer.StrategyParams :=
  {| ExecLayer.z_entry := 0.3; ExecLayer.z_exit := 0.05;
     ExecLayer.max_hold_min := 120; ExecLayer.base_size := 50;
     ExecLayer.high_vol_multiplier := 1 |}.

(** The same with the thresholds of [demo_params]. *)
Definition paired_params : ExecLayer.StrategyParams :=
  {| ExecLayer.z_entry := 1.2; ExecLayer.z_exit := 0.2;
     ExecLayer.max_hold_min := 120; ExecLayer.base_size := 50;
     ExecLayer.high_vol_multiplier := 1 |}.

Definition live_exec : ExecLayer.ExecParams :=
  {| ExecLayer.cooldown_min := 1 |}.

Definition feature_frame (ts : list Z) (z : Series) : DataFrame :=
  set_col (new_frame ts) "z_spread" z.

(** A short-A position entered at second 0. *)
Definition short_trade : ExecLayer.StateDict Z :=
  {| ExecLayer.in_trade := true;
     ExecLayer.side := Some ExecLayer.SHORT_A_LONG_B;
     ExecLayer.entry_time := Some 0%Z;
     ExecLayer.entry_beta := None |}.

(** The state right after a short-A entry at second 60. *)
Definition entered_short : ExecLayer.StateDict Z :=
  {| ExecLayer.in_trade := true;
     ExecLayer.side := Some ExecLayer.SHORT_A_LONG_B;
     ExecLayer.entry_time := Some 60%Z;
     ExecLayer.entry_beta := None |}.

(** One holding, in another symbol. *)
Definition other_holding : list (Holding float) :=
  [{| held_symbol := "MSFT"; held_position := 10 |}].

(** The columns of a prepared frame. *)
Definition prepared_columns : list string :=
  ["price_a"; "price_b"; "x"; "y";
   "beta"; "alpha"; "spread"; "spread_mean"; "spread_std"; "z"].

(** The defaults with a limit of two bars on the holding time. *)
Definition hold_params : Params float :=
  {| z_entry := 1.2; z_exit := 0.2; spread_window := PyInt 300;
     hedge_window := 300;
     initial_capital := 1000000; notional_per_leg := 100000;
     beta_neutral := true; cost_bps := 1; use_log_price_spread := true;
     max_hold_bars := Some (PyInt 2); stop_z := None |}.

(** An entry on bar 0 that the signal never closes. *)
Definition hold_bars : list (Bar float) :=
  [demo_bar 0 2; demo_bar 1 1.5; demo_bar 2 1.5; demo_bar 3 0.5].

(** The same with the limit given as a float: [int(2.5)] is 2. *)
Definition float_hold_params : Params float :=
  {| z_entry := 1.2; z_exit := 0.2; spread_window := PyInt 300;
     hedge_window := 300;
     initial_capital := 1000000; notional_per_leg := 100000;
     beta_neutral := true; cost_bps := 1; use_log_price_spread := true;
     max_hold_bars := Some (PyFloat 2.5); stop_z := None |}.

(** The same with [max_hold_bars=float('inf')], which [int] refuses. *)
Definition unbounded_hold_params : Params float :=
  {| z_entry := 1.2; z_exit := 0.2; spread_window := PyInt 300;
     hedge_window := 300;
     initial_capital := 1000000; notional_per_leg := 100000;
     beta_neutral := true; cost_bps := 1; use_log_price_spread := true;
     max_hold_bars := Some (PyFloat infinity); stop_z := None |}.

(** * Facts about the bar loop *)

Section LoopFacts.
Context {F : Type} `{Num F}.
Variable p : Params F.
Local Open Scope num_scope.

Lemma bind_Ok {A B : Type} (m : res A) (k : A -> res B) (b : B) :
  m ≫= k = Ok b -> exists a, m = Ok a /\ k a = Ok b.
Proof. destruct m as [a|e]; [eauto | discriminate]. Qed.

(** The ENTRY branch either leaves the state alone or opens a position. *)
Lemma entry_phase_cases (st mid : State F) (b : Bar F) :
  entry_phase p st b = Ok mid ->
  (mid = st /\ opens p st b = false)
  \/ (position st = 0%Z /\ entry_signal p (bar_z b) <> 0%Z
      /\ open_position p st b (entry_signal p (bar_z b)) = Ok mid
      /\ opens p st b = true).
Proof.
  unfold opens, entry_phase. intros Hm.
  destruct (position st =? 0)%Z eqn:Hpos.
  - destruct (entry_signal p (bar_z b) =? 0)%Z eqn:Hd; simpl in *.
    + left. inversion Hm; subst. rewrite Hpos. split; [done|].
      simpl. done.
    + right. rewrite Hm. apply Z.eqb_eq in Hpos.
      repeat split; try done; [by apply Z.eqb_neq in Hd|].
      apply bind_Ok in Hm as (qa & _ & Hm). apply bind_Ok in Hm as (qb & _ & Hm).
      inversion Hm; subst; simpl. by rewrite Hd.
  - left. by inversion Hm.
Qed.

Lemma open_position_fields (st mid : State F) (b : Bar F) (d : Z) :
  open_position p st b d = Ok mid ->
  exists qa qb,
    pydiv (notional_per_leg p) (bar_price_a b) = Ok qa
    /\ pydiv (notional_per_leg p
              * (if beta_neutral p then num_abs (bar_beta b) else of_int 1))
             (bar_price_b b) = Ok qb
    /\ mid = {| capital := capital st - _trade_cost p;
                position := d;
                entry_idx := Some (bar_t b);
                sh_a := qa * of_int d;
                sh_b := (- qb) * of_int d;
                equity_series := equity_series st;
                trade_count := S (trade_count st) |}.
Proof.
  unfold open_position. intros Hm.
  apply bind_Ok in Hm as (qa & Ha & Hm). apply bind_Ok in Hm as (qb & Hb & Hm).
  exists qa, qb. by inversion Hm.
Qed.

Lemma pydiv_Ok (x y q : F) :
  pydiv x y = Ok q -> (y =? of_int 0) = false /\ q = x / y.
Proof.
  unfold pydiv. destruct (y =? of_int 0); [discriminate|].
  intros [= <-]. done.
Qed.

(** What one iteration does, given the two things it computes first. *)
Lemma step_inv (idx : list Z) (st st' : State F) (b : Bar F) :
  step p idx st b = Ok st' ->
  exists held mid,
    held_too_long p idx st (bar_t b) = Ok held
    /\ entry_phase p st b = Ok mid
    /\ st' = (let equity := capital mid + mtm mid b in
              let rec := record_equity mid equity in
              if exit_triggered p rec b held then realize_exit p rec equity
              else rec).
Proof.
  unfold step. intros Hs.
  apply bind_Ok in Hs as (held & Hh & Hs). apply bind_Ok in Hs as (mid & Hm & Hs).
  exists held, mid. repeat split; try done.
  simpl in *. destruct (exit_triggered _ _ _ _); by inversion Hs.
Qed.

Lemma step_trade_count (idx : list Z) (st st' : State F) (b : Bar F) :
  step p idx st b = Ok st' ->
  trade_count st' = ((if opens p st b then 1 else 0) + trade_count st)%nat.
Proof.
  intros (held & mid & _ & Hm & ->)%step_inv.
  assert (trade_count mid = ((if opens p st b then 1 else 0) + trade_count st)%nat)
    as <-.
  { apply entry_phase_cases in Hm as [[-> ->]|(_ & _ & Ho & ->)]; [done|].
    apply open_position_fields in Ho as (qa & qb & _ & _ & ->). done. }
  simpl. by destruct (exit_triggered _ _ _ _).
Qed.

Lemma run_bars_trade_count (idx : list Z) (bars : list (Bar F)) :
  forall st st', run_bars p idx st bars = Ok st' ->
  trade_count st' = (trade_count st + entries p idx st bars)%nat.
Proof.
  induction bars as [|b bars IH]; intros st st' Hr; simpl in *.
  - inversion Hr. lia.
  - apply bind_Ok in Hr as (st1 & Hs & Hr). rewrite Hs.
    apply IH in Hr. apply step_trade_count in Hs. lia.
Qed.

Lemma step_equity_length (idx : list Z) (st st' : State F) (b : Bar F) :
  step p idx st b = Ok st' ->
  length (equity_series st') = S (length (equity_series st)).
Proof.
  intros (held & mid & _ & Hm & ->)%step_inv.
  assert (equity_series mid = equity_series st) as <-.
  { apply entry_phase_cases in Hm as [[-> _]|(_ & _ & Ho & _)]; [done|].
    apply open_position_fields in Ho as (qa & qb & _ & _ & ->). done. }
  simpl. destruct (exit_triggered _ _ _ _); simpl; rewrite length_app; simpl; lia.
Qed.

Lemma run_bars_equity_length (idx : list Z) (bars : list (Bar F)) :
  forall st st', run_bars p idx st bars = Ok st' ->
  length (equity_series st') = (length (equity_series st) + length bars)%nat.
Proof.
  induction bars as [|b bars IH]; intros st st' Hr; simpl in *.
  - inversion Hr. lia.
  - apply bind_Ok in Hr as (st1 & Hs & Hr).
    apply IH in Hr. apply step_equity_length in Hs. lia.
Qed.

Lemma get_loc_Ok (idx : list Z) (t : Z) :
  t ∈ idx -> exists i, get_loc idx t = Ok i.
Proof.
  intros Hin. unfold get_loc.
  destruct (list_find_elem_of (fun u => u = t) idx t Hin eq_refl) as [[i u] ->].
  by exists i.
Qed.

(** The loop raises nothing on bars with non-zero prices, when the
    holding limit converts. *)
Lemma step_total (idx : list Z) (st : State F) (b : Bar F) :
  hold_limit_converts p ->
  bar_t b ∈ idx ->
  (forall e, entry_idx st = Some e -> e ∈ idx) ->
  (bar_price_a b =? of_int 0) = false ->
  (bar_price_b b =? of_int 0) = false ->
  exists st', step p idx st b = Ok st'
              /\ (forall e, entry_idx st' = Some e -> e ∈ idx).
Proof.
  intros Hlim Ht He Ha Hb. unfold step.
  assert (exists held, held_too_long p idx st (bar_t b) = Ok held) as [held ->].
  { unfold held_too_long. destruct (negb _); [|by eexists].
    destruct (max_hold_bars p) as [limit|] eqn:Hmax; [|by eexists].
    destruct (entry_idx st) as [e|] eqn:Hent; [|by eexists].
    destruct (get_loc_Ok idx (bar_t b) Ht) as [i ->].
    destruct (get_loc_Ok idx e (He e eq_refl)) as [j ->].
    destruct (Hlim limit Hmax) as [m ->]. by eexists. }
  cbn [mbind res_bind].
  assert (exists mid, entry_phase p st b = Ok mid
                      /\ (forall e, entry_idx mid = Some e -> e ∈ idx))
    as (mid & -> & Hmid).
  { unfold entry_phase. destruct (position st =? 0)%Z; [|by exists st].
    destruct (negb _); [|by exists st].
    unfold open_position, pydiv. rewrite Ha, Hb. cbn [mbind res_bind].
    eexists; split; [reflexivity|]. simpl. by intros e [= <-]. }
  cbn [mbind res_bind]. cbv zeta.
  destruct (exit_triggered _ _ _ _); eexists; (split; [reflexivity|]); done.
Qed.

Lemma run_bars_total (idx : list Z) (bars : list (Bar F)) :
  hold_limit_converts p ->
  forall st,
  (forall e, entry_idx st = Some e -> e ∈ idx) ->
  Forall (fun b => bar_t b ∈ idx
                   /\ (bar_price_a b =? of_int 0) = false
                   /\ (bar_price_b b =? of_int 0) = false) bars ->
  exists st', run_bars p idx st bars = Ok st'.
Proof.
  intros Hlim.
  induction bars as [|b bars IH]; intros st He Hall; simpl; [by eexists|].
  apply Forall_cons in Hall as [(Ht & Ha & Hb) Hall].
  destruct (step_total idx st b Hlim Ht He Ha Hb) as (st1 & -> & He1).
  cbn [mbind res_bind]. by apply IH.
Qed.

(** X6.  With a holding limit that is [None] or that [int] converts (an
    int or a finite float), the loop raises nothing on bars whose two
    prices are not zero: it reaches the end of the bars and returns a
    state, whatever the signals, the thresholds, the stop and the value of
    the limit are. *)
Lemma simulate_total (bars : list (Bar F)) :
  hold_limit_converts p ->
  Forall (fun b => (bar_price_a b =? of_int 0) = false
                   /\ (bar_price_b b =? of_int 0) = false) bars ->
  exists st, simulate p bars = Ok st.
Proof.
  intros Hlim Hall. unfold simulate. apply run_bars_total; [done|done|].
  apply Forall_forall. intros b Hb.
  split; [by apply list_elem_of_fmap_2|].
  by apply (proj1 (Forall_forall _ _) Hall).
Qed.

End LoopFacts.

(** * Properties of the bar loop *)

Section LoopProperties.
Context {F : Type} `{Num F}.
Variable p : Params F.
Local Open Scope num_scope.

(** C4.  On a bar where the exit fires (the position after the ENTRY
    branch is open, and the signal is inside the exit band, or the stop or
    the age limit is hit), the equity appended for the bar is the capital
    plus the value of the two legs at the bar's prices,
    [capital + (sh_a * price_a + sh_b * price_b)], with the capital and the
    shares as the ENTRY branch left them: those the bar started with when
    it started in a position.  The exit cost is subtracted from that
    recorded value only afterwards, to give the new capital, and the
    position, both share counts and the entry label are cleared.  The trade
    count is left as it was. *)
Theorem exit_bar_equity_excludes_exit_cost
    (idx : list Z) (st st' mid : State F) (b : Bar F) (held : bool) :
  step p idx st b = Ok st' ->
  held_too_long p idx st (bar_t b) = Ok held ->
  entry_phase p st b = Ok mid ->
  position mid <> 0%Z ->
  (num_abs (bar_z b) <? z_exit p)
  || match stop_z p with
     | Some s => s <=? num_abs (bar_z b)
     | None => false
     end
  || held = true ->
  let equity :=
    capital mid + (sh_a mid * bar_price_a b + sh_b mid * bar_price_b b) in
  let cost :=
    if cost_bps p <=? of_int 0 then of_int 0
    else of_int 2 * notional_per_leg p * (cost_bps p / of_int 10000) in
  (position st <> 0%Z -> mid = st)
  /\ equity_series st' = equity_series st ++ [equity]
  /\ capital st' = equity - cost
  /\ position st' = 0%Z
  /\ sh_a st' = of_int 0
  /\ sh_b st' = of_int 0
  /\ entry_idx st' = None
  /\ trade_count st' = trade_count mid.
Proof.
  intros (held' & mid' & Hh' & Hm' & ->)%step_inv Hh Hm Hpos Hx.
  rewrite Hh in Hh'. rewrite Hm in Hm'.
  injection Hh' as <-. injection Hm' as <-.
  assert (equity_series mid = equity_series st) as Heq.
  { apply entry_phase_cases in Hm as [[-> _]|(_ & _ & Ho & _)]; [done|].
    by apply open_position_fields in Ho as (qa & qb & _ & _ & ->). }
  cbv zeta.
  assert (exit_triggered p (record_equity mid (capital mid + mtm mid b)) b held
          = true) as ->.
  { unfold exit_triggered, stop_out. cbn [record_equity position].
    apply Z.eqb_neq in Hpos. rewrite Hpos. exact Hx. }
  split.
  { intros Hst. unfold entry_phase in Hm. apply Z.eqb_neq in Hst.
    rewrite Hst in Hm. by injection Hm as <-. }
  cbn [realize_exit record_equity equity_series capital position sh_a sh_b
       entry_idx trade_count]. rewrite Heq. done.
Qed.

(** The trade count that the loop ends with is the number of bars that
    started flat and on which the ENTRY branch opened a position. *)
Lemma simulate_trade_count (bars : list (Bar F)) (st' : State F) :
  simulate p bars = Ok st' ->
  trade_count st' = entries p (bar_t <$> bars) (initial_state p) bars.
Proof.
  unfold simulate. intros Hr. by apply run_bars_trade_count in Hr.
Qed.

(** The sizing of lines 142-146, for any arithmetic. *)
Lemma entry_sizing (st mid : State F) (b : Bar F) :
  position st = 0%Z ->
  entry_phase p st b = Ok mid ->
  position mid <> 0%Z ->
  let d := position mid in
  let scale := if beta_neutral p then num_abs (bar_beta b) else of_int 1 in
  (d = 1%Z \/ d = (-1)%Z)
  /\ (bar_price_a b =? of_int 0) = false
  /\ (bar_price_b b =? of_int 0) = false
  /\ sh_a mid = (notional_per_leg p / bar_price_a b) * of_int d
  /\ sh_b mid = (- (notional_per_leg p * scale / bar_price_b b)) * of_int d.
Proof.
  intros Hflat Hm Hopen.
  apply entry_phase_cases in Hm as [[-> _]|(_ & Hd & Ho & _)]; [done|].
  apply open_position_fields in Ho as (qa & qb & Ha & Hb & ->).
  apply pydiv_Ok in Ha as [Ha ->]. apply pydiv_Ok in Hb as [Hb ->].
  simpl. repeat split; try done.
  unfold entry_signal in *.
  destruct (z_entry p <? bar_z b); [by right|].
  destruct (bar_z b <? - z_entry p); [by left|done].
Qed.

(** Entries and exits do not look at the cash: at another [cost_bps] the
    loop takes the same decisions on the same bars, for any arithmetic. *)
Lemma step_same_trades (c1 c2 : F) (idx : list Z) (s1 s2 s1' : State F)
    (b : Bar F) :
  same_trades s1 s2 ->
  step (with_cost p c1) idx s1 b = Ok s1' ->
  exists s2', step (with_cost p c2) idx s2 b = Ok s2' /\ same_trades s1' s2'.
Proof.
  intros (Hpos & Hidx & Hsa & Hsb & Htc & Hlen)
         (held & m1 & Hh & Hm & ->)%step_inv.
  assert (exists m2, entry_phase (with_cost p c2) s2 b = Ok m2
                     /\ same_trades m1 m2) as (m2 & Hm2 & Hs).
  { unfold entry_phase in *. rewrite <- Hpos.
    change (entry_signal (with_cost p c2)) with (entry_signal (with_cost p c1)).
    destruct (position s1 =? 0)%Z;
      [|injection Hm as <-; exists s2; by repeat split].
    destruct (negb _); [|injection Hm as <-; exists s2; by repeat split].
    apply open_position_fields in Hm as (qa & qb & Ha & Hb & ->).
    unfold open_position.
    change (notional_per_leg (with_cost p c2))
      with (notional_per_leg (with_cost p c1)).
    change (beta_neutral (with_cost p c2)) with (beta_neutral (with_cost p c1)).
    rewrite Ha. cbn [mbind res_bind]. rewrite Hb. cbn [mbind res_bind].
    eexists; split; [reflexivity|].
    unfold same_trades; simpl. rewrite Htc. by repeat split. }
  destruct Hs as (Hpos2 & Hidx2 & Hsa2 & Hsb2 & Htc2 & Hlen2).
  unfold step.
  assert (held_too_long (with_cost p c2) idx s2 (bar_t b) = Ok held) as ->.
  { rewrite <- Hh. unfold held_too_long. by rewrite Hpos, Hidx. }
  cbn [mbind res_bind]. rewrite Hm2. cbn [mbind res_bind]. cbv zeta.
  assert (exit_triggered (with_cost p c2)
            (record_equity m2 (capital m2 + mtm m2 b)) b held
          = exit_triggered (with_cost p c1)
              (record_equity m1 (capital m1 + mtm m1 b)) b held) as ->.
  { unfold exit_triggered. simpl. by rewrite Hpos2. }
  destruct (exit_triggered _ _ _ _); (eexists; split; [reflexivity|]);
    unfold same_trades; simpl; rewrite !length_app, Hlen2; by repeat split.
Qed.

(** X7.  The decisions of the loop do not depend on [cost_bps]: run on the
    same bars with another cost, the loop completes as well and ends with
    the same position, entry label, shares and trade count, after recording
    as many equity points.  Only the cash differs. *)
Lemma decisions_independent_of_cost (c1 c2 : F) (bars : list (Bar F))
    (s1 : State F) :
  simulate (with_cost p c1) bars = Ok s1 ->
  exists s2, simulate (with_cost p c2) bars = Ok s2 /\ same_trades s1 s2.
Proof.
  unfold simulate.
  assert (same_trades (initial_state (with_cost p c1))
                      (initial_state (with_cost p c2))) as Hinit
    by (by repeat split).
  revert Hinit. generalize (initial_state (with_cost p c1)).
  generalize (initial_state (with_cost p c2)).
  generalize (bar_t <$> bars) as idx.
  induction bars as [|b bars IH]; intros idx t2 t1 Hs Hr; simpl in *.
  - injection Hr as <-. by exists t2.
  - apply bind_Ok in Hr as (u1 & Hstep & Hr).
    destruct (step_same_trades c1 c2 idx t1 t2 u1 b Hs Hstep) as (u2 & -> & Hu).
    cbn [mbind res_bind]. by apply (IH idx u2 u1).
Qed.

End LoopProperties.

(** * The bar loop in exact arithmetic *)

Section ExactLoop.
Variable p : Params Q.

Lemma Qeq_bool_false (x y : Q) : Qeq_bool x y = false -> ~ (x == y)%Q.
Proof. intros Hb Heq. apply Qeq_bool_iff in Heq. congruence. Qed.

Lemma Qabs_unit (d : Z) (x : Q) :
  d = 1%Z \/ d = (-1)%Z -> (Qabs (x * inject_Z d) == Qabs x)%Q.
Proof.
  intros [-> | ->]; rewrite Qabs_Qmult.
  - change (Qabs (inject_Z 1)) with 1%Q. ring.
  - change (Qabs (inject_Z (-1))) with 1%Q. ring.
Qed.

(** C5.  After an entry in direction [d], in exact arithmetic:
    [sh_a = (notional_per_leg / price_a) * d],
    [sh_b = -(notional_per_leg * scale / price_b) * d] with [scale = |beta|]
    when beta-neutral and 1 otherwise, and [|sh_a * price_a|] is
    [|notional_per_leg|], hence [notional_per_leg] itself when that is not
    negative. *)
Theorem entry_dollar_neutral (st mid : State Q) (b : Bar Q) :
  position st = 0%Z ->
  entry_phase p st b = Ok mid ->
  position mid <> 0%Z ->
  let d := position mid in
  let scale := if beta_neutral p then Qabs (bar_beta b) else 1%Q in
  (d = 1%Z \/ d = (-1)%Z)
  /\ sh_a mid = (notional_per_leg p / bar_price_a b * inject_Z d)%Q
  /\ sh_b mid = (- (notional_per_leg p * scale / bar_price_b b) * inject_Z d)%Q
  /\ (Qabs (sh_a mid * bar_price_a b) == Qabs (notional_per_leg p))%Q
  /\ ((0 <= notional_per_leg p)%Q ->
      (Qabs (sh_a mid * bar_price_a b) == notional_per_leg p)%Q).
Proof.
  intros Hflat Hm Hopen.
  destruct (entry_sizing p st mid b Hflat Hm Hopen) as (Hd & Ha & Hb & Hsa & Hsb).
  cbn in Ha, Hb, Hsa, Hsb. apply Qeq_bool_false in Ha.
  assert (Qabs (sh_a mid * bar_price_a b) == Qabs (notional_per_leg p))%Q as Habs.
  { rewrite Hsa, <- (Qabs_unit (position mid) (notional_per_leg p) Hd).
    apply Qabs_wd. field. exact Ha. }
  cbv zeta. repeat split; try done.
  intros Hpos. rewrite Habs. by apply Qabs_pos.
Qed.

End ExactLoop.

Section CostMonotone.
Variable p : Params Q.
Variables c1 c2 : Q.
Hypothesis notional_nonneg : (0 <= notional_per_leg p)%Q.
Hypothesis cost_le : (c1 <= c2)%Q.

Lemma cost_form (n c : Q) :
  (2 * n * (c / 10000) == n * c * (2 # 10000))%Q.
Proof. field. Qed.

Lemma trade_cost_mono :
  (_trade_cost (with_cost p c1) <= _trade_cost (with_cost p c2))%Q.
Proof.
  unfold _trade_cost. cbn.
  change (inject_Z 0) with 0%Q. change (inject_Z 2) with 2%Q.
  change (inject_Z 10000) with 10000%Q.
  destruct (Qle_bool c1 0) eqn:H1, (Qle_bool c2 0) eqn:H2;
    rewrite ?cost_form.
  - lra.
  - assert (~ (c2 <= 0)%Q) as H2' by (rewrite <- Qle_bool_iff; congruence).
    assert (0 <= notional_per_leg p * c2)%Q by (apply Qmult_le_0_compat; lra).
    lra.
  - apply Qle_bool_iff in H2.
    assert (~ (c1 <= 0)%Q) as H1' by (rewrite <- Qle_bool_iff; congruence).
    lra.
  - assert (notional_per_leg p * c1 <= notional_per_leg p * c2)%Q.
    { rewrite !(Qmult_comm (notional_per_leg p)).
      by apply Qmult_le_compat_r. }
    lra.
Qed.

Lemma entry_phase_dominated (s1 s2 m1 : State Q) (b : Bar Q) :
  dominated s1 s2 ->
  entry_phase (with_cost p c1) s1 b = Ok m1 ->
  exists m2, entry_phase (with_cost p c2) s2 b = Ok m2 /\ dominated m1 m2.
Proof.
  intros Hd Hm. pose proof Hd as (Hpos & Hidx & Hsa & Hsb & Htc & Hcap & Heq).
  pose proof trade_cost_mono as Hcost.
  unfold entry_phase in *. rewrite <- Hpos.
  change (entry_signal (with_cost p c2)) with (entry_signal (with_cost p c1)).
  destruct (position s1 =? 0)%Z; [|injection Hm as <-; by exists s2].
  destruct (negb _); [|injection Hm as <-; by exists s2].
  apply open_position_fields in Hm as (qa & qb & Ha & Hb & ->).
  unfold open_position.
  change (notional_per_leg (with_cost p c2)) with (notional_per_leg (with_cost p c1)).
  change (beta_neutral (with_cost p c2)) with (beta_neutral (with_cost p c1)).
  rewrite Ha. cbn [mbind res_bind]. rewrite Hb. cbn [mbind res_bind].
  eexists; split; [reflexivity|].
  unfold dominated; cbn -[_trade_cost]. rewrite Htc. repeat split; try done. lra.
Qed.

(** One bar keeps the two runs in step. *)
Lemma step_dominated (idx : list Z) (s1 s2 s1' : State Q) (b : Bar Q) :
  dominated s1 s2 ->
  step (with_cost p c1) idx s1 b = Ok s1' ->
  exists s2', step (with_cost p c2) idx s2 b = Ok s2' /\ dominated s1' s2'.
Proof.
  intros Hd (held & m1 & Hh & Hm & ->)%step_inv.
  destruct (entry_phase_dominated s1 s2 m1 b Hd Hm) as (m2 & Hm2 & Hd2).
  pose proof Hd as (Hpos & Hidx & _).
  pose proof Hd2 as (Hpos2 & Hidx2 & Hsa2 & Hsb2 & Htc2 & Hcap2 & Heq2).
  pose proof trade_cost_mono as Hcost.
  unfold step.
  assert (held_too_long (with_cost p c2) idx s2 (bar_t b) = Ok held) as ->.
  { rewrite <- Hh. unfold held_too_long. by rewrite Hpos, Hidx. }
  cbn [mbind res_bind]. rewrite Hm2. cbn [mbind res_bind].
  assert (exit_triggered (with_cost p c2)
            (record_equity m2 (capital m2 + mtm m2 b)%num) b held
          = exit_triggered (with_cost p c1)
              (record_equity m1 (capital m1 + mtm m1 b)%num) b held)
    as ->.
  { unfold exit_triggered. cbn. by rewrite Hpos2. }
  assert (capital m2 + mtm m2 b <= capital m1 + mtm m1 b)%Q
    as Hequity.
  { unfold mtm. cbn. rewrite Hsa2, Hsb2. lra. }
  cbv zeta.
  destruct (exit_triggered _ _ _ _); (eexists; split; [reflexivity|]);
    unfold dominated; cbn -[_trade_cost]; repeat split; try done;
    try (apply Forall2_app; [done|by constructor]).
  unfold mtm in Hequity. cbn in Hequity. lra.
Qed.

Lemma run_bars_dominated (idx : list Z) (bars : list (Bar Q)) :
  forall s1 s2 s1',
  dominated s1 s2 ->
  run_bars (with_cost p c1) idx s1 bars = Ok s1' ->
  exists s2', run_bars (with_cost p c2) idx s2 bars = Ok s2' /\ dominated s1' s2'.
Proof.
  induction bars as [|b bars IH]; intros s1 s2 s1' Hd Hr; simpl in *.
  - injection Hr as <-. by exists s2.
  - apply bind_Ok in Hr as (t1 & Hs & Hr).
    destruct (step_dominated idx s1 s2 t1 b Hd Hs) as (t2 & -> & Hd').
    simpl. by apply (IH t1 t2).
Qed.

End CostMonotone.

(** C6.  In exact arithmetic and with a notional that is not
    negative: when the run at the smaller [cost_bps] completes, so does the
    run at the larger one on the same bars, with the same trades, and none
    of its equity points, the final one included, is larger.  A cost that
    is not positive deducts nothing. *)
Theorem cost_monotone (p : Params Q) (c1 c2 : Q) (bars : list (Bar Q))
    (s1 : State Q) :
  (0 <= notional_per_leg p)%Q ->
  (c1 <= c2)%Q ->
  simulate (with_cost p c1) bars = Ok s1 ->
  exists s2,
    simulate (with_cost p c2) bars = Ok s2
    /\ trade_count s1 = trade_count s2
    /\ Forall2 (fun e1 e2 => (e2 <= e1)%Q) (equity_series s1) (equity_series s2)
    /\ (forall e1 e2, final_equity s1 = Some e1 -> final_equity s2 = Some e2 ->
                      (e2 <= e1)%Q)
    /\ ((c1 <= 0)%Q -> _trade_cost (with_cost p c1) = 0%Q).
Proof.
  intros HN Hc Hr. unfold simulate in *.
  destruct (run_bars_dominated p c1 c2 HN Hc (bar_t <$> bars) bars
              (initial_state (with_cost p c1)) (initial_state (with_cost p c2)) s1)
    as (s2 & Hr2 & Hd); [|done|].
  { unfold dominated; cbn. repeat split; try done. lra. }
  exists s2. destruct Hd as (_ & _ & _ & _ & Htc & _ & Heq).
  repeat split; try done.
  - unfold final_equity. intros e1 e2. rewrite !last_lookup.
    rewrite <- (Forall2_length _ _ _ Heq). intros H1 H2.
    by eapply (Forall2_lookup_lr _ _ _ _ _ _ Heq).
  - intros Hle. unfold _trade_cost. cbn.
    apply Qle_bool_iff in Hle. change (inject_Z 0) with 0%Q. by rewrite Hle.
Qed.

(** * The bar loop on floats: evaluations *)

Local Open Scope float_scope.

(** C2, evaluated: with a stop at 2.5 and the default entry
    threshold 1.2, a flat bar with [z = 3] opens a short position and the
    check of line 172 closes it again on the same bar; both costs are paid
    and the bar ends flat. *)
Theorem same_bar_entry_then_exit :
  opens stop_params (initial_state stop_params) (demo_bar 0 3) = true
  /\ step stop_params [0%Z] (initial_state stop_params) (demo_bar 0 3)
     = Ok {| capital := 999960; position := 0; entry_idx := None;
             sh_a := 0; sh_b := 0; equity_series := [999980];
             trade_count := 1 |}.
Proof. split; vm_compute; reflexivity. Qed.

(** C5 needs a notional that is not negative: with
    [notional_per_leg = -100000] the entry gives
    [|sh_a * price_a| = 100000], the opposite of the notional. *)
Lemma negative_notional_breaks_dollar_neutrality :
  exists mid,
    entry_phase negative_notional_params
      (initial_state negative_notional_params) (demo_bar 0 2) = Ok mid
    /\ position mid = (-1)%Z
    /\ abs (sh_a mid * bar_price_a (demo_bar 0 2)) = 100000
    /\ notional_per_leg negative_notional_params = -100000.
Proof. eexists. repeat split; vm_compute; reflexivity. Qed.

(** C6 needs a notional that is not negative: with
    [notional_per_leg = -100000], raising [cost_bps] from 1 to 2 raises the
    final equity. *)
Lemma negative_notional_breaks_cost_monotonicity :
  exists s1 s2,
    simulate (with_cost negative_notional_params 1) [demo_bar 0 2] = Ok s1
    /\ simulate (with_cost negative_notional_params 2) [demo_bar 0 2] = Ok s2
    /\ final_equity s1 = Some 1000020
    /\ final_equity s2 = Some 1000040
    /\ (1000020 <? 1000040) = true.
Proof. do 2 eexists. repeat split; vm_compute; reflexivity. Qed.

(** On floats and with the default notional, the entry of the sample bar
    is dollar-neutral to the last bit, and a higher cost lowers the equity. *)
Example entry_dollar_neutral_float :
  (fun mid => abs (sh_a mid * 100))
    <$> entry_phase demo_params (initial_state demo_params) (demo_bar 0 2)
  = Ok 100000.
Proof. vm_compute; reflexivity. Qed.

Example cost_monotone_float :
  final_equity <$> simulate (with_cost demo_params 1)
                     [demo_bar 0 2; demo_bar 1 0.1]
  = Ok (Some 999980)
  /\ final_equity <$> simulate (with_cost demo_params 2)
                        [demo_bar 0 2; demo_bar 1 0.1]
     = Ok (Some 999960).
Proof. split; vm_compute; reflexivity. Qed.

(** A round trip counts once, and so does an entry that is still open when
    the bars run out. *)
Example round_trip_counts_once :
  trade_count <$> simulate demo_params [demo_bar 0 2; demo_bar 1 0.1]
  = Ok 1%nat.
Proof. vm_compute; reflexivity. Qed.

Example open_position_counts :
  (fun st => (trade_count st, position st))
    <$> simulate demo_params [demo_bar 0 2; demo_bar 1 1.5]
  = Ok (1%nat, (-1)%Z).
Proof. vm_compute; reflexivity. Qed.

(** * The statements at sample inputs *)

Lemma exit_bar_equity_excludes_exit_cost_witness :
  exists st',
    step demo_params [0; 1]%Z short_state falling_bar = Ok st'
    /\ equity_series st' = [999980; 998980]
    /\ capital st' = 998960
    /\ position st' = 0%Z.
Proof.
  destruct (step demo_params [0; 1]%Z short_state falling_bar)
    as [st'|] eqn:Hs; [|vm_compute in Hs; discriminate].
  destruct (exit_bar_equity_excludes_exit_cost demo_params [0; 1]%Z
              short_state st' short_state falling_bar false Hs
              eq_refl eq_refl)
    as (_ & Heq & Hcap & Hpos & _).
  - discriminate.
  - vm_compute. reflexivity.
  - exists st'. split; [reflexivity|].
    split; [rewrite Heq; vm_compute; reflexivity|].
    split; [rewrite Hcap; vm_compute; reflexivity|exact Hpos].
Defined.

Lemma entry_dollar_neutral_witness :
  exists mid,
    entry_phase exact_params (initial_state exact_params) (exact_bar 0 2) = Ok mid
    /\ position mid = (-1)%Z
    /\ (Qabs (sh_a mid * 100) == 100000)%Q.
Proof.
  eexists. split; [vm_compute; reflexivity|]. split; [reflexivity|].
  refine (proj2 (proj2 (proj2 (proj2
            (entry_dollar_neutral exact_params (initial_state exact_params) _
               (exact_bar 0 2) eq_refl eq_refl _)))) _).
  - discriminate.
  - discriminate.
Defined.

Lemma cost_monotone_witness :
  exists s2,
    simulate (with_cost exact_params 2%Q) [exact_bar 0 2; exact_bar 1 (1 # 10)]
    = Ok s2
    /\ trade_count s2 = 1%nat
    /\ (forall e2, final_equity s2 = Some e2 -> (e2 <= 999980)%Q).
Proof.
  destruct (simulate (with_cost exact_params 1%Q)
              [exact_bar 0 2; exact_bar 1 (1 # 10)]) as [s1|e] eqn:Hr1;
    [|by vm_compute in Hr1].
  destruct (cost_monotone exact_params 1%Q 2%Q
              [exact_bar 0 2; exact_bar 1 (1 # 10)] s1)
    as (s2 & Hr & Htc & _ & Hfin & _); [discriminate | discriminate | exact Hr1 |].
  vm_compute in Hr1. injection Hr1 as <-.
  exists s2. split; [exact Hr|]. split; [by rewrite <- Htc|].
  intros e2 He2. eapply Qle_trans; [apply (Hfin _ e2 eq_refl He2)|].
  vm_compute. discriminate.
Defined.

(** * Facts about the signal engine *)

Local Open Scope nat_scope.

Lemma iloc_slice_prefix (h i : nat) (v : Series) :
  h <= i -> iloc_slice (i - h) i v = drop (i - h) (take i v).
Proof.
  intros Hle. unfold iloc_slice. rewrite take_drop_commute.
  by replace (i - h + (i - (i - h))) with i by lia.
Qed.

Section HedgeFacts.
Variable polyfit : Series -> Series -> res (float * float).

Lemma hedge_at_prefix (h i : nat) (d d' : DataFrame) (xs ys xs' ys' : Series) :
  col d "x" = Ok xs -> col d "y" = Ok ys ->
  col d' "x" = Ok xs' -> col d' "y" = Ok ys' ->
  take i xs = take i xs' -> take i ys = take i ys' ->
  hedge_at polyfit h d i = hedge_at polyfit h d' i.
Proof.
  intros Hx Hy Hx' Hy' Hxs Hys. unfold hedge_at.
  destruct (i <? h) eqn:Hih; [done|]. apply Nat.ltb_ge in Hih.
  rewrite Hx, Hy, Hx', Hy'. cbn [mbind res_bind].
  rewrite !iloc_slice_prefix by done. by rewrite Hxs, Hys.
Qed.

Lemma hedge_loop_lookup (h : nat) (d : DataFrame) (range : list nat) :
  forall betas alphas,
  hedge_loop polyfit h d range = Ok (betas, alphas) ->
  length betas = length range
  /\ length alphas = length range
  /\ forall k i, range !! k = Some i ->
       exists b a, hedge_at polyfit h d i = Ok (b, a)
                   /\ betas !! k = Some b /\ alphas !! k = Some a.
Proof.
  induction range as [|j range IH]; intros betas alphas Hl; simpl in Hl.
  - injection Hl as <- <-. by repeat split.
  - apply bind_Ok in Hl as ([b a] & Hj & Hl).
    apply bind_Ok in Hl as ([bs as'] & Hrest & Hl).
    injection Hl as <- <-.
    destruct (IH _ _ Hrest) as (Hlb & Hla & Hlook).
    repeat split; simpl; try lia.
    intros [|k] i Hk; simpl in *.
    + injection Hk as <-. by exists b, a.
    + by apply Hlook.
Qed.

(** The entry of [betas] and [alphas] at [i] is what the loop body gives
    for [i]. *)
Lemma rolling_hedge_lookup (h : nat) (d : DataFrame) (betas alphas : Series)
    (i : nat) :
  rolling_hedge polyfit h d = Ok (betas, alphas) ->
  i < length (index d) ->
  exists b a, hedge_at polyfit h d i = Ok (b, a)
              /\ betas !! i = Some b /\ alphas !! i = Some a.
Proof.
  intros Hr Hi. unfold rolling_hedge in Hr.
  apply hedge_loop_lookup in Hr as (_ & _ & Hlook).
  apply (Hlook i i). by apply lookup_seq_lt.
Qed.

Lemma rolling_hedge_length (h : nat) (d : DataFrame) (betas alphas : Series) :
  rolling_hedge polyfit h d = Ok (betas, alphas) ->
  length betas = length (index d) /\ length alphas = length (index d).
Proof.
  intros Hr. unfold rolling_hedge in Hr.
  apply hedge_loop_lookup in Hr as (Hb & Ha & _).
  by rewrite length_seq in Hb, Ha.
Qed.

(** C1.  The entries of [betas] and [alphas] at [i] are the fit over the
    rows [i - hedge_window, i) of the frame (NaN while [i < hedge_window]);
    two frames whose [x] and [y] agree on the rows before [i] get the same
    [beta] and [alpha] at [i], whatever their rows from [i] on hold. *)
Theorem hedge_no_lookahead (h i : nat) (d d' : DataFrame)
    (xs ys xs' ys' betas alphas betas' alphas' : Series) :
  col d "x" = Ok xs -> col d "y" = Ok ys ->
  col d' "x" = Ok xs' -> col d' "y" = Ok ys' ->
  rolling_hedge polyfit h d = Ok (betas, alphas) ->
  rolling_hedge polyfit h d' = Ok (betas', alphas') ->
  i < length (index d) -> i < length (index d') ->
  take i xs = take i xs' -> take i ys = take i ys' ->
  betas !! i = betas' !! i
  /\ alphas !! i = alphas' !! i
  /\ (if i <? h then betas !! i = Some nan /\ alphas !! i = Some nan
      else exists b a,
             polyfit (iloc_slice (i - h) i xs) (iloc_slice (i - h) i ys)
             = Ok (b, a)
             /\ betas !! i = Some b /\ alphas !! i = Some a).
Proof.
  intros Hx Hy Hx' Hy' Hr Hr' Hi Hi' Hxs Hys.
  destruct (rolling_hedge_lookup h d betas alphas i Hr Hi)
    as (b & a & Hat & Hb & Ha).
  destruct (rolling_hedge_lookup h d' betas' alphas' i Hr' Hi')
    as (b' & a' & Hat' & Hb' & Ha').
  rewrite (hedge_at_prefix h i d d' xs ys xs' ys') in Hat by done.
  rewrite Hat in Hat'. injection Hat' as <- <-.
  rewrite Hb, Ha, Hb', Ha'. repeat split.
  rewrite <- (hedge_at_prefix h i d d' xs ys xs' ys') in Hat by done.
  unfold hedge_at in Hat. destruct (i <? h).
  - by injection Hat as <- <-.
  - rewrite Hx, Hy in Hat. cbn [mbind res_bind] in Hat. by exists b, a.
Qed.

End HedgeFacts.

(** ** NaN *)

Local Open Scope float_scope.

Lemma mul_nan_l (x : float) : nan * x = nan.
Proof.
  apply Prim2SF_inj. rewrite FloatAxioms.mul_spec. reflexivity.
Qed.

Lemma add_nan_r (x : float) : x + nan = nan.
Proof.
  apply Prim2SF_inj. rewrite FloatAxioms.add_spec.
  change (Prim2SF nan) with S754_nan. by destruct (Prim2SF x).
Qed.

Lemma sub_nan_r (x : float) : x - nan = nan.
Proof.
  apply Prim2SF_inj. rewrite FloatAxioms.sub_spec.
  change (Prim2SF nan) with S754_nan. by destruct (Prim2SF x).
Qed.

Lemma iloc_notna (v : Series) (i : nat) :
  notna (iloc v i) = true -> exists x, v !! i = Some x /\ notna x = true.
Proof.
  unfold iloc. destruct (v !! i) as [x|]; simpl; [eauto | discriminate].
Qed.

Lemma iloc_lookup (v : Series) (i : nat) (x : float) :
  v !! i = Some x -> iloc v i = x.
Proof. unfold iloc. by intros ->. Qed.

(** ** Selecting rows *)

Local Open Scope nat_scope.

Lemma filter_seq_lookup (P : nat -> Prop) `{forall i, Decision (P i)}
    (n : nat) :
  forall a k i,
  filter P (seq a n) !! k = Some i -> a + k <= i < a + n /\ P i.
Proof.
  induction n as [|n IH]; intros a k i Hk; simpl in Hk; [done|].
  rewrite filter_cons in Hk. destruct (decide (P a)) as [Hp|Hp].
  - destruct k as [|k]; simpl in Hk.
    + injection Hk as <-. split; [lia|done].
    + apply IH in Hk. split; [lia|tauto].
  - apply IH in Hk. split; [lia|tauto].
Qed.

Lemma select_lookup_valid {A : Type} (l : list A) (rows : list nat) :
  Forall (fun i => is_Some (l !! i)) rows ->
  forall k, select rows l !! k = rows !! k ≫= (fun i => l !! i).
Proof.
  unfold select. induction 1 as [|i rows [x Hx] _ IH]; intros k; [done|].
  simpl. rewrite Hx. simpl. destruct k as [|k]; simpl; [by rewrite Hx|].
  apply IH.
Qed.

Lemma select_length_valid {A : Type} (l : list A) (rows : list nat) :
  Forall (fun i => is_Some (l !! i)) rows ->
  length (select rows l) = length rows.
Proof.
  unfold select. induction 1 as [|i rows [x Hx] _ IH]; [done|].
  simpl. rewrite Hx. simpl. f_equal. exact IH.
Qed.

(** ** [dropna] *)

Lemma row_ok_lookup (d : DataFrame) (i : nat) (c : string) (v : Series) :
  row_ok d i = true -> columns d !! c = Some v ->
  exists x, v !! i = Some x /\ notna x = true.
Proof.
  unfold row_ok. rewrite forallb_forall. intros Hall Hc.
  apply iloc_notna. apply (Hall (c, v)).
  apply list_elem_of_In. by apply elem_of_map_to_list.
Qed.

Lemma row_ok_intro (d : DataFrame) (i : nat) :
  (forall c v, columns d !! c = Some v -> notna (iloc v i) = true) ->
  row_ok d i = true.
Proof.
  intros Hall. unfold row_ok. apply forallb_forall. intros [c v] Hin.
  apply (Hall c). apply elem_of_map_to_list. by apply list_elem_of_In.
Qed.

Lemma kept_rows_lookup (d : DataFrame) (k i : nat) :
  kept_rows d !! k = Some i ->
  k <= i < length (index d) /\ row_ok d i = true.
Proof.
  unfold kept_rows. intros Hk. apply filter_seq_lookup in Hk. simpl in Hk.
  split; [lia|tauto].
Qed.

Lemma kept_rows_valid_index (d : DataFrame) :
  Forall (fun i => is_Some (index d !! i)) (kept_rows d).
Proof.
  apply Forall_lookup. intros k i Hk. apply kept_rows_lookup in Hk.
  apply lookup_lt_is_Some. lia.
Qed.

Lemma kept_rows_valid_col (d : DataFrame) (c : string) (v : Series) :
  columns d !! c = Some v ->
  Forall (fun i => is_Some (v !! i)) (kept_rows d).
Proof.
  intros Hc. apply Forall_lookup. intros k i Hk. apply kept_rows_lookup in Hk.
  destruct (row_ok_lookup d i c v) as (x & -> & _); [tauto|done|done].
Qed.

(** A surviving row, where it came from. *)
Lemma dropna_index_lookup (d : DataFrame) (k : nat) (t : Z) :
  index (dropna d) !! k = Some t ->
  exists i, kept_rows d !! k = Some i /\ index d !! i = Some t
            /\ row_ok d i = true /\ k <= i.
Proof.
  simpl. rewrite (select_lookup_valid _ _ (kept_rows_valid_index d)).
  destruct (kept_rows d !! k) as [i|] eqn:Hk; simpl; [|done].
  intros Hi. exists i. apply kept_rows_lookup in Hk. repeat split; tauto || lia.
Qed.

Lemma dropna_index_length (d : DataFrame) :
  length (index (dropna d)) = length (kept_rows d).
Proof. simpl. apply select_length_valid, kept_rows_valid_index. Qed.

Lemma dropna_col (d : DataFrame) (c : string) (v' : Series) :
  columns (dropna d) !! c = Some v' ->
  exists v, columns d !! c = Some v /\ v' = select (kept_rows d) v.
Proof.
  simpl. rewrite lookup_fmap. destruct (columns d !! c) as [v|]; simpl; [|done].
  intros [= <-]. by exists v.
Qed.

(** The columns of a frame that [dropna] returned are as long as its index
    and hold no NaN. *)
Lemma dropna_col_length (d : DataFrame) (c : string) (v' : Series) :
  columns (dropna d) !! c = Some v' ->
  length v' = length (index (dropna d)).
Proof.
  intros (v & Hc & ->)%dropna_col. rewrite dropna_index_length.
  by apply select_length_valid, (kept_rows_valid_col d c).
Qed.

Lemma dropna_col_notna (d : DataFrame) (c : string) (v' : Series) (k : nat) :
  columns (dropna d) !! c = Some v' ->
  k < length (index (dropna d)) ->
  notna (iloc v' k) = true.
Proof.
  intros Hc' Hk. pose proof (dropna_col_length d c v' Hc') as Hlen.
  apply dropna_col in Hc' as (v & Hc & ->).
  unfold iloc. rewrite (select_lookup_valid _ _ (kept_rows_valid_col d c v Hc)).
  rewrite dropna_index_length in Hk.
  destruct (lookup_lt_is_Some_2 _ _ Hk) as [i Hi]. rewrite Hi. simpl.
  apply kept_rows_lookup in Hi as [_ Hok].
  by destruct (row_ok_lookup d i c v Hok Hc) as (x & -> & Hx).
Qed.

(** ** Running [prepare_data] and [run] against the store *)

Lemma bind_run {A B : Type} (m : M A) (k : A -> M B) (h : list DataFrame) :
  (m ≫= k) h = match m h with
               | (Ok a, h') => k a h'
               | (Raise e, h') => (Raise e, h')
               end.
Proof. reflexivity. Qed.

Lemma load_run (l : nat) (h : list DataFrame) (d : DataFrame) :
  h !! l = Some d -> load l h = (Ok d, h).
Proof. unfold load. by intros ->. Qed.

Lemma lookup_last_alloc (h : list DataFrame) (d : DataFrame) :
  (h ++ [d]) !! length h = Some d.
Proof. by rewrite lookup_app_r, Nat.sub_diag. Qed.

Lemma insert_last_alloc (h : list DataFrame) (d d' : DataFrame) :
  <[length h := d']> (h ++ [d]) = h ++ [d'].
Proof.
  rewrite insert_app_r_alt by lia. by rewrite Nat.sub_diag.
Qed.

(** An assignment to the newest object. *)
Lemma setitem_last (h : list DataFrame) (d : DataFrame) (c : string)
    (f : DataFrame -> res Series) :
  setitem (length h) c f (h ++ [d])
  = match assign c f d with
    | Ok d' => (Ok tt, h ++ [d'])
    | Raise e => (Raise e, h ++ [d])
    end.
Proof.
  unfold setitem. rewrite bind_run, (load_run _ _ d) by apply lookup_last_alloc.
  rewrite bind_run. unfold lift. destruct (assign c f d) as [d'|e]; [|done].
  unfold store. by rewrite insert_last_alloc.
Qed.

Lemma dropna_new_last (h : list DataFrame) (d : DataFrame) :
  dropna_new (length h) (h ++ [d])
  = (Ok (length (h ++ [d])), (h ++ [d]) ++ [dropna d]).
Proof.
  unfold dropna_new. by rewrite bind_run, (load_run _ _ d) by apply lookup_last_alloc.
Qed.

Section RunFacts.
Variable ln : float -> float.
Variable polyfit : Series -> Series -> res (float * float).
Variable rmean rstd : nat -> Series -> float.

(** When [prepare_data] returns, it has added three objects to the store:
    the aligned frame, the frame with the signal columns, and the result. *)
Lemma prepare_data_Ok (self : Backtester) (h h' : list DataFrame) (l : nat)
    (fa fb : DataFrame) :
  h !! df_a self = Some fa -> h !! df_b self = Some fb ->
  prepare_data ln polyfit rmean rstd self h = (Ok l, h') ->
  exists d0 d2,
    aligned_frame ln (params self) fa fb = Ok d0
    /\ signal_frame polyfit rmean rstd (params self) (dropna d0) = Ok d2
    /\ l = length h + 2
    /\ h' = h ++ [d0; d2; dropna d2].
Proof.
  intros Ha Hb Hp. unfold prepare_data in Hp.
  rewrite bind_run, (load_run _ _ fa Ha) in Hp.
  rewrite bind_run, (load_run _ _ fb Hb) in Hp.
  cbv zeta in Hp. rewrite bind_run in Hp. unfold alloc at 1 in Hp.
  set (idx := index_intersection (index fa) (index fb)) in *.
  rewrite bind_run, setitem_last in Hp.
  destruct (assign "price_a" _ (new_frame idx)) as [d1|] eqn:E1; [|done].
  rewrite bind_run, setitem_last in Hp.
  destruct (assign "price_b" _ d1) as [d1b|] eqn:E2; [|done].
  rewrite bind_run in Hp.
  assert (exists d0,
    (if use_log_price_spread (params self)
     then d ← assign "x" (log_col ln "price_b") d1b;
          assign "y" (log_col ln "price_a") d
     else d ← assign "y" (log_return_col ln "price_a") d1b;
          assign "x" (log_return_col ln "price_b") d) = Ok d0
    /\ (if use_log_price_spread (params self)
        then setitem (length h) "x" (log_col ln "price_b");;
             setitem (length h) "y" (log_col ln "price_a")
        else setitem (length h) "y" (log_return_col ln "price_a");;
             setitem (length h) "x" (log_return_col ln "price_b"))
         (h ++ [d1b]) = (Ok tt, h ++ [d0])) as (d0 & E3 & Hxy).
  { destruct (use_log_price_spread (params self));
      rewrite bind_run, setitem_last in Hp |- *;
      (destruct (assign _ _ d1b) as [d1c|]; [|done]);
      rewrite setitem_last in Hp |- *; cbn [mbind res_bind];
      (destruct (assign _ _ d1c) as [d0|]; [|done]); by exists d0. }
  rewrite Hxy in Hp. clear Hxy.
  rewrite bind_run, dropna_new_last in Hp.
  rewrite bind_run, (load_run _ _ (dropna d0)) in Hp by apply lookup_last_alloc.
  rewrite bind_run in Hp. unfold lift at 1 in Hp.
  destruct (rolling_hedge polyfit _ (dropna d0)) as [[betas alphas]|] eqn:E4;
    [|done].
  set (h1 := h ++ [d0]) in *.
  rewrite bind_run, setitem_last in Hp.
  destruct (assign "beta" _ (dropna d0)) as [d2a|] eqn:E5; [|done].
  rewrite bind_run, setitem_last in Hp.
  destruct (assign "alpha" _ d2a) as [d2b|] eqn:E6; [|done].
  rewrite bind_run, setitem_last in Hp.
  destruct (assign "spread" _ d2b) as [d2c|] eqn:E7; [|done].
  rewrite bind_run, setitem_last in Hp.
  destruct (assign "spread_mean" _ d2c) as [d2d|] eqn:E8; [|done].
  rewrite bind_run, setitem_last in Hp.
  destruct (assign "spread_std" _ d2d) as [d2e|] eqn:E9; [|done].
  rewrite bind_run, setitem_last in Hp.
  destruct (assign "z" _ d2e) as [d2|] eqn:E10; [|done].
  rewrite dropna_new_last in Hp. injection Hp as <- <-.
  exists d0, d2. split; [|split; [|split]].
  - unfold aligned_frame. fold idx. rewrite E1. cbn [mbind res_bind].
    rewrite E2. cbn [mbind res_bind]. exact E3.
  - unfold signal_frame. rewrite E4. cbn [mbind res_bind].
    rewrite E5. cbn [mbind res_bind]. rewrite E6. cbn [mbind res_bind].
    rewrite E7. cbn [mbind res_bind]. rewrite E8. cbn [mbind res_bind].
    rewrite E9. cbn [mbind res_bind]. exact E10.
  - subst h1. rewrite !length_app. simpl. lia.
  - subst h1. by rewrite <- !app_assoc.
Qed.

End RunFacts.

(** ** The signal columns and the warm-up *)

Lemma assign_Ok (c : string) (f : DataFrame -> res Series) (d d' : DataFrame) :
  assign c f d = Ok d' -> exists v, f d = Ok v /\ d' = set_col d c v.
Proof.
  unfold assign. intros (v & Hf & Hd)%bind_Ok. exists v. split; [done|].
  by injection Hd as <-.
Qed.


(** The entry of a rolling reduction at a row of the series. *)
Lemma rolling_iloc (w : nat) (f : nat -> Series -> float) (v : Series)
    (j : nat) :
  j < length v ->
  iloc (rolling w f v) j
  = if (w =? 0) || (j + 1 <? w) then nan
    else if forallb notna (iloc_slice (j + 1 - w) (j + 1) v)
         then f w (take (j + 1) v)
         else nan.
Proof.
  intros Hj. unfold iloc, rolling. rewrite list_lookup_imap.
  destruct (lookup_lt_is_Some_2 _ _ Hj) as [y ->]. reflexivity.
Qed.

Lemma rolling_length (w : nat) (f : nat -> Series -> float) (v : Series) :
  length (rolling w f v) = length v.
Proof. unfold rolling. apply length_imap. Qed.

(** Where a rolling reduction is defined, the window is complete, it holds
    no NaN, and the reduction itself returned a number. *)
Lemma rolling_notna (w : nat) (f : nat -> Series -> float) (v : Series)
    (j : nat) :
  notna (iloc (rolling w f v) j) = true ->
  1 <= w <= j + 1
  /\ forallb notna (iloc_slice (j + 1 - w) (j + 1) v) = true
  /\ iloc (rolling w f v) j = f w (take (j + 1) v)
  /\ exists x, v !! (j + 1 - w) = Some x /\ notna x = true.
Proof.
  intros Hn.
  assert (j < length v) as Hj.
  { apply iloc_notna in Hn as (r & Hr & _). apply lookup_lt_Some in Hr.
    by rewrite rolling_length in Hr. }
  rewrite rolling_iloc in Hn |- * by done.
  destruct (w =? 0) eqn:Hw0; [done|]. apply Nat.eqb_neq in Hw0.
  destruct (j + 1 <? w) eqn:Hjw; [done|]. apply Nat.ltb_ge in Hjw.
  cbn [orb] in Hn |- *.
  destruct (forallb notna (iloc_slice (j + 1 - w) (j + 1) v)) eqn:Hall; [|done].
  split; [lia|]. split; [done|]. split; [done|].
  assert (j + 1 - w < length v) as Hlt by lia.
  destruct (lookup_lt_is_Some_2 _ _ Hlt) as [x Hx]. exists x. split; [done|].
  rewrite forallb_forall in Hall. apply Hall, list_elem_of_In.
  apply list_elem_of_lookup. exists 0. unfold iloc_slice.
  rewrite lookup_take_lt by lia. rewrite lookup_drop.
  by rewrite Nat.add_0_r.
Qed.

Section WarmUp.
Variable polyfit : Series -> Series -> res (float * float).
Variable rmean rstd : nat -> Series -> float.
Variable p : Params float.

(** What [signal_frame] adds to a frame. *)
Lemma signal_frame_Ok (d d2 : DataFrame) :
  signal_frame polyfit rmean rstd p d = Ok d2 ->
  exists betas alphas spread,
    rolling_hedge polyfit (hedge_window p) d = Ok (betas, alphas)
    /\ spread_col (use_log_price_spread p)
         (set_col (set_col d "beta" betas) "alpha" alphas) = Ok spread
    /\ index d2 = index d
    /\ columns d2
       = <["z" := zip_with PrimFloat.div
                    (zip_with PrimFloat.sub spread
                       (rolling (window_size (spread_window p)) rmean spread))
                    (rolling (window_size (spread_window p)) rstd spread)]>
         (<["spread_std" := rolling (window_size (spread_window p)) rstd
            spread]>
         (<["spread_mean" := rolling (window_size (spread_window p)) rmean
            spread]>
         (<["spread" := spread]>
         (<["alpha" := alphas]>
         (<["beta" := betas]> (columns d)))))).
Proof.
  unfold signal_frame. intros ([betas alphas] & Hh & Hs)%bind_Ok.
  cbv beta iota in Hs.
  apply bind_Ok in Hs as (da & Hvb & Hs).
  apply assign_Ok in Hvb as (vb & Hvb & ->). cbv beta in Hs.
  apply bind_Ok in Hs as (db & Hva & Hs).
  apply assign_Ok in Hva as (va & Hva & ->). cbv beta in Hs.
  injection Hvb as <-. injection Hva as <-.
  apply bind_Ok in Hs as (dc & Hsp & Hs).
  apply assign_Ok in Hsp as (spread & Hsp & ->). cbv beta in Hs.
  apply bind_Ok in Hs as (dd & Hsm & Hs).
  apply assign_Ok in Hsm as (sm & Hsm & ->). cbv beta in Hs.
  apply bind_Ok in Hs as (de & Hsd & Hs).
  apply assign_Ok in Hsd as (sd & Hsd & ->). cbv beta in Hs.
  apply assign_Ok in Hs as (zs & Hz & ->).
  exists betas, alphas, spread. split; [done|]. split; [done|]. split; [done|].
  unfold rolling_col, rolling_window in Hsm, Hsd. unfold z_col in Hz.
  unfold col in *. simpl in *.
  rewrite lookup_insert_eq in Hsm. cbn [mbind res_bind] in Hsm.
  rewrite lookup_insert_ne, lookup_insert_eq in Hsd by done.
  cbn [mbind res_bind] in Hsd.
  destruct (spread_window p) as [n|x]; [|done]. cbn [window_size].
  destruct (n <? 0)%Z; [done|].
  cbn [mbind res_bind mret res_ret] in Hsm, Hsd.
  injection Hsm as <-. injection Hsd as <-.
  repeat (first [rewrite lookup_insert_eq in Hz
                | rewrite lookup_insert_ne in Hz by done]; simpl in Hz).
  by injection Hz as <-.
Qed.

(** [rolling] accepted the window. *)
Lemma signal_frame_window (d d2 : DataFrame) :
  signal_frame polyfit rmean rstd p d = Ok d2 ->
  rolling_window (spread_window p) = Ok (window_size (spread_window p)).
Proof.
  unfold signal_frame. intros ([betas alphas] & Hh & Hs)%bind_Ok.
  cbv beta iota in Hs.
  apply bind_Ok in Hs as (da & _ & Hs). apply bind_Ok in Hs as (db & _ & Hs).
  apply bind_Ok in Hs as (dc & _ & Hs). apply bind_Ok in Hs as (dd & Hsm & _).
  apply assign_Ok in Hsm as (sm & Hsm & _).
  unfold rolling_col in Hsm. apply bind_Ok in Hsm as (v & _ & Hsm).
  apply bind_Ok in Hsm as (n & Hn & _). unfold rolling_window in Hn |- *.
  destruct (spread_window p) as [k|x]; [|done]. cbn [window_size].
  by destruct (k <? 0)%Z.
Qed.

(** Where [beta] and [alpha] are NaN, the spread is. *)
Lemma spread_nan (d : DataFrame) (betas alphas spread : Series) (j : nat)
    (s : float) :
  spread_col (use_log_price_spread p)
    (set_col (set_col d "beta" betas) "alpha" alphas) = Ok spread ->
  spread !! j = Some s ->
  exists b, betas !! j = Some b
            /\ (b = nan -> alphas !! j = Some nan -> s = nan).
Proof.
  unfold spread_col, col. simpl.
  rewrite lookup_insert_eq.
  rewrite !(lookup_insert_ne _ "alpha") by done.
  rewrite lookup_insert_eq.
  rewrite !(lookup_insert_ne _ "beta") by done.
  intros Hs Hj.
  destruct (columns d !! "y") as [ys|]; [|done]. cbn [mbind res_bind] in Hs.
  destruct (use_log_price_spread p); simpl in Hs.
  - destruct (columns d !! "x") as [xs|]; [|done]. simpl in Hs.
    injection Hs as <-.
    apply lookup_zip_with_Some in Hj as (y & r & -> & _ & Hr).
    apply lookup_zip_with_Some in Hr as (a & r' & -> & Ha & Hr').
    apply lookup_zip_with_Some in Hr' as (b & x & -> & Hb & _).
    exists b. split; [done|]. intros -> Ha'. rewrite Ha in Ha'.
    injection Ha' as ->. by rewrite mul_nan_l, add_nan_r, sub_nan_r.
  - destruct (columns d !! "x") as [xs|]; [|done]. simpl in Hs.
    injection Hs as <-.
    apply lookup_zip_with_Some in Hj as (y & r & -> & _ & Hr).
    apply lookup_zip_with_Some in Hr as (b & x & -> & Hb & _).
    exists b. split; [done|]. intros -> _.
    by rewrite mul_nan_l, sub_nan_r.
Qed.

(** During the first [hedge_window] rows, [beta] and [alpha] are NaN. *)
Lemma rolling_hedge_warm_up (d : DataFrame) (betas alphas : Series) (j : nat)
    (b : float) :
  rolling_hedge polyfit (hedge_window p) d = Ok (betas, alphas) ->
  betas !! j = Some b ->
  j < hedge_window p ->
  b = nan /\ alphas !! j = Some nan.
Proof.
  intros Hr Hb Hj.
  assert (j < length (index d)) as Hlt.
  { apply rolling_hedge_length in Hr as [<- _]. by apply lookup_lt_Some in Hb. }
  destruct (rolling_hedge_lookup polyfit _ d betas alphas j Hr Hlt)
    as (b' & a & Hat & Hb' & Ha).
  unfold hedge_at in Hat. apply Nat.ltb_lt in Hj. rewrite Hj in Hat.
  injection Hat as <- <-. rewrite Hb in Hb'. by injection Hb' as ->.
Qed.

(** A row of the signal frame that [dropna] keeps has a full regression
    window before the first row of its spread window. *)
Lemma row_ok_warm_up (d d2 : DataFrame) (j : nat) :
  signal_frame polyfit rmean rstd p d = Ok d2 ->
  row_ok d2 j = true ->
  1 <= window_size (spread_window p)
  /\ hedge_window p + window_size (spread_window p) <= j + 1.
Proof.
  intros (betas & alphas & spread & Hr & Hsp & _ & Hcols)%signal_frame_Ok Hok.
  destruct (row_ok_lookup d2 j "spread_mean"
              (rolling (window_size (spread_window p)) rmean spread) Hok)
    as (m & Hm & Hmn).
  { rewrite Hcols. by rewrite lookup_insert_ne, lookup_insert_ne,
      lookup_insert_eq by done. }
  destruct (rolling_notna (window_size (spread_window p)) rmean spread j)
    as (Hw & _ & _ & s & Hs & Hsn).
  { unfold iloc. by rewrite Hm. }
  split; [lia|].
  destruct (spread_nan d betas alphas spread _ s Hsp Hs) as (b & Hb & Hnan).
  destruct (decide (j + 1 - window_size (spread_window p) < hedge_window p))
    as [Hlt|Hge]; [|lia].
  destruct (rolling_hedge_warm_up d betas alphas _ b Hr Hb Hlt) as [-> Ha].
  rewrite (Hnan eq_refl Ha) in Hsn. done.
Qed.

(** On a frame that came out of [dropna], the rows of the signal frame
    that the final [dropna] keeps are those with all signal columns
    defined. *)
Lemma row_ok_defined_at (d0 d2 : DataFrame) (j : nat) :
  signal_frame polyfit rmean rstd p (dropna d0) = Ok d2 ->
  j < length (index d2) ->
  row_ok d2 j = defined_at d2 j.
Proof.
  intros (betas & alphas & spread & Hr & Hsp & Hidx & Hcols)%signal_frame_Ok Hj.
  destruct (defined_at d2 j) eqn:Hdef.
  - apply row_ok_intro. intros c v Hc.
    unfold defined_at, signal_columns in Hdef. simpl in Hdef.
    rewrite !andb_true_iff in Hdef.
    destruct Hdef as (Hb & Ha & Hs & Hm & Hsd & Hz & _).
    destruct (decide (c = "z")) as [->|?]; [by rewrite Hc in Hz|].
    destruct (decide (c = "spread_std")) as [->|?]; [by rewrite Hc in Hsd|].
    destruct (decide (c = "spread_mean")) as [->|?]; [by rewrite Hc in Hm|].
    destruct (decide (c = "spread")) as [->|?]; [by rewrite Hc in Hs|].
    destruct (decide (c = "alpha")) as [->|?]; [by rewrite Hc in Ha|].
    destruct (decide (c = "beta")) as [->|?]; [by rewrite Hc in Hb|].
    rewrite Hcols in Hc. rewrite !lookup_insert_ne in Hc by done.
    apply (dropna_col_notna d0 c v j Hc). by rewrite <- Hidx.
  - apply not_true_is_false. intros Hok. apply not_true_iff_false in Hdef.
    apply Hdef. unfold defined_at. apply forallb_forall. intros c Hin.
    destruct (columns d2 !! c) as [v|] eqn:Hc.
    + by destruct (row_ok_lookup d2 j c v Hok Hc) as (x & ->%iloc_lookup & Hx).
    + rewrite Hcols in Hc. unfold signal_columns in Hin. simpl in Hin.
      destruct Hin as [<-|[<-|[<-|[<-|[<-|[<-|[]]]]]]];
        repeat (first [rewrite lookup_insert_eq in Hc
                      | rewrite lookup_insert_ne in Hc by done]); done.
Qed.

Lemma iloc_zip_with (f : float -> float -> float) (u v : Series) (j : nat) :
  j < length u -> j < length v ->
  iloc (zip_with f u v) j = f (iloc u j) (iloc v j).
Proof.
  intros Hu Hv. unfold iloc. rewrite lookup_zip_with.
  destruct (lookup_lt_is_Some_2 _ _ Hu) as [a ->].
  by destruct (lookup_lt_is_Some_2 _ _ Hv) as [b ->].
Qed.

(** The spread column, row by row. *)
Lemma spread_col_at (d : DataFrame) (xs ys betas alphas spread : Series)
    (n : nat) :
  columns d !! "x" = Some xs -> columns d !! "y" = Some ys ->
  length xs = n -> length ys = n -> length betas = n -> length alphas = n ->
  spread_col (use_log_price_spread p)
    (set_col (set_col d "beta" betas) "alpha" alphas) = Ok spread ->
  length spread = n
  /\ forall k, k < n ->
       iloc spread k
       = spread_at (use_log_price_spread p) xs ys betas alphas k.
Proof.
  intros Hx Hy Lx Ly Lb La. unfold spread_col, spread_at, col. simpl.
  rewrite lookup_insert_eq.
  rewrite !(lookup_insert_ne _ "alpha") by done.
  rewrite lookup_insert_eq.
  rewrite !(lookup_insert_ne _ "beta") by done.
  rewrite Hx, Hy. cbn [mbind res_bind mret res_ret].
  destruct (use_log_price_spread p); cbn [mbind res_bind mret res_ret];
    intros [= <-].
  - split; [rewrite !length_zip_with; lia|]. intros k Hk.
    rewrite !iloc_zip_with; rewrite ?length_zip_with; lia || done.
  - split; [rewrite !length_zip_with; lia|]. intros k Hk.
    rewrite !iloc_zip_with; rewrite ?length_zip_with; lia || done.
Qed.

Lemma take_iloc (v : Series) (f : nat -> float) (j : nat) :
  j < length v -> (forall k, k < length v -> iloc v k = f k) ->
  take (j + 1) v = f <$> seq 0 (j + 1).
Proof.
  intros Hj Hf. apply list_eq. intros k. destruct (decide (k < j + 1)) as
      [Hk|Hk].
  - rewrite lookup_take_lt, list_lookup_fmap, lookup_seq_lt by done. simpl.
    destruct (lookup_lt_is_Some_2 v k ltac:(lia)) as [x Hx]. rewrite Hx.
    f_equal. rewrite <- (Hf k) by lia. by rewrite (iloc_lookup _ _ _ Hx).
  - rewrite lookup_take_ge by lia. symmetry. apply lookup_ge_None.
    rewrite length_fmap, length_seq. lia.
Qed.

Lemma iloc_slice_take (a b : nat) (v : Series) :
  a <= b -> b <= length v -> iloc_slice a b v = drop a (take b v).
Proof.
  intros Hab Hb. unfold iloc_slice.
  rewrite take_drop_commute. by replace (a + (b - a)) with b by lia.
Qed.

(** A row of the signal frame survives exactly when it is past the warm-up
    and each of its signal fields has a value. *)
Lemma row_ok_survives (d0 d2 : DataFrame) (xs ys betas alphas : Series)
    (j : nat) :
  signal_frame polyfit rmean rstd p (dropna d0) = Ok d2 ->
  columns (dropna d0) !! "x" = Some xs ->
  columns (dropna d0) !! "y" = Some ys ->
  rolling_hedge polyfit (hedge_window p) (dropna d0) = Ok (betas, alphas) ->
  j < length (index d2) ->
  row_ok d2 j
  = survives rmean rstd (use_log_price_spread p) (hedge_window p)
      (window_size (spread_window p)) xs ys betas alphas j.
Proof.
  intros H2 Hx Hy Hr Hj.
  rewrite (row_ok_defined_at d0 d2 j H2 Hj).
  pose proof (signal_frame_Ok _ _ H2)
    as (betas' & alphas' & spread & Hr' & Hsp & Hidx & Hcols).
  rewrite Hr in Hr'. injection Hr' as <- <-.
  rewrite Hidx in Hj.
  set (n := length (index (dropna d0))) in *.
  set (sw := window_size (spread_window p)) in *.
  pose proof (rolling_hedge_length polyfit _ _ _ _ Hr) as [Lb La].
  pose proof (dropna_col_length d0 "x" xs Hx) as Lx.
  pose proof (dropna_col_length d0 "y" ys Hy) as Ly.
  destruct (spread_col_at (dropna d0) xs ys betas alphas spread n
              Hx Hy Lx Ly Lb La Hsp) as [Ls Hat].
  set (sp := spread_at (use_log_price_spread p) xs ys betas alphas) in *.
  assert (take (j + 1) spread = sp <$> seq 0 (j + 1)) as Htake
    by (apply take_iloc; [lia|by rewrite Ls]).
  assert (defined_at d2 j
          = notna (iloc betas j) && notna (iloc alphas j)
            && notna (iloc spread j)
            && notna (iloc (rolling sw rmean spread) j)
            && notna (iloc (rolling sw rstd spread) j)
            && notna ((iloc spread j - iloc (rolling sw rmean spread) j)
                      / iloc (rolling sw rstd spread) j)) as ->.
  { unfold defined_at, signal_columns. cbn [forallb]. rewrite Hcols.
    repeat (first [rewrite lookup_insert_eq
                  | rewrite lookup_insert_ne by done]).
    rewrite !iloc_zip_with
      by (rewrite ?length_zip_with, ?rolling_length; lia).
    rewrite andb_true_r, !andb_assoc. reflexivity. }
  rewrite !(rolling_iloc sw _ spread j) by lia.
  unfold survives, signal_defined. fold sp. rewrite <- Htake.
  destruct (decide (sw = 0)) as [Hsw0|Hsw0].
  { rewrite Hsw0. simpl. by rewrite !andb_false_r. }
  replace (sw =? 0) with false by (symmetry; by apply Nat.eqb_neq).
  replace (1 <=? sw) with true by (symmetry; apply Nat.leb_le; lia).
  cbn [orb andb].
  destruct (j + 1 <? sw) eqn:Hjw.
  { apply Nat.ltb_lt in Hjw.
    replace (hedge_window p + sw <=? j + 1) with false
      by (symmetry; apply Nat.leb_gt; lia).
    simpl. by rewrite !andb_false_r. }
  apply Nat.ltb_ge in Hjw.
  rewrite (iloc_slice_take (j + 1 - sw) (j + 1) spread) by lia.
  rewrite <- (Hat j Hj).
  destruct (forallb notna (drop (j + 1 - sw) (take (j + 1) spread))) eqn:Hall.
  2:{ simpl. by rewrite !andb_false_r, ?andb_false_l. }
  assert (notna (iloc spread j) = true) as Hsj.
  { rewrite forallb_forall in Hall. apply Hall, list_elem_of_In.
    apply list_elem_of_lookup. exists (j - (j + 1 - sw)).
    rewrite lookup_drop, lookup_take_lt by lia.
    replace (j + 1 - sw + (j - (j + 1 - sw))) with j by lia.
    unfold iloc. by destruct (lookup_lt_is_Some_2 spread j ltac:(lia)) as
        [x ->]. }
  rewrite Hsj, !andb_true_r.
  destruct (hedge_window p + sw <=? j + 1) eqn:Hwarm; [done|].
  apply Nat.leb_gt in Hwarm. cbn [andb].
  (* the first row of the window is a row without [beta] *)
  assert (j + 1 - sw < hedge_window p) as Hlt by lia.
  assert (j + 1 - sw < n) as Hlt' by lia.
  destruct (lookup_lt_is_Some_2 spread (j + 1 - sw) ltac:(lia)) as [s Hs].
  destruct (spread_nan (dropna d0) betas alphas spread _ s Hsp Hs)
    as (b & Hb & Hnan).
  destruct (rolling_hedge_warm_up (dropna d0) betas alphas _ b Hr Hb Hlt)
    as [-> Ha].
  rewrite (Hnan eq_refl Ha) in Hs.
  exfalso. rewrite forallb_forall in Hall.
  assert (notna nan = true) as Habs; [|done].
  apply Hall, list_elem_of_In, list_elem_of_lookup. exists 0.
  rewrite lookup_drop, lookup_take_lt by lia. by rewrite Nat.add_0_r.
Qed.

End WarmUp.

Lemma filter_seq_first (P : nat -> Prop) `{forall i, Decision (P i)}
    (n m : nat) :
  m < n -> P m -> (forall j, j < m -> ~ P j) ->
  filter P (seq 0 n) !! 0 = Some m.
Proof.
  intros Hm HP Hbefore.
  replace n with (m + S (n - S m)) by lia.
  rewrite seq_app, filter_app. simpl.
  assert (filter P (seq 0 m) = []) as ->.
  { clear Hm HP. induction m as [|m IH]; [done|].
    rewrite seq_S, filter_app, IH by (intros; apply Hbefore; lia). simpl.
    by rewrite filter_cons_False by (apply Hbefore; lia). }
  by rewrite filter_cons_True.
Qed.

(** When the rows from [k] on are the ones that pass, the rows kept are
    those from [k] on. *)
Lemma filter_seq_from (P : nat -> Prop) `{forall i, Decision (P i)}
    (n k : nat) :
  (forall j, j < k -> j < n -> ~ P j) ->
  (forall j, k <= j < n -> P j) ->
  filter P (seq 0 n) = seq k (n - k).
Proof.
  intros Hbelow Hfrom.
  assert (forall a m, (forall j, a <= j < a + m -> ~ P j) ->
            filter P (seq a m) = []) as Hnone.
  { intros a m. revert a. induction m as [|m IH]; intros a Hno; [done|].
    simpl. rewrite filter_cons_False by (apply Hno; lia).
    apply IH. intros j Hj. apply Hno. lia. }
  assert (forall a m, (forall j, a <= j < a + m -> P j) ->
            filter P (seq a m) = seq a m) as Hall.
  { intros a m. revert a. induction m as [|m IH]; intros a Hyes; [done|].
    simpl. rewrite filter_cons_True by (apply Hyes; lia).
    f_equal. apply IH. intros j Hj. apply Hyes. lia. }
  destruct (decide (k <= n)) as [Hk|Hk].
  - replace n with (k + (n - k)) at 1 by lia.
    rewrite seq_app, filter_app. simpl.
    rewrite Hnone by (intros j Hj; apply Hbelow; lia).
    rewrite Hall by (intros j Hj; apply Hfrom; lia). done.
  - rewrite Hnone by (intros j Hj; apply Hbelow; lia).
    by replace (n - k) with 0 by lia.
Qed.

Lemma select_seq_drop {A : Type} (l : list A) (k : nat) :
  select (seq k (length l - k)) l = drop k l.
Proof.
  apply list_eq. intros i.
  rewrite select_lookup_valid.
  2:{ apply Forall_lookup. intros m j Hm. apply lookup_seq in Hm as [-> Hm].
      apply lookup_lt_is_Some. lia. }
  rewrite lookup_drop. destruct (decide (i < length l - k)) as [Hi|Hi].
  - by rewrite lookup_seq_lt by done.
  - rewrite lookup_seq_ge by lia. simpl. symmetry. apply lookup_ge_None. lia.
Qed.

Lemma aligned_frame_index (ln : float -> float) (p : Params float)
    (fa fb d0 : DataFrame) :
  aligned_frame ln p fa fb = Ok d0 ->
  index d0 = index_intersection (index fa) (index fb).
Proof.
  unfold aligned_frame. intros Ha. cbv zeta in Ha.
  apply bind_Ok in Ha as (d1 & H1 & Ha).
  apply assign_Ok in H1 as (v1 & _ & ->). cbv beta in Ha.
  apply bind_Ok in Ha as (d2 & H2 & Ha).
  apply assign_Ok in H2 as (v2 & _ & ->). cbv beta in Ha.
  destruct (use_log_price_spread p);
    apply bind_Ok in Ha as (d3 & H3 & Ha);
    apply assign_Ok in H3 as (v3 & _ & ->); cbv beta in Ha;
    apply assign_Ok in Ha as (v4 & _ & ->); done.
Qed.

(** The four columns of the aligned frame. *)
Lemma aligned_frame_Ok (ln : float -> float) (p : Params float)
    (fa fb d0 : DataFrame) :
  aligned_frame ln p fa fb = Ok d0 ->
  exists pa pb x y,
    columns d0 = <["price_a" := pa]> (<["price_b" := pb]>
                   (<["x" := x]> (<["y" := y]> ∅)))
    /\ x = (if use_log_price_spread p then smap ln pb
            else zip_with (fun cur prev => ln (cur / prev)%float) pb
                (shift1 pb))
    /\ y = (if use_log_price_spread p then smap ln pa
            else zip_with (fun cur prev => ln (cur / prev)%float) pa
                (shift1 pa)).
Proof.
  unfold aligned_frame. intros Ha. cbv zeta in Ha.
  apply bind_Ok in Ha as (d1 & H1 & Ha).
  apply assign_Ok in H1 as (pa & _ & ->). cbv beta in Ha.
  apply bind_Ok in Ha as (d2 & H2 & Ha).
  apply assign_Ok in H2 as (pb & _ & ->). cbv beta in Ha.
  exists pa, pb.
  destruct (use_log_price_spread p);
    apply bind_Ok in Ha as (d3 & H3 & Ha);
    apply assign_Ok in H3 as (v3 & H3 & ->); cbv beta in Ha;
    apply assign_Ok in Ha as (v4 & H4 & ->);
    unfold log_col, log_return_col, col in H3, H4; simpl in H3, H4;
    repeat (first [rewrite lookup_insert_eq in H3
                  | rewrite lookup_insert_ne in H3 by done]);
    repeat (first [rewrite lookup_insert_eq in H4
                  | rewrite lookup_insert_ne in H4 by done]);
    simpl in H3, H4; injection H3 as <-; injection H4 as <-.
  - eexists _, _. split; [|split; reflexivity].
    simpl. apply map_eq. intros c.
    repeat (rewrite lookup_insert; case_decide; [done|]). done.
  - eexists _, _. split; [|split; reflexivity].
    simpl. apply map_eq. intros c.
    repeat (rewrite lookup_insert; case_decide; [done|]). done.
Qed.

(** ** Labels are distinct

    [get_loc] returns a position because the labels of a prepared frame
    are distinct: the intersection keeps each label once and [dropna] only
    removes rows. *)

Lemma unique_NoDup (l : list Z) : NoDup (unique l).
Proof.
  unfold unique.
  set (f := fun (acc : list Z) (t : Z) =>
              if bool_decide (t ∈ acc) then acc else acc ++ [t]).
  assert (forall acc, NoDup acc -> NoDup (foldl f acc l)) as Hfold;
    [|apply Hfold; constructor].
  induction l as [|t l IH]; intros acc Hacc; simpl; [done|].
  apply IH. unfold f. case_bool_decide; [done|].
  apply NoDup_app. split; [done|]. split; [|apply NoDup_singleton].
  intros x Hx ->%list_elem_of_singleton. done.
Qed.

Lemma dropna_index_NoDup (d : DataFrame) :
  NoDup (index d) -> NoDup (index (dropna d)).
Proof.
  intros Hnd. apply NoDup_alt. intros k1 k2 t H1 H2.
  apply dropna_index_lookup in H1 as (j1 & Hk1 & Hj1 & _).
  apply dropna_index_lookup in H2 as (j2 & Hk2 & Hj2 & _).
  assert (j1 = j2) as -> by (eapply NoDup_alt; eauto).
  assert (NoDup (kept_rows d)) as Hrows
    by (apply NoDup_filter, NoDup_seq).
  eapply NoDup_alt; eauto.
Qed.

Lemma get_loc_position (idx : list Z) (i : nat) (t : Z) :
  NoDup idx -> idx !! i = Some t -> get_loc idx t = Ok i.
Proof.
  intros Hnd Hi. unfold get_loc.
  destruct (list_find (fun u => u = t) idx) as [[j u]|] eqn:Hfind.
  - apply list_find_Some in Hfind as (Hj & -> & _).
    by rewrite (proj1 (NoDup_alt idx) Hnd i j t Hi Hj).
  - apply list_find_None in Hfind.
    by apply (proj1 (Forall_lookup _ _) Hfind i t) in Hi.
Qed.

Section WarmUpRows.
Variable ln : float -> float.
Variable polyfit : Series -> Series -> res (float * float).
Variable rmean rstd : nat -> Series -> float.

(** The frame that [prepare_data] returns, in terms of the two frames it
    builds. *)
Lemma prepare_data_result (self : Backtester) (h h' : list DataFrame) (l : nat)
    (fa fb : DataFrame) :
  h !! df_a self = Some fa -> h !! df_b self = Some fb ->
  prepare_data ln polyfit rmean rstd self h = (Ok l, h') ->
  exists d0 d2,
    aligned_frame ln (params self) fa fb = Ok d0
    /\ signal_frame polyfit rmean rstd (params self) (dropna d0) = Ok d2
    /\ h' !! l = Some (dropna d2)
    /\ index d2 = index (dropna d0).
Proof.
  intros Ha Hb Hp.
  destruct (prepare_data_Ok ln polyfit rmean rstd self h h' l fa fb Ha Hb Hp)
    as (d0 & d2 & H0 & H2 & -> & ->).
  exists d0, d2. repeat split; try done.
  - rewrite lookup_app_r by lia. by replace (length h + 2 - length h) with 2 by lia.
  - by apply signal_frame_Ok in H2 as (? & ? & ? & _ & _ & -> & _).
Qed.

Lemma prepared_index_NoDup (self : Backtester) (h h' : list DataFrame)
    (l : nat) (fa fb out : DataFrame) :
  h !! df_a self = Some fa -> h !! df_b self = Some fb ->
  prepare_data ln polyfit rmean rstd self h = (Ok l, h') ->
  h' !! l = Some out ->
  NoDup (index out).
Proof.
  intros Ha Hb Hp Hl.
  destruct (prepare_data_result self h h' l fa fb Ha Hb Hp)
    as (d0 & d2 & H0 & H2 & Hl' & Hidx).
  rewrite Hl' in Hl. injection Hl as <-.
  apply dropna_index_NoDup. rewrite Hidx. apply dropna_index_NoDup.
  rewrite (aligned_frame_index _ _ _ _ _ H0). apply unique_NoDup.
Qed.

(** C3.  The frame that [prepare_data] returns holds exactly the rows of
    the cleaned aligned frame at which every signal column is defined.
    These are the rows [j] with [j >= hedge_window + spread_window - 1] at
    which [beta], [alpha], the spread over the rolling window, its mean, its
    standard deviation and the z-score have a value: the first
    [hedge_window] rows have no [beta], and the rolling window of the next
    [spread_window - 1] rows still holds an undefined spread.  So when
    nothing is undefined from position [hedge_window + spread_window - 1]
    on, the result is the cleaned aligned frame without its first
    [hedge_window + spread_window - 1] rows: its first row is the one at
    that position, and every later row survives. *)
Theorem warm_up_rows (self : Backtester) (h h' : list DataFrame) (l : nat)
    (fa fb : DataFrame) :
  h !! df_a self = Some fa -> h !! df_b self = Some fb ->
  prepare_data ln polyfit rmean rstd self h = (Ok l, h') ->
  let p := params self in
  let hw := hedge_window p in
  let sw := window_size (spread_window p) in
  exists d0 d2 xs ys betas alphas,
    aligned_frame ln p fa fb = Ok d0
    /\ columns (dropna d0) !! "x" = Some xs
    /\ columns (dropna d0) !! "y" = Some ys
    /\ rolling_hedge polyfit hw (dropna d0) = Ok (betas, alphas)
    /\ signal_frame polyfit rmean rstd p (dropna d0) = Ok d2
    /\ h' !! l = Some (dropna d2)
    /\ index d2 = index (dropna d0)
    /\ (forall j, j < length (index d2) -> row_ok d2 j = defined_at d2 j)
    /\ (forall j, j < length (index d2) ->
          row_ok d2 j
          = survives rmean rstd (use_log_price_spread p) hw sw
              xs ys betas alphas j)
    /\ (forall k t, index (dropna d2) !! k = Some t ->
          exists j, index (dropna d0) !! j = Some t
                    /\ hw + sw <= j + 1 /\ defined_at d2 j = true)
    /\ (1 <= sw ->
        (forall j, hw + sw - 1 <= j < length (index (dropna d0)) ->
           signal_defined rmean rstd (use_log_price_spread p) sw
             xs ys betas alphas j = true) ->
        index (dropna d2) = drop (hw + sw - 1) (index (dropna d0)))
    /\ (hw + sw - 1 < length (index d2) ->
        survives rmean rstd (use_log_price_spread p) hw sw
          xs ys betas alphas (hw + sw - 1) = true ->
        index (dropna d2) !! 0 = index (dropna d0) !! (hw + sw - 1)).
Proof.
  intros Ha Hb Hp p hw sw.
  destruct (prepare_data_result self h h' l fa fb Ha Hb Hp)
    as (d0 & d2 & H0 & H2 & Hl & Hidx).
  fold p in H0, H2.
  pose proof (signal_frame_Ok polyfit rmean rstd p _ _ H2)
    as (betas & alphas & spread & Hr & _ & _ & Hcols).
  fold hw in Hr.
  destruct (aligned_frame_Ok ln p fa fb d0 H0)
    as (pa & pb & x & y & Hc0 & _ & _).
  assert (columns (dropna d0) !! "x" = Some (select (kept_rows d0) x)) as Hx.
  { simpl. rewrite lookup_fmap, Hc0.
    by rewrite !lookup_insert_ne, lookup_insert_eq by done. }
  assert (columns (dropna d0) !! "y" = Some (select (kept_rows d0) y)) as Hy.
  { simpl. rewrite lookup_fmap, Hc0.
    by rewrite !lookup_insert_ne, lookup_insert_eq by done. }
  exists d0, d2, (select (kept_rows d0) x), (select (kept_rows d0) y),
    betas, alphas.
  assert (forall j, row_ok d2 j = true -> hw + sw <= j + 1) as Hwarm.
  { intros j Hok.
    by destruct (row_ok_warm_up polyfit rmean rstd p (dropna d0) d2 j H2 Hok). }
  assert (forall j, j < length (index d2) -> row_ok d2 j = defined_at d2 j)
    as Hdef
    by (intros j; by apply (row_ok_defined_at polyfit rmean rstd p d0)).
  assert (forall j, j < length (index d2) ->
            row_ok d2 j
            = survives rmean rstd (use_log_price_spread p) hw sw
                (select (kept_rows d0) x) (select (kept_rows d0) y)
                betas alphas j) as Hsurv
    by (intros j; by apply (row_ok_survives polyfit rmean rstd p d0)).
  split; [done|]. split; [done|]. split; [done|]. split; [done|].
  split; [done|]. split; [done|]. split; [done|]. split; [done|].
  split; [done|]. split; [|split].
  - intros k t (j & Hk & Ht & Hok & _)%dropna_index_lookup.
    exists j. rewrite <- Hidx. repeat split; try done; [by apply Hwarm|].
    rewrite <- Hdef; [done|]. by apply lookup_lt_Some in Ht.
  - intros Hsw Hall. rewrite <- Hidx. cbn [dropna index].
    unfold kept_rows.
    rewrite (filter_seq_from _ _ (hw + sw - 1)).
    + apply select_seq_drop.
    + intros j Hj _ Hok. apply Hwarm in Hok. lia.
    + intros j Hj. cbn beta. rewrite Hsurv by lia. unfold survives.
      rewrite Hall by (rewrite <- Hidx; lia).
      replace (1 <=? sw) with true by (symmetry; apply Nat.leb_le; lia).
      replace (hw + sw <=? j + 1) with true
        by (symmetry; apply Nat.leb_le; lia).
      done.
  - intros Hlt Hd. rewrite <- Hidx. simpl.
    rewrite (select_lookup_valid _ _ (kept_rows_valid_index d2)).
    unfold kept_rows.
    rewrite (filter_seq_first _ _ (hw + sw - 1)); [done|done|..].
    + by rewrite Hsurv.
    + intros j Hj Hok. apply Hwarm in Hok. lia.
Qed.

End WarmUpRows.

(** The constructor on the sample store. *)
Example new_backtester_five :
  __init__ 0 1 warm_params five_store
  = (Ok five_self, five_store ++ [five_a; five_b]).
Proof. reflexivity. Qed.

(** With the stand-ins for the library functions, the first row that
    survives on the sample is the one at position 3. *)
Example warm_up_example :
  index <$> returned id
              (prepare_data ln_float ols_fit window_mean window_std five_self
                 (five_store ++ [five_a; five_b]))
  = Some [3; 4]%Z.
Proof. vm_compute. reflexivity. Qed.

(** C3 with the larger of the two windows as the warm-up: with both
    windows at 2, the row at position [max 2 2 = 2] of the aligned sample
    (label 2) is never the first row of the result, whatever [np.log],
    [np.polyfit] and the rolling reductions return. *)
Lemma first_row_not_at_max_window :
  ~ (exists (ln : float -> float)
            (polyfit : Series -> Series -> res (float * float))
            (rmean rstd : nat -> Series -> float)
            (l : nat) (h' : list DataFrame) (out : DataFrame),
        prepare_data ln polyfit rmean rstd five_self
            (five_store ++ [five_a; five_b])
        = (Ok l, h')
        /\ h' !! l = Some out
        /\ index out !! 0 = Some 2%Z).
Proof.
  intros (ln & polyfit & rmean & rstd & l & h' & out & Hp & Hl & H0).
  destruct (prepare_data_result ln polyfit rmean rstd five_self
              (five_store ++ [five_a; five_b]) h' l five_a five_b
              eq_refl eq_refl Hp) as (d0 & d2 & Ha & Hs & Hl' & Hidx).
  rewrite Hl' in Hl. injection Hl as <-.
  apply dropna_index_lookup in H0 as (j & _ & Ht & Hok & _).
  apply (row_ok_warm_up polyfit rmean rstd warm_params (dropna d0)) in Hok
    as [_ Hok]; [|done].
  simpl in Hok. rewrite Hidx in Ht.
  apply dropna_index_lookup in Ht as (i & _ & Hi & _ & Hji).
  rewrite (aligned_frame_index _ _ _ _ _ Ha) in Hi.
  vm_compute (index_intersection _ _) in Hi.
  do 5 (destruct i as [|i]; [simpl in Hi; first [lia | discriminate]|]).
  done.
Qed.

Lemma warm_up_rows_witness :
  exists l h' out,
    prepare_data ln_float ols_fit window_mean window_std five_self
      (five_store ++ [five_a; five_b]) = (Ok l, h')
    /\ h' !! l = Some out
    /\ index out = [3; 4]%Z.
Proof.
  destruct (prepare_data ln_float ols_fit window_mean window_std five_self
              (five_store ++ [five_a; five_b])) as [[l|e] h'] eqn:Hp;
    [|vm_compute in Hp; discriminate].
  destruct (warm_up_rows ln_float ols_fit window_mean window_std five_self
              (five_store ++ [five_a; five_b]) h' l five_a five_b
              eq_refl eq_refl Hp)
    as (d0 & d2 & xs & ys & betas & alphas & H0 & Hx & Hy & Hr & _ & Hl & _
        & _ & _ & _ & Hdrop & _).
  exists l, h', (dropna d2). split; [reflexivity|]. split; [exact Hl|].
  assert (d0 = five_aligned) as ->
    by (vm_compute in H0; injection H0 as <-; reflexivity).
  vm_compute in Hx. injection Hx as <-.
  vm_compute in Hy. injection Hy as <-.
  vm_compute in Hr. injection Hr as <- <-.
  rewrite Hdrop.
  - vm_compute. reflexivity.
  - simpl. lia.
  - intros j Hj.
    change (hedge_window (params five_self)
            + window_size (spread_window (params five_self)) - 1)%nat
      with 3%nat in Hj.
    assert (j = 3 \/ j = 4)%nat as [-> | ->].
    { assert (length (index (dropna five_aligned)) = 5%nat) as Hlen
        by (vm_compute; reflexivity).
      rewrite Hlen in Hj. lia. }
    + vm_compute. reflexivity.
    + vm_compute. reflexivity.
Defined.

(** A later row can be lost without a zero [spread_std].  With a last
    price of 0 the last [x] is [-inf] and so is the last spread; with the
    stand-ins, the standard deviation of the window that holds it is NaN,
    not zero, and the row is dropped. *)
Example later_row_lost :
  index <$> returned id
              (prepare_data ln_float ols_fit window_mean window_std five_self
                 ([five_a; five_b_zero] ++ [five_a; five_b_zero]))
  = Some [3]%Z
  /\ (d0 ← aligned_frame ln_float warm_params five_a five_b_zero;
      d2 ← signal_frame ols_fit window_mean window_std warm_params (dropna d0);
      col d2 "spread_std")
     = Ok [nan; nan; nan; 0.00023940279584877544; nan]%float.
Proof. split; vm_compute; reflexivity. Qed.

(** ** [run] *)

Section RunResult.
Variable ln : float -> float.
Variable polyfit : Series -> Series -> res (float * float).
Variable rmean rstd : nat -> Series -> float.

(** When [run] returns, it has added a fourth object, the results frame,
    indexed like the prepared frame. *)
Lemma run_Ok (self : Backtester) (h h' : list DataFrame) (r n : nat)
    (fa fb : DataFrame) :
  h !! df_a self = Some fa -> h !! df_b self = Some fb ->
  run ln polyfit rmean rstd self h = (Ok (r, n), h') ->
  exists d0 d2 bars st,
    aligned_frame ln (params self) fa fb = Ok d0
    /\ signal_frame polyfit rmean rstd (params self) (dropna d0) = Ok d2
    /\ iterrows (dropna d2) = Ok bars
    /\ simulate (params self) bars = Ok st
    /\ n = trade_count st
    /\ h' !! r
       = Some (results_frame (index (dropna d2)) (equity_series st)).
Proof.
  intros Ha Hb Hr. unfold run in Hr. rewrite bind_run in Hr.
  destruct (prepare_data ln polyfit rmean rstd self h) as [[l|e] h1] eqn:Hp;
      [|done].
  destruct (prepare_data_Ok ln polyfit rmean rstd self h h1 l fa fb Ha Hb Hp)
    as (d0 & d2 & H0 & H2 & -> & ->).
  rewrite bind_run, (load_run _ _ (dropna d2)) in Hr.
  2:{ rewrite lookup_app_r by lia.
      by replace (length h + 2 - length h) with 2 by lia. }
  rewrite bind_run in Hr. unfold lift at 1 in Hr.
  destruct (iterrows (dropna d2)) as [bars|] eqn:Hbars; [|done].
  rewrite bind_run in Hr. unfold lift at 1 in Hr.
  destruct (simulate (params self) bars) as [st|] eqn:Hsim; [|done].
  rewrite bind_run in Hr. unfold alloc at 1 in Hr.
  rewrite bind_run, setitem_last in Hr.
  unfold assign, col in Hr. simpl in Hr. rewrite lookup_insert_eq in Hr.
  simpl in Hr. injection Hr as <- <- <-.
  exists d0, d2, bars, st. repeat split; try done.
  by rewrite lookup_app_r, Nat.sub_diag.
Qed.

Lemma iterrows_length (d : DataFrame) (bars : list (Bar float)) :
  iterrows d = Ok bars -> length bars = length (index d).
Proof.
  unfold iterrows. destruct (index d) as [|t idx] eqn:Hidx.
  - by intros [= <-].
  - intros (? & _ & (? & _ & (? & _ & (? & _ & H)%bind_Ok)%bind_Ok)%bind_Ok)%bind_Ok.
    injection H as <-. simpl. by rewrite length_imap.
Qed.

(** C9.  The trade count that [run] returns is the number of FLAT-to-open
    transitions of the run: the number of rows of the prepared frame that
    started flat and on which the ENTRY branch opened a position.  The
    counter is incremented by an entry and by nothing else, so an entry
    followed by an exit counts once, and so does an entry that is still
    open when the rows end. *)
Theorem trade_count_is_entry_count (self : Backtester) (h h' : list DataFrame)
    (r n : nat) (fa fb : DataFrame) :
  h !! df_a self = Some fa -> h !! df_b self = Some fb ->
  run ln polyfit rmean rstd self h = (Ok (r, n), h') ->
  exists out bars st,
    returned id (prepare_data ln polyfit rmean rstd self h) = Some out
    /\ iterrows out = Ok bars
    /\ simulate (params self) bars = Ok st
    /\ n = trade_count st
    /\ n = entries (params self) (bar_t <$> bars)
              (initial_state (params self)) bars.
Proof.
  intros Ha Hb Hr.
  destruct (run_Ok self h h' r n fa fb Ha Hb Hr)
    as (d0 & d2 & bars & st & H0 & H2 & Hbars & Hsim & -> & _).
  exists (dropna d2), bars, st. split;
      [|split; [done|split; [done|split; [done|]]]].
  - unfold run in Hr. rewrite bind_run in Hr.
    destruct (prepare_data ln polyfit rmean rstd self h) as [[l|e] h1] eqn:Hp;
      [|done].
    destruct (prepare_data_Ok ln polyfit rmean rstd self h h1 l fa fb Ha Hb Hp)
      as (d0' & d2' & H0' & H2' & -> & ->).
    rewrite H0 in H0'. injection H0' as <-.
    rewrite H2 in H2'. injection H2' as <-.
    unfold returned. simpl. rewrite lookup_app_r by lia.
    by replace (length h + 2 - length h) with 2 by lia.
  - unfold simulate in Hsim. by apply run_bars_trade_count in Hsim.
Qed.

End RunResult.

(** On the sample, [run] enters on the first prepared row and the rows end
    with the position open: one trade. *)
Lemma trade_count_is_entry_count_witness :
  exists r h' out bars,
    run ln_float ols_fit window_mean window_std trade_self
      (five_store ++ [five_a; five_b]) = (Ok (r, 1), h')
    /\ returned id (prepare_data ln_float ols_fit window_mean window_std
                      trade_self (five_store ++ [five_a; five_b])) = Some out
    /\ iterrows out = Ok bars
    /\ entries trade_params (bar_t <$> bars) (initial_state trade_params) bars
       = 1.
Proof.
  destruct (run ln_float ols_fit window_mean window_std trade_self
              (five_store ++ [five_a; five_b])) as [[[r n]|e] h'] eqn:Hr;
    [|vm_compute in Hr; discriminate].
  destruct (trade_count_is_entry_count ln_float ols_fit window_mean window_std
              trade_self (five_store ++ [five_a; five_b]) h' r n five_a five_b
              eq_refl eq_refl Hr)
    as (out & bars & st & Hout & Hbars & _ & _ & Hn).
  assert (n = 1) as Hn1.
  { clear -Hr. vm_compute in Hr. injection Hr as _ Hn _. symmetry. exact Hn. }
  exists r, h', out, bars. rewrite Hn1 in Hn |- *.
  split; [reflexivity|]. split; [exact Hout|]. split; [exact Hbars|].
  symmetry. exact Hn.
Defined.

(** The position of that run is still open after the last row. *)
Example open_at_the_end :
  (fun st => (trade_count st, position st))
    <$> (iterrows (dropna five_signal) ≫= simulate trade_params)
  = Ok (1, 1%Z).
Proof. vm_compute. reflexivity. Qed.

Section UndefinedSignal.
Variable ln : float -> float.
Variable polyfit : Series -> Series -> res (float * float).
Variable rmean rstd : nat -> Series -> float.

(** A label of the prepared frame stands at a position of the aligned
    index that is past the warm-up. *)
Lemma survivor_position (p : Params float) (fa fb d0 d2 : DataFrame) (t : Z) :
  aligned_frame ln p fa fb = Ok d0 ->
  signal_frame polyfit rmean rstd p (dropna d0) = Ok d2 ->
  t ∈ index (dropna d2) ->
  exists i, hedge_window p + window_size (spread_window p) <= i + 1
            /\ index_intersection (index fa) (index fb) !! i = Some t.
Proof.
  intros Ha Hs (k & Hk)%list_elem_of_lookup.
  apply dropna_index_lookup in Hk as (j & _ & Ht & Hok & _).
  apply (row_ok_warm_up polyfit rmean rstd p (dropna d0)) in Hok
    as [_ Hok]; [|done].
  apply signal_frame_Ok in Hs as (? & ? & ? & _ & _ & Hidx & _).
  rewrite Hidx in Ht.
  apply dropna_index_lookup in Ht as (i & _ & Hi & _ & Hji).
  rewrite (aligned_frame_index _ _ _ _ _ Ha) in Hi.
  exists i. split; [lia|done].
Qed.

(** C8.  A row whose [z] is undefined never reaches the bar
    loop: [prepare_data] drops it, so no entry or exit decision is made on
    it and no equity point is recorded for it.  The equity series has one
    point for each row of the prepared frame and no other, and each of
    these rows has a defined [z]. *)
Theorem equity_points_are_defined_rows (self : Backtester)
    (h h' : list DataFrame) (r n : nat) (fa fb : DataFrame) :
  h !! df_a self = Some fa -> h !! df_b self = Some fb ->
  run ln polyfit rmean rstd self h = (Ok (r, n), h') ->
  exists d0 d2 zs results equity,
    aligned_frame ln (params self) fa fb = Ok d0
    /\ signal_frame polyfit rmean rstd (params self) (dropna d0) = Ok d2
    /\ columns d2 !! "z" = Some zs
    /\ h' !! r = Some results
    /\ index results = index (dropna d2)
    /\ columns results !! "equity" = Some equity
    /\ length equity = length (index results)
    /\ (forall k t, index results !! k = Some t ->
          exists j, kept_rows d2 !! k = Some j /\ index d2 !! j = Some t
                    /\ notna (iloc zs j) = true)
    /\ (forall j, notna (iloc zs j) = false -> j ∉ kept_rows d2).
Proof.
  intros Ha Hb Hr.
  destruct (run_Ok ln polyfit rmean rstd self h h' r n fa fb Ha Hb Hr)
    as (d0 & d2 & bars & st & H0 & H2 & Hbars & Hsim & -> & Hres).
  pose proof (signal_frame_Ok polyfit rmean rstd _ _ _ H2)
    as (betas & alphas & spread & _ & _ & _ & Hcols).
  eexists d0, d2, _, _, (equity_series st).
  split; [done|]. split; [done|].
  split; [rewrite Hcols; apply lookup_insert_eq|].
  split; [exact Hres|]. split; [done|].
  split; [simpl; by rewrite lookup_insert_ne, lookup_insert_eq by done|].
  assert (forall j, row_ok d2 j = true ->
            notna (iloc (zip_with PrimFloat.div
                           (zip_with PrimFloat.sub spread
                              (rolling (window_size
                                          (spread_window (params self)))
                                 rmean spread))
                           (rolling (window_size (spread_window (params self)))
                              rstd spread))
                         j) = true) as Hz.
  { intros j Hok.
    destruct (row_ok_lookup d2 j "z" _ Hok
                ltac:(rewrite Hcols; apply lookup_insert_eq)) as (x & Hx & Hn).
    by rewrite (iloc_lookup _ _ _ Hx). }
  split; [|split].
  - unfold simulate in Hsim. apply run_bars_equity_length in Hsim.
    simpl in Hsim. rewrite Hsim. change (index (results_frame ?i ?e)) with i.
    by apply iterrows_length.
  - intros k t Hk. change (index (results_frame ?i ?e)) with i in Hk.
    apply dropna_index_lookup in Hk as (j & Hk & Ht & Hok & _).
    exists j. repeat split; try done. by apply Hz.
  - intros j Hj (k & Hk)%list_elem_of_lookup.
    apply kept_rows_lookup in Hk as [_ Hok]. apply Hz in Hok. congruence.
Qed.

End UndefinedSignal.

(** With the stand-ins, on the sample: [z] is undefined on the rows
    labelled 0, 1 and 2 of the signal frame (the object at 5), and the
    equity series has points for 3 and 4 only. *)
Example undefined_z_rows_example :
  let x := run ln_float ols_fit window_mean window_std five_self
      (five_store ++ [five_a; five_b]) in
  index <$> x.2 !! 5 = Some [0; 1; 2; 3; 4]%Z
  /\ (d ← x.2 !! 5; zs ← columns d !! "z"; Some (map notna zs))
     = Some [false; false; false; true; true]
  /\ index <$> returned fst x = Some [3; 4]%Z
  /\ (d ← returned fst x; columns d !! "equity")
     = Some [1000000; 1000000]%float.
Proof. vm_compute. repeat split; reflexivity. Qed.

(** C8 with an equity point for every bar: on the sample, the bar labelled
    0 has no [beta] yet and so no [z], and whatever [np.log], [np.polyfit]
    and the rolling reductions return, the equity series of [run] has no
    point at label 0. *)
Lemma no_equity_point_for_undefined_z :
  ~ (exists (ln : float -> float)
            (polyfit : Series -> Series -> res (float * float))
            (rmean rstd : nat -> Series -> float)
            (r n : nat) (h' : list DataFrame) (results : DataFrame),
        run ln polyfit rmean rstd five_self (five_store ++ [five_a; five_b])
        = (Ok (r, n), h')
        /\ h' !! r = Some results
        /\ 0%Z ∈ index results).
Proof.
  intros (ln & polyfit & rmean & rstd & r & n & h' & results & Hr & Hres
          & Hin).
  destruct (run_Ok ln polyfit rmean rstd five_self
              (five_store ++ [five_a; five_b])
              h' r n five_a five_b eq_refl eq_refl Hr)
    as (d0 & d2 & bars & st & H0 & H2 & _ & _ & _ & Hres').
  rewrite Hres' in Hres. injection Hres as <-.
  change (index (results_frame ?i ?e)) with i in Hin.
  destruct (survivor_position ln polyfit rmean rstd warm_params five_a five_b d0
              d2 0%Z
              H0 H2 Hin) as (i & Hi & Hlook).
  simpl in Hi. vm_compute (index_intersection _ _) in Hlook.
  do 5 (destruct i as [|i]; [simpl in Hlook; first [lia | discriminate]|]).
  done.
Qed.

Lemma equity_points_are_defined_rows_witness :
  exists results equity,
    (five_store ++ [five_a; five_b]) !! df_a five_self = Some five_a
    /\ columns results !! "equity" = Some equity
    /\ length equity = length (index results).
Proof.
  destruct (run ln_float ols_fit window_mean window_std five_self
              (five_store ++ [five_a; five_b])) as [[[r n]|e] h'] eqn:Hr;
    [|vm_compute in Hr; discriminate].
  destruct (equity_points_are_defined_rows ln_float ols_fit window_mean
              window_std five_self
              (five_store ++ [five_a; five_b]) h' r n five_a five_b
              eq_refl eq_refl Hr)
    as (d0 & d2 & zs & results & equity & _ & _ & _ & _ & _ & He & Hlen & _).
  exists results, equity. split; [reflexivity|]. split; [exact He|exact Hlen].
Defined.

(** * The caller's frames *)

Section Preserves.
Context {A B : Type}.
Variable n : nat.

Lemma preserves_ret (a : A) (Q : A -> Prop) : Q a -> preserves n (mret a) Q.
Proof. intros Hq h Hn. simpl. repeat split; try done. by intros ? [= <-]. Qed.

Lemma preserves_lift (r : res A) : preserves n (lift r) (fun _ => True).
Proof. by intros h Hn. Qed.

Lemma preserves_bind (m : M A) (k : A -> M B) (Q : A -> Prop) (R : B -> Prop) :
  preserves n m Q -> (forall a, Q a -> preserves n (k a) R) ->
  preserves n (m ≫= k) R.
Proof.
  intros Hm Hk h Hn. rewrite bind_run.
  destruct (Hm h Hn) as (Htake & Hlen & Hq).
  destruct (m h) as [[a|e] h1]; simpl in *; [|done].
  destruct (Hk a (Hq a eq_refl) h1 Hlen) as (Htake' & Hlen' & Hr).
  repeat split; try done. by rewrite Htake'.
Qed.


Lemma preserves_attempt (m : M A) (Q : A -> Prop) :
  preserves n m Q -> preserves n (attempt m) (fun _ => True).
Proof.
  intros Hm h Hn. destruct (Hm h Hn) as (? & ? & _). by repeat split.
Qed.

End Preserves.

Lemma preserves_alloc (n : nat) (d : DataFrame) :
  preserves n (alloc d) (fun l => n <= l).
Proof.
  intros h Hn. unfold alloc. simpl. rewrite length_app. simpl.
  repeat split; [by rewrite take_app_le|lia|]. by intros ? [= <-].
Qed.

Lemma preserves_load (n l : nat) : preserves n (load l) (fun _ => True).
Proof. intros h Hn. unfold load. by destruct (h !! l). Qed.

Lemma preserves_store (n l : nat) (d : DataFrame) :
  n <= l -> preserves n (store l d) (fun _ => True).
Proof.
  intros Hl h Hn. unfold store. simpl. rewrite length_insert.
  repeat split; try done. by rewrite take_insert_ge.
Qed.

Lemma preserves_setitem (n l : nat) (c : string) (f : DataFrame -> res Series) :
  n <= l -> preserves n (setitem l c f) (fun _ => True).
Proof.
  intros Hl. unfold setitem.
  eapply preserves_bind; [apply preserves_load|]. intros d _.
  eapply preserves_bind; [apply preserves_lift|]. intros d' _.
  by apply preserves_store.
Qed.

Lemma preserves_dropna_new (n l : nat) :
  preserves n (dropna_new l) (fun l' => n <= l').
Proof.
  unfold dropna_new.
  eapply preserves_bind; [apply preserves_load|]. intros d _.
  apply preserves_alloc.
Qed.

Lemma preserves_new_backtester (n a b : nat) (p : Params float) :
  preserves n (__init__ a b p) (fun _ => True).
Proof.
  unfold __init__.
  eapply preserves_bind; [apply preserves_load|]. intros fa _.
  eapply preserves_bind; [apply preserves_alloc|]. intros a' _.
  eapply preserves_bind; [apply preserves_load|]. intros fb _.
  eapply preserves_bind; [apply preserves_alloc|]. intros b' _.
  by apply preserves_ret.
Qed.

Section SessionFacts.
Variable ln : float -> float.
Variable polyfit : Series -> Series -> res (float * float).
Variable rmean rstd : nat -> Series -> float.

(** Every column assignment of [prepare_data] goes to a frame that it
    built itself. *)
Lemma preserves_prepare_data (n : nat) (self : Backtester) :
  preserves n (prepare_data ln polyfit rmean rstd self) (fun l => n <= l).
Proof.
  unfold prepare_data. cbv zeta.
  eapply preserves_bind; [apply preserves_load|]. intros fa _.
  eapply preserves_bind; [apply preserves_load|]. intros fb _.
  eapply preserves_bind; [apply preserves_alloc|]. intros df Hdf.
  eapply preserves_bind; [by apply preserves_setitem|]. intros _ _.
  eapply preserves_bind; [by apply preserves_setitem|]. intros _ _.
  eapply (preserves_bind _ _ _ (fun _ => True)).
  { destruct (use_log_price_spread (params self));
      (eapply preserves_bind; [by apply preserves_setitem|]; intros _ _;
       by apply preserves_setitem). }
  intros _ _.
  eapply preserves_bind; [apply preserves_dropna_new|]. intros df1 Hdf1.
  eapply preserves_bind; [apply preserves_load|]. intros d _.
  eapply preserves_bind; [apply preserves_lift|]. intros [betas alphas] _.
  do 6 (eapply preserves_bind; [by apply preserves_setitem|]; intros _ _).
  apply preserves_dropna_new.
Qed.

(** [run] adds the results frame and assigns to nothing else. *)
Lemma preserves_run (n : nat) (self : Backtester) :
  preserves n (run ln polyfit rmean rstd self) (fun _ => True).
Proof.
  unfold run.
  eapply preserves_bind; [apply preserves_prepare_data|]. intros df Hdf.
  eapply preserves_bind; [apply preserves_load|]. intros d _.
  eapply preserves_bind; [apply preserves_lift|]. intros bars _.
  eapply preserves_bind; [apply preserves_lift|]. intros st _.
  eapply preserves_bind; [apply preserves_alloc|]. intros results Hres.
  eapply preserves_bind; [by apply preserves_setitem|]. intros _ _.
  by apply preserves_ret.
Qed.

Lemma preserves_perform_all (n : nat) (self : Backtester) (cs : list call) :
  preserves n (perform_all ln polyfit rmean rstd self cs) (fun _ => True).
Proof.
  induction cs as [|c cs IH]; simpl; [by apply preserves_ret|].
  eapply preserves_bind; [|intros _ _; exact IH].
  destruct c; simpl.
  - eapply preserves_attempt, preserves_prepare_data.
  - eapply preserves_attempt, preserves_run.
Qed.

Lemma preserves_session (n a b : nat) (p : Params float) (cs : list call) :
  preserves n (session ln polyfit rmean rstd a b p cs) (fun _ => True).
Proof.
  unfold session.
  eapply preserves_bind; [apply preserves_new_backtester|]. intros self _.
  apply preserves_perform_all.
Qed.

(** C10.  Whatever the caller's store holds, after the constructor and any
    sequence of calls of [prepare_data] and [run] (exceptions included) the
    objects that were in the store before are unchanged; in particular the
    two frames passed to the constructor are. *)
Theorem caller_frames_unchanged (a b : nat) (p : Params float)
    (cs : list call) (h : list DataFrame) (fa fb : DataFrame) :
  h !! a = Some fa -> h !! b = Some fb ->
  let h' := (session ln polyfit rmean rstd a b p cs h).2 in
  h' !! a = Some fa /\ h' !! b = Some fb /\ take (length h) h' = h.
Proof.
  intros Ha Hb h'.
  destruct (preserves_session (length h) a b p cs h (le_n _)) as (Htake & _ & _).
  fold h' in Htake. rewrite firstn_all in Htake.
  assert (forall l d, h !! l = Some d -> h' !! l = Some d) as Hkeep.
  { intros l d Hl. rewrite <- Htake in Hl.
    rewrite lookup_take_lt in Hl; [done|].
    apply lookup_lt_Some in Hl. rewrite length_take in Hl. lia. }
  auto.
Qed.

End SessionFacts.

Lemma caller_frames_unchanged_witness :
  let h' := (session ln_float ols_fit window_mean window_std 0 1 warm_params
               [CallPrepareData; CallRun; CallRun] five_store).2 in
  h' !! 0 = Some five_a /\ h' !! 1 = Some five_b
  /\ take (length five_store) h' = five_store.
Proof.
  exact (caller_frames_unchanged ln_float ols_fit window_mean window_std 0 1
           warm_params
           [CallPrepareData; CallRun; CallRun] five_store five_a five_b
           eq_refl eq_refl).
Defined.

Lemma hedge_no_lookahead_witness :
  exists betas alphas betas' alphas',
    rolling_hedge ols_fit 2 xy_one = Ok (betas, alphas)
    /\ rolling_hedge ols_fit 2 xy_two = Ok (betas', alphas')
    /\ betas !! 2 = betas' !! 2
    /\ alphas !! 2 = alphas' !! 2.
Proof.
  destruct (rolling_hedge ols_fit 2 xy_one) as [[betas alphas]|] eqn:H1;
    [|vm_compute in H1; discriminate].
  destruct (rolling_hedge ols_fit 2 xy_two) as [[betas' alphas']|] eqn:H2;
    [|vm_compute in H2; discriminate].
  exists betas, alphas, betas', alphas'.
  destruct (hedge_no_lookahead ols_fit 2 2 xy_one xy_two
              [1; 2; 3; 4]%float [2; 4; 7; 8]%float
              [1; 2; 9; 9]%float [2; 4; 0; 0]%float
              betas alphas betas' alphas')
    as (Hb & Ha & _); try reflexivity; try assumption; try (simpl; lia).
  by repeat split.
Defined.

(** * The performance analyzer *)

Local Open Scope float_scope.

Lemma div_nan_r (x : float) : x / nan = nan.
Proof.
  apply Prim2SF_inj. rewrite FloatAxioms.div_spec.
  change (Prim2SF nan) with S754_nan. by destruct (Prim2SF x).
Qed.

Lemma sub_nan_l (x : float) : nan - x = nan.
Proof.
  apply Prim2SF_inj. rewrite FloatAxioms.sub_spec. reflexivity.
Qed.

(** The returns of an equity series: none for the first point, the
    percentage change from the previous point for the others. *)
Lemma pct_change_lookup (equity : Series) :
  (forall e0, equity !! 0%nat = Some e0 -> pct_change equity !! 0%nat = Some nan)
  /\ (forall i cur prev,
        equity !! S i = Some cur -> equity !! i = Some prev ->
        pct_change equity !! S i = Some (cur / prev - 1)).
Proof.
  unfold pct_change, shift1. split.
  - intros e0 H0. destruct equity as [|e equity]; [done|].
    simpl in *. injection H0 as <-. by rewrite div_nan_r, sub_nan_l.
  - intros i cur prev Hc Hp. apply lookup_zip_with_Some.
    exists cur, prev. split; [done|]. split; [done|].
    rewrite lookup_take_lt by (apply lookup_lt_Some in Hc; lia). done.
Qed.

(** There is one NaN. *)
Lemma is_nan_eq (x : float) : is_nan x = true -> x = nan.
Proof.
  unfold is_nan. rewrite FloatAxioms.eqb_spec. intros Hn.
  apply Prim2SF_inj. change (Prim2SF nan) with S754_nan.
  destruct (Prim2SF x) as [s|s| |s m e]; [| |done|]; exfalso; revert Hn.
  - done.
  - by destruct s.
  - unfold SFeqb, SFcompare. rewrite Z.compare_refl, Pos.compare_cont_refl.
    by destruct s.
Qed.

Section SharpeRatio.
Variable series_mean : Series -> float.
Variable series_std : Series -> float.

(** A NaN standard deviation passes the guard of line 193. *)
Lemma sharpe_of_nan_std (rets : Series) :
  is_nan (series_std rets) = true ->
  (series_std rets =? 0) = false
  /\ is_nan (sharpe_of series_mean series_std rets) = true.
Proof.
  intros Hn. apply is_nan_eq in Hn. unfold sharpe_of. rewrite Hn.
  change (nan =? 0) with false. split; [done|].
  destruct (length rets <? 2)%nat; simpl; [done|]. by rewrite div_nan_r.
Qed.

(** C7.  The returns are the percentage changes of consecutive equity
    values, [cur / prev - 1], of which the first point has none, without
    those that are NaN.  With [mean] and [std] what pandas computes on
    them, [performance_metrics] returns a NaN ratio when there are fewer
    than two returns or [std == 0], and [sqrt(252 * 78) * mean / std]
    otherwise.  So the ratio is NaN exactly when there are fewer than two
    returns, or [std == 0], or that quotient is itself NaN; the last
    happens whenever [std] is NaN, which is not [== 0]. *)
Theorem sharpe_ratio_cases (idx : list Z) (equity : Series) :
  let rets := series_dropna (pct_change equity) in
  let ratio := sqrt 19656 * series_mean rets / series_std rets in
  exists m,
    performance_metrics series_mean series_std (results_frame idx equity)
    = Ok m
    /\ (((length rets < 2)%nat \/ (series_std rets =? 0) = true) ->
        Sharpe m = nan)
    /\ ((2 <= length rets)%nat -> (series_std rets =? 0) = false ->
        Sharpe m = ratio)
    /\ (is_nan (Sharpe m) = true <->
        (length rets < 2)%nat \/ (series_std rets =? 0) = true
        \/ is_nan ratio = true)
    /\ (is_nan (series_std rets) = true -> is_nan (Sharpe m) = true)
    /\ (forall e0, equity !! 0%nat = Some e0 ->
          pct_change equity !! 0%nat = Some nan)
    /\ (forall i cur prev,
          equity !! S i = Some cur -> equity !! i = Some prev ->
          pct_change equity !! S i = Some (cur / prev - 1)).
Proof.
  intros rets ratio. eexists. split; [reflexivity|].
  cbn [Sharpe]. fold rets.
  destruct (pct_change_lookup equity) as [Hfirst Hnext].
  assert (sharpe_of series_mean series_std rets
          = if (series_std rets =? 0) || (length rets <? 2)%nat then nan
            else ratio) as Hcases by reflexivity.
  split; [|split; [|split; [|split; [|split; [exact Hfirst|exact Hnext]]]]].
  - intros [Hlen|Hstd]; rewrite Hcases.
    + apply Nat.ltb_lt in Hlen. rewrite Hlen. by rewrite orb_true_r.
    + by rewrite Hstd.
  - intros Hlen Hstd. rewrite Hcases, Hstd. apply Nat.ltb_ge in Hlen.
    by rewrite Hlen.
  - rewrite Hcases. destruct (series_std rets =? 0) eqn:Hstd; simpl.
    + split; [auto|done].
    + destruct (length rets <? 2)%nat eqn:Hlen.
      * apply Nat.ltb_lt in Hlen. split; [auto|done].
      * apply Nat.ltb_ge in Hlen. split; [auto|].
        intros [?|[?|?]]; [lia|done|done].
  - intros Hn. by apply sharpe_of_nan_std.
Qed.

End SharpeRatio.

(** A run that starts without cash records the equity 0, then -20 after
    the entry cost: the return of the second bar is infinite. *)
Example zero_capital_returns :
  exists st,
    simulate zero_capital_params zero_capital_bars = Ok st
    /\ equity_series st = [0; -20; -20]
    /\ series_dropna (pct_change (equity_series st)) = [neg_infinity; 0].
Proof. eexists. split; [vm_compute; reflexivity|]. split; reflexivity. Qed.

(** C7 as an equivalence: on the equity 0, -20, -20 of that run there are
    two returns, [-inf] and 0.  Their standard deviation is NaN, for pandas
    as for any reduction that subtracts the mean [-inf] from them: it is not
    [== 0], and the ratio is NaN all the same. *)
Lemma sharpe_nan_with_two_returns :
  exists st rets,
    simulate zero_capital_params zero_capital_bars = Ok st
    /\ rets = series_dropna (pct_change (equity_series st))
    /\ rets = [neg_infinity; 0]
    /\ length rets = 2%nat
    /\ is_nan (pstd rets) = true
    /\ forall (series_mean series_std : Series -> float) (m : Metrics),
         is_nan (series_std rets) = true ->
         performance_metrics series_mean series_std
           (results_frame [0; 1; 2]%Z (equity_series st)) = Ok m ->
         (series_std rets =? 0) = false /\ is_nan (Sharpe m) = true.
Proof.
  eexists _, _. split; [vm_compute; reflexivity|].
  split; [reflexivity|]. split; [vm_compute; reflexivity|].
  split; [reflexivity|]. split; [vm_compute; reflexivity|].
  intros series_mean series_std m Hn Hm.
  destruct (sharpe_of_nan_std series_mean series_std [neg_infinity; 0] Hn)
    as [Hstd Hs].
  split; [exact Hstd|].
  assert (Sharpe <$> Ok m
          = Ok (sharpe_of series_mean series_std [neg_infinity; 0])) as Hsh
    by (rewrite <- Hm; reflexivity).
  injection Hsh as ->. exact Hs.
Qed.

(** * No lookahead, from the aligned prices on *)

Local Open Scope nat_scope.

Lemma take_eq_lookup {A : Type} (k : nat) (v v' : list A) :
  take k v = take k v' <-> forall j, j < k -> v !! j = v' !! j.
Proof.
  split.
  - intros Heq j Hj. by rewrite <- (lookup_take_lt v k j), Heq, lookup_take_lt.
  - intros Hl. apply list_eq. intros j. destruct (decide (j < k)).
    + rewrite !lookup_take_lt by done. by apply Hl.
    + by rewrite !lookup_take_ge by lia.
Qed.

Lemma smap_prefix (f : float -> float) (k : nat) (v v' : Series) :
  take k v = take k v' -> take k (smap f v) = take k (smap f v').
Proof. unfold smap. intros Heq. by rewrite <- !fmap_take, Heq. Qed.

Lemma shift1_lookup (v : Series) (j : nat) :
  j < length v -> shift1 v !! j = (nan :: v) !! j.
Proof. intros Hj. unfold shift1. by rewrite lookup_take_lt. Qed.

(** The return of a row is made of the row and the one before. *)
Lemma zip_shift1_prefix (f : float -> float -> float) (k : nat)
    (v v' : Series) :
  take k v = take k v' ->
  take k (zip_with f v (shift1 v)) = take k (zip_with f v' (shift1 v')).
Proof.
  rewrite !take_eq_lookup. intros Heq j Hj.
  rewrite !lookup_zip_with. rewrite <- (Heq j Hj).
  destruct (v !! j) as [x|] eqn:Hx; [|done]. simpl.
  rewrite !shift1_lookup.
  - destruct j as [|j]; [done|]. simpl. by rewrite (Heq j) by lia.
  - apply lookup_lt_Some with x. by rewrite <- (Heq j Hj).
  - by apply lookup_lt_Some with x.
Qed.

Lemma iloc_prefix (k j : nat) (v v' : Series) :
  take k v = take k v' -> j < k -> iloc v j = iloc v' j.
Proof.
  rewrite take_eq_lookup. intros Heq Hj. unfold iloc. by rewrite (Heq j Hj).
Qed.

Lemma filter_seq_ext (P Q : nat -> Prop) `{forall i, Decision (P i)}
    `{forall i, Decision (Q i)} (k : nat) :
  (forall j, j < k -> P j <-> Q j) ->
  filter P (seq 0 k) = filter Q (seq 0 k).
Proof.
  induction k as [|k IH]; intros Hext; [done|].
  rewrite seq_S, !filter_app, IH by (intros; apply Hext; lia). simpl.
  f_equal. rewrite !filter_cons, !filter_nil.
  destruct (decide (P k)) as [Hp|Hp], (decide (Q k)) as [Hq|Hq];
    try done; exfalso; apply (Hext k) in Hp || apply (Hext k) in Hq;
    done || lia.
Qed.

(** The rows kept below a kept row [k] come first, and [k] right after. *)
Lemma filter_seq_split (P : nat -> Prop) `{forall i, Decision (P i)}
    (n k : nat) :
  k < n -> P k ->
  filter P (seq 0 n)
  = filter P (seq 0 k) ++ k :: filter P (seq (S k) (n - S k)).
Proof.
  intros Hk Hp. replace n with (k + S (n - S k)) at 1 by lia.
  rewrite seq_app, filter_app. simpl. by rewrite filter_cons_True.
Qed.

Section EndToEnd.
Variable ln : float -> float.
Variable polyfit : Series -> Series -> res (float * float).
Variable rmean rstd : nat -> Series -> float.
Variable p : Params float.

(** A row of the aligned frame survives line 62 when its two prices and
    its [x] and [y] are defined. *)
Lemma aligned_row_ok (d0 : DataFrame) (pa pb x y : Series) (j : nat) :
  columns d0 = <["price_a" := pa]> (<["price_b" := pb]>
                 (<["x" := x]> (<["y" := y]> ∅))) ->
  row_ok d0 j = true <->
  notna (iloc pa j) = true /\ notna (iloc pb j) = true
  /\ notna (iloc x j) = true /\ notna (iloc y j) = true.
Proof.
  intros Hcols. split.
  - intros Hok.
    assert (forall c v, columns d0 !! c = Some v -> notna (iloc v j) = true)
      as Hall.
    { intros c v Hc. destruct (row_ok_lookup d0 j c v Hok Hc) as (z & Hz & Hn).
      by rewrite (iloc_lookup _ _ _ Hz). }
    rewrite Hcols in Hall.
    repeat split;
      [apply (Hall "price_a") | apply (Hall "price_b")
      | apply (Hall "x") | apply (Hall "y")];
      repeat (first [apply lookup_insert_eq
                    | rewrite lookup_insert_ne by done]).
  - intros (Ha & Hb & Hx & Hy). apply row_ok_intro. intros c v.
    rewrite Hcols.
    repeat (rewrite lookup_insert; case_decide; [by intros [= <-]|]). done.
Qed.

Lemma xy_prefix (k : nat) (v v' : Series) :
  take k v = take k v' ->
  take k (if use_log_price_spread p then smap ln v
          else zip_with (fun cur prev => ln (cur / prev)) v (shift1 v))
  = take k (if use_log_price_spread p then smap ln v'
            else zip_with (fun cur prev => ln (cur / prev)) v' (shift1 v')).
Proof.
  intros Heq. destruct (use_log_price_spread p).
  - by apply smap_prefix.
  - by apply zip_shift1_prefix.
Qed.

(** X15.  Two aligned frames with the same prices on the rows before [k]:
    row [k] stands at the same position of the two cleaned frames, and the
    regression at that position sees the same data, so it gives the same
    [beta] and [alpha], whatever the bars from [k] on are. *)
Lemma prepare_data_no_lookahead (fa fb fa' fb' d0 d0' d2 d2' : DataFrame)
    (pa pb pa' pb' : Series) (k : nat) :
  aligned_frame ln p fa fb = Ok d0 ->
  aligned_frame ln p fa' fb' = Ok d0' ->
  signal_frame polyfit rmean rstd p (dropna d0) = Ok d2 ->
  signal_frame polyfit rmean rstd p (dropna d0') = Ok d2' ->
  columns d0 !! "price_a" = Some pa -> columns d0 !! "price_b" = Some pb ->
  columns d0' !! "price_a" = Some pa' -> columns d0' !! "price_b" = Some pb' ->
  take k pa = take k pa' -> take k pb = take k pb' ->
  k < length (index d0) -> k < length (index d0') ->
  row_ok d0 k = true -> row_ok d0' k = true ->
  exists i betas alphas betas' alphas',
    kept_rows d0 !! i = Some k /\ kept_rows d0' !! i = Some k
    /\ columns d2 !! "beta" = Some betas
    /\ columns d2 !! "alpha" = Some alphas
    /\ columns d2' !! "beta" = Some betas'
    /\ columns d2' !! "alpha" = Some alphas'
    /\ betas !! i = betas' !! i
    /\ alphas !! i = alphas' !! i.
Proof.
  intros H0 H0' H2 H2' Hpa Hpb Hpa' Hpb' Ea Eb Hk Hk' Hok Hok'.
  destruct (aligned_frame_Ok ln p fa fb d0 H0) as
      (qa & qb & x & y & Hc & Hx & Hy).
  destruct (aligned_frame_Ok ln p fa' fb' d0' H0')
    as (qa' & qb' & x' & y' & Hc' & Hx' & Hy').
  rewrite Hc in Hpa, Hpb. rewrite Hc' in Hpa', Hpb'.
  rewrite lookup_insert_eq in Hpa, Hpa'.
  rewrite lookup_insert_ne, lookup_insert_eq in Hpb, Hpb' by done.
  injection Hpa as ->. injection Hpb as ->.
  injection Hpa' as ->. injection Hpb' as ->.
  assert (take k x = take k x') as Ex by (subst x x'; by apply xy_prefix).
  assert (take k y = take k y') as Ey by (subst y y'; by apply xy_prefix).
  (* the same rows are kept below [k] *)
  assert (forall j, j < k -> row_ok d0 j = true <-> row_ok d0' j = true) as Hsame.
  { intros j Hj.
    rewrite (aligned_row_ok d0 pa pb x y j Hc).
    rewrite (aligned_row_ok d0' pa' pb' x' y' j Hc').
    by rewrite (iloc_prefix k j pa pa'), (iloc_prefix k j pb pb'),
      (iloc_prefix k j x x'), (iloc_prefix k j y y'). }
  set (r := filter (fun j => row_ok d0 j = true) (seq 0 k)).
  assert (kept_rows d0
          = r ++ k :: filter (fun j => row_ok d0 j = true)
                        (seq (S k) (length (index d0) - S k))) as Hrows
    by (by apply filter_seq_split).
  assert (kept_rows d0'
          = r ++ k :: filter (fun j => row_ok d0' j = true)
                        (seq (S k) (length (index d0') - S k))) as Hrows'.
  { unfold r. rewrite (filter_seq_ext _ (fun j => row_ok d0' j = true) k Hsame).
    by apply filter_seq_split. }
  assert (Forall (fun j => j < k) r) as Hr.
  { apply Forall_lookup. intros m j Hm.
    apply filter_seq_lookup in Hm. lia. }
  (* the columns of the cleaned frames agree on the rows before the one
     that [k] becomes *)
  assert (forall v v' c, columns d0 !! c = Some v -> columns d0' !! c = Some v' ->
            take k v = take k v' ->
            take (length r) (select (kept_rows d0) v)
            = take (length r) (select (kept_rows d0') v')) as Hsel.
  { intros v v' c Hv Hv' Ev.
    pose proof (kept_rows_valid_col d0 c v Hv) as Hvalid.
    rewrite Hrows in Hvalid |- *. rewrite Hrows'.
    apply Forall_app in Hvalid as [Hvalid _].
    unfold select. rewrite !omap_app.
    assert (omap (fun i => v' !! i) r = omap (fun i => v !! i) r) as ->.
    { clear -Hr Ev. rewrite take_eq_lookup in Ev.
      induction Hr as [|j r Hj _ IH]; [done|]. csimpl.
      by rewrite IH, (Ev j Hj). }
    assert (length (omap (fun i => v !! i) r) = length r) as Hlen
      by (by apply select_length_valid).
    by rewrite !take_app_length' by done. }
  pose proof (signal_frame_Ok polyfit rmean rstd p _ _ H2)
    as (betas & alphas & sp & Hh & _ & _ & Hcols).
  pose proof (signal_frame_Ok polyfit rmean rstd p _ _ H2')
    as (betas' & alphas' & sp' & Hh' & _ & _ & Hcols').
  exists (length r), betas, alphas, betas', alphas'.
  assert (kept_rows d0 !! length r = Some k) as Hi
    by (rewrite Hrows; apply list_lookup_middle; done).
  assert (kept_rows d0' !! length r = Some k) as Hi'
    by (rewrite Hrows'; apply list_lookup_middle; done).
  split; [done|]. split; [done|].
  split; [rewrite Hcols; by repeat (first [apply lookup_insert_eq
                        | rewrite lookup_insert_ne by done])|].
  split; [rewrite Hcols; by repeat (first [apply lookup_insert_eq
                        | rewrite lookup_insert_ne by done])|].
  split; [rewrite Hcols'; by repeat (first [apply lookup_insert_eq
                        | rewrite lookup_insert_ne by done])|].
  split; [rewrite Hcols'; by repeat (first [apply lookup_insert_eq
                        | rewrite lookup_insert_ne by done])|].
  assert (length r < length (index (dropna d0))) as Hlt
    by (rewrite dropna_index_length; by apply lookup_lt_Some in Hi).
  assert (length r < length (index (dropna d0'))) as Hlt'
    by (rewrite dropna_index_length; by apply lookup_lt_Some in Hi').
  destruct (rolling_hedge_lookup polyfit _ _ betas alphas _ Hh Hlt)
    as (b & a & Hat & Hb & Ha).
  destruct (rolling_hedge_lookup polyfit _ _ betas' alphas' _ Hh' Hlt')
    as (b' & a' & Hat' & Hb' & Ha').
  rewrite (hedge_at_prefix polyfit (hedge_window p) (length r)
             (dropna d0) (dropna d0')
             (select (kept_rows d0) x) (select (kept_rows d0) y)
             (select (kept_rows d0') x') (select (kept_rows d0') y')) in Hat.
  - rewrite Hat in Hat'. injection Hat' as <- <-.
    by rewrite Hb, Hb', Ha, Ha'.
  - unfold col. simpl. rewrite lookup_fmap, Hc.
    by rewrite !lookup_insert_ne, lookup_insert_eq by done.
  - unfold col. simpl. rewrite lookup_fmap, Hc.
    by rewrite !lookup_insert_ne, lookup_insert_eq by done.
  - unfold col. simpl. rewrite lookup_fmap, Hc'.
    by rewrite !lookup_insert_ne, lookup_insert_eq by done.
  - unfold col. simpl. rewrite lookup_fmap, Hc'.
    by rewrite !lookup_insert_ne, lookup_insert_eq by done.
  - apply (Hsel x x' "x"); [rewrite Hc|rewrite Hc'|done];
      by rewrite !lookup_insert_ne, lookup_insert_eq by done.
  - apply (Hsel y y' "y"); [rewrite Hc|rewrite Hc'|done];
      by rewrite !lookup_insert_ne, lookup_insert_eq by done.
Qed.

End EndToEnd.

(** * More about the bar loop *)

Section LoopInvariants.
Context {F : Type} `{Num F}.
Variable p : Params F.
Local Open Scope num_scope.

Lemma get_loc_Raise (idx : list Z) (t : Z) (e : exn) :
  get_loc idx t = Raise e -> e = KeyError.
Proof.
  unfold get_loc. destruct (list_find _ idx) as [[i ?]|]; [done|].
  by intros [= <-].
Qed.

(** [int] raises on a NaN and on an infinity only. *)
Lemma py_int_Raise (v : pynum) (e : exn) :
  py_int v = Raise e -> e = ValueError \/ e = OverflowError.
Proof.
  destruct v as [n|x]; simpl; [done|].
  destruct (Prim2SF x); intros Hr; try done; injection Hr as <-; auto.
Qed.

Lemma entry_signal_cases (z : F) :
  entry_signal p z = 0%Z \/ entry_signal p z = 1%Z \/ entry_signal p z = (-1)%Z.
Proof.
  unfold entry_signal. destruct (z_entry p <? z); [auto|].
  destruct (z <? - z_entry p); auto.
Qed.

Lemma entry_phase_well_formed (st mid : State F) (b : Bar F) :
  well_formed st -> entry_phase p st b = Ok mid -> well_formed mid.
Proof.
  intros Hwf Hm.
  apply entry_phase_cases in Hm as [[-> _]|(_ & Hd & Ho & _)]; [done|].
  apply open_position_fields in Ho as (qa & qb & _ & _ & ->).
  right. simpl. split; [|by eexists].
  destruct (entry_signal_cases (bar_z b)) as [?|[?|?]]; [done|auto..].
Qed.

Lemma step_well_formed (idx : list Z) (st st' : State F) (b : Bar F) :
  well_formed st -> step p idx st b = Ok st' -> well_formed st'.
Proof.
  intros Hwf (held & mid & _ & Hm & ->)%step_inv.
  apply (entry_phase_well_formed _ _ _ Hwf) in Hm. cbv zeta.
  destruct (exit_triggered _ _ _ _); [by left|].
  destruct Hm as [(? & ? & ? & ?)|[? ?]]; [by left|by right].
Qed.

(** X1.  The local variables of the loop only ever take two shapes: flat
    ([position = 0], no shares on either leg, [entry_idx] is [None]), or one
    unit long or short ([position] is 1 or -1) with [entry_idx] set.  Every
    bar keeps a state of one of these shapes in one of them, so the test
    [entry_idx is not None] of line 127 never changes the outcome. *)
Theorem run_state_well_formed (idx : list Z) (bars : list (Bar F)) :
  forall st st', well_formed st -> run_bars p idx st bars = Ok st' ->
  well_formed st'.
Proof.
  induction bars as [|b bars IH]; intros st st' Hwf Hr; simpl in Hr.
  - by injection Hr as <-.
  - apply bind_Ok in Hr as (st1 & Hs & Hr).
    eapply IH; [|exact Hr]. by eapply step_well_formed.
Qed.

Lemma quiet_step (idx : list Z) (st : State F) (b : Bar F) :
  position st = 0%Z -> entry_signal p (bar_z b) = 0%Z ->
  step p idx st b = Ok (record_equity st (capital st + mtm st b)).
Proof.
  intros Hpos Hd. unfold step, held_too_long, entry_phase, exit_triggered.
  rewrite Hpos, Hd. cbn [Z.eqb negb mbind res_bind mret res_ret].
  cbn [record_equity position]. rewrite Hpos. reflexivity.
Qed.

Lemma quiet_run_bars (idx : list Z) (bars : list (Bar F)) :
  forall acc,
  Forall (fun b => entry_signal p (bar_z b) = 0%Z) bars ->
  run_bars p idx
    {| capital := initial_capital p; position := 0; entry_idx := None;
       sh_a := of_int 0; sh_b := of_int 0;
       equity_series := acc; trade_count := 0 |} bars
  = Ok {| capital := initial_capital p; position := 0; entry_idx := None;
          sh_a := of_int 0; sh_b := of_int 0;
          equity_series := acc ++ (flat_equity p <$> bars);
          trade_count := 0 |}.
Proof.
  induction bars as [|b bars IH]; intros acc Hall; simpl.
  - by rewrite app_nil_r.
  - apply Forall_cons in Hall as [Hb Hall].
    rewrite quiet_step by done. cbn [mbind res_bind].
    unfold record_equity, mtm. simpl. rewrite (IH _ Hall).
    by rewrite <- app_assoc.
Qed.

(** X2.  A run on which the signal never crosses the entry threshold (no
    bar has [z > z_entry] or [z < -z_entry]) completes whatever the prices
    are, zero prices included: it counts no trade, ends flat with the
    initial capital untouched, and records for each bar the initial capital
    plus the value of two empty legs. *)
Theorem quiet_run (bars : list (Bar F)) :
  Forall (fun b => entry_signal p (bar_z b) = 0%Z) bars ->
  simulate p bars = Ok (quiet_state p bars).
Proof.
  intros Hall. unfold simulate, initial_state, quiet_state.
  by rewrite (quiet_run_bars _ bars [] Hall).
Qed.

(** X3.  The loop divides only when it opens a position: a bar raises
    [ZeroDivisionError] exactly when it starts flat, its signal crosses the
    entry threshold and one of its two prices is zero.  A bar that starts
    in a position, or gives no entry signal, never divides. *)
Theorem zero_division_only_at_entry (idx : list Z) (st : State F) (b : Bar F) :
  step p idx st b = Raise ZeroDivisionError
  <-> position st = 0%Z
      /\ entry_signal p (bar_z b) <> 0%Z
      /\ ((bar_price_a b =? of_int 0) = true
          \/ (bar_price_b b =? of_int 0) = true).
Proof.
  unfold step, held_too_long, entry_phase.
  destruct (position st =? 0)%Z eqn:Hpos; simpl.
  - apply Z.eqb_eq in Hpos.
    destruct (entry_signal p (bar_z b) =? 0)%Z eqn:Hd; simpl.
    + apply Z.eqb_eq in Hd. split.
      * by destruct (exit_triggered _ _ _ _).
      * by intros (_ & Hne & _).
    + apply Z.eqb_neq in Hd. unfold open_position, pydiv.
      destruct (bar_price_a b =? of_int 0) eqn:Ha; simpl;
        [split; [intros _|]; auto|].
      destruct (bar_price_b b =? of_int 0) eqn:Hb; simpl;
        [split; [intros _|]; auto|].
      split.
      * by destruct (exit_triggered _ _ _ _).
      * by intros (_ & _ & [?|?]).
  - apply Z.eqb_neq in Hpos. split; [|by intros [? _]].
    intros Hs. exfalso.
    destruct (max_hold_bars p) as [m|]; simpl in Hs.
    + destruct (entry_idx st) as [e|]; simpl in Hs.
      * destruct (get_loc idx (bar_t b)) as [i|e1] eqn:Hi;
          cbn [mbind res_bind] in Hs;
          [|by rewrite (get_loc_Raise _ _ _ Hi) in Hs].
        destruct (get_loc idx e) as [j|e2] eqn:Hj;
          cbn [mbind res_bind mret res_ret] in Hs;
          [|by rewrite (get_loc_Raise _ _ _ Hj) in Hs].
        destruct (py_int m) as [k|e3] eqn:Hk;
          cbn [mbind res_bind mret res_ret] in Hs;
          [|by destruct (py_int_Raise _ _ Hk) as [-> | ->]].
        by destruct (exit_triggered _ _ _ _).
      * by destruct (exit_triggered _ _ _ _).
    + by destruct (exit_triggered _ _ _ _).
Qed.

End LoopInvariants.

Section MaxHold.
Context {F : Type} `{Num F}.
Variable p : Params F.
Variable limit : pynum.
Variable m : Z.
Hypothesis max_hold_set : max_hold_bars p = Some limit.
Hypothesis limit_converts : py_int limit = Ok m.
Variable idx : list Z.
Hypothesis idx_NoDup : NoDup idx.

Lemma entry_phase_in_position (st : State F) (b : Bar F) :
  position st <> 0%Z -> entry_phase p st b = Ok st.
Proof.
  intros Hpos. unfold entry_phase. apply Z.eqb_neq in Hpos. by rewrite Hpos.
Qed.

(** One more bar, at position [i] of the index. *)
Lemma step_held_within (i : nat) (st st' : State F) (b : Bar F) :
  idx !! i = Some (bar_t b) ->
  held_within idx (Z.max m 1) i st ->
  step p idx st b = Ok st' ->
  held_within idx (Z.max m 1) (S i) st'.
Proof.
  intros Hi Hinv (held & mid & Hh & Hm & ->)%step_inv. cbv zeta.
  destruct (exit_triggered _ _ _ _) eqn:Hx; [by intros ?|].
  intros Hpos'. cbn [record_equity position entry_idx] in Hpos' |- *.
  destruct (decide (position st = 0%Z)) as [Hpos|Hpos].
  - apply entry_phase_cases in Hm as [[-> _]|(_ & _ & Ho & _)]; [done|].
    apply open_position_fields in Ho as (qa & qb & _ & _ & ->).
    exists i, (bar_t b). simpl. repeat split; try done; lia.
  - rewrite (entry_phase_in_position _ _ Hpos) in Hm. injection Hm as <-.
    destruct (Hinv Hpos) as (j & e & Hj & He & Hje & Hage).
    exists j, e. repeat split; try done; [lia|].
    unfold held_too_long in Hh. apply Z.eqb_neq in Hpos as Hpos_b.
    rewrite Hpos_b, max_hold_set, He in Hh. cbn [negb] in Hh.
    rewrite (get_loc_position idx i (bar_t b) idx_NoDup Hi) in Hh.
    rewrite (get_loc_position idx j e idx_NoDup Hje) in Hh.
    rewrite limit_converts in Hh.
    cbn [mbind res_bind mret res_ret] in Hh. injection Hh as <-.
    unfold exit_triggered in Hx. cbn [record_equity position] in Hx.
    rewrite Hpos_b in Hx. cbn [negb andb] in Hx.
    apply orb_false_iff in Hx as [_ Hheld]. apply Z.leb_gt in Hheld. lia.
Qed.

Lemma run_bars_held_within (bars : list (Bar F)) :
  forall i st st',
  (forall n b, bars !! n = Some b -> idx !! (i + n)%nat = Some (bar_t b)) ->
  held_within idx (Z.max m 1) i st ->
  run_bars p idx st bars = Ok st' ->
  held_within idx (Z.max m 1) (i + length bars) st'.
Proof.
  induction bars as [|b bars IH]; intros i st st' Hidx Hinv Hr; simpl in Hr.
  - injection Hr as <-. simpl. by rewrite Nat.add_0_r.
  - apply bind_Ok in Hr as (st1 & Hs & Hr). simpl.
    replace (i + S (length bars))%nat with (S i + length bars)%nat by lia.
    apply (IH (S i) st1); [|by eapply (step_held_within i st); [rewrite <- (Nat.add_0_r i); by apply Hidx|..]|done].
    intros n b' Hn. replace (S i + n)%nat with (i + S n)%nat by lia.
    by apply Hidx.
Qed.

End MaxHold.

Section MaxHoldBound.
Context {F : Type} `{Num F}.
Variable p : Params F.

(** X4.  With [max_hold_bars] set to a number that [int] turns into [m], no
    position outlives the limit: after any number [n] of bars of a run, a
    position that is still open was entered on one of these bars and has
    been held for fewer than [max m 1] bars since (the bar after its entry
    bar is the first one on which the age check can close it, hence the 1).
    The labels of the bars are distinct, as those of a prepared frame
    are. *)
Theorem max_hold_bound (bars : list (Bar F)) (limit : pynum) (m : Z) (n : nat)
    (st : State F) :
  NoDup (bar_t <$> bars) ->
  max_hold_bars p = Some limit ->
  py_int limit = Ok m ->
  (n <= length bars)%nat ->
  run_bars p (bar_t <$> bars) (initial_state p) (take n bars) = Ok st ->
  held_within (bar_t <$> bars) (Z.max m 1) n st.
Proof.
  intros Hnd Hmax Hint Hn Hr.
  pose proof (run_bars_held_within p limit m Hmax Hint (bar_t <$> bars) Hnd
                (take n bars)
                0 (initial_state p) st) as Hw.
  rewrite length_take, Nat.min_l in Hw by done. apply Hw; [|by intros Hne|done].
  intros k b Hk. rewrite lookup_take_Some in Hk. destruct Hk as [Hk _].
  rewrite list_lookup_fmap. simpl. by rewrite Hk.
Qed.

End MaxHoldBound.

(** * More about the bar loop in exact arithmetic *)

Section ExactEntry.
Variable p : Params Q.

(** X5.  In exact arithmetic, the equity recorded on a bar that opens a
    position in direction [d] is the capital before the bar, less the entry
    cost, plus [notional_per_leg * d * (1 - scale)] with [scale = |beta|]
    when beta-neutral and 1 otherwise: the two legs just bought are marked
    at [notional_per_leg * d] and [-notional_per_leg * scale * d].  So the
    entry itself moves the equity by more than its cost unless
    [scale = 1]. *)
Theorem entry_bar_equity (idx : list Z) (st st' : State Q) (b : Bar Q) :
  step p idx st b = Ok st' ->
  opens p st b = true ->
  let d := entry_signal p (bar_z b) in
  let scale := if beta_neutral p then Qabs (bar_beta b) else 1%Q in
  exists e,
    final_equity st' = Some e
    /\ (e == capital st - _trade_cost p
             + notional_per_leg p * inject_Z d * (1 - scale))%Q.
Proof.
  intros (held & mid & Hh & Hm & ->)%step_inv Hopen. cbv zeta.
  apply entry_phase_cases in Hm as [[_ Hno]|(Hpos & Hd & Ho & _)];
    [congruence|].
  apply open_position_fields in Ho as (qa & qb & Ha & Hb & ->).
  apply pydiv_Ok in Ha as [Ha ->]. apply pydiv_Ok in Hb as [Hb ->].
  apply Qeq_bool_false in Ha, Hb.
  eexists. split.
  - unfold final_equity.
    destruct (exit_triggered _ _ _ _); cbn [realize_exit record_equity equity_series];
      apply last_snoc.
  - unfold mtm. cbn -[_trade_cost Qabs].
    change (inject_Z 1) with 1%Q. change (inject_Z 0) with 0%Q in Ha, Hb.
    field. split; assumption.
Qed.

End ExactEntry.

(** * The loop properties at sample inputs *)

Local Open Scope float_scope.

Lemma run_state_well_formed_witness :
  exists st,
    simulate demo_params [demo_bar 0 2; demo_bar 1 1.5] = Ok st
    /\ position st = (-1)%Z
    /\ well_formed st.
Proof.
  eexists. split; [vm_compute; reflexivity|]. split; [reflexivity|].
  apply (run_state_well_formed demo_params [0; 1]%Z
           [demo_bar 0 2; demo_bar 1 1.5] (initial_state demo_params)).
  - left. repeat split; reflexivity.
  - vm_compute. reflexivity.
Defined.

Lemma quiet_run_witness :
  simulate demo_params quiet_bars = Ok (quiet_state demo_params quiet_bars).
Proof.
  apply (quiet_run demo_params quiet_bars).
  repeat constructor.
Defined.

(** On floats, the second of these bars has no prices and the third one
    sits on the threshold: the equity stays at the initial capital. *)
Example quiet_run_float :
  equity_series <$> simulate demo_params quiet_bars
  = Ok [1000000; 1000000; 1000000].
Proof. vm_compute. reflexivity. Qed.

(** An entry on a bar without a price for the first leg. *)
Example zero_price_entry :
  step demo_params [0%Z] (initial_state demo_params)
    {| bar_t := 0; bar_z := 2; bar_beta := 1;
       bar_price_a := 0; bar_price_b := 50 |}
  = Raise ZeroDivisionError.
Proof. vm_compute. reflexivity. Qed.

Lemma max_hold_bound_witness :
  exists st,
    run_bars hold_params [0; 1; 2; 3]%Z (initial_state hold_params)
      (take 2 hold_bars) = Ok st
    /\ position st = (-1)%Z
    /\ held_within [0; 1; 2; 3]%Z 2 2 st.
Proof.
  eexists. split; [vm_compute; reflexivity|]. split; [reflexivity|].
  apply (max_hold_bound hold_params hold_bars (PyInt 2) 2 2).
  - apply (bool_decide_unpack _). vm_compute. exact I.
  - reflexivity.
  - reflexivity.
  - simpl. lia.
  - vm_compute. reflexivity.
Defined.

(** The position of [hold_bars] is open after two bars and closed by the
    age check on the third, whose signal alone would have kept it. *)
Example max_hold_exit :
  (fun st => (position st, trade_count st))
    <$> run_bars hold_params [0; 1; 2; 3]%Z (initial_state hold_params)
          (take 3 hold_bars)
  = Ok (0%Z, 1%nat).
Proof. vm_compute. reflexivity. Qed.

Lemma entry_bar_equity_witness :
  exists st' e,
    step exact_params [0%Z] (initial_state exact_params) (exact_bar 0 2) = Ok st'
    /\ final_equity st' = Some e
    /\ (e == 999980)%Q.
Proof.
  destruct (step exact_params [0%Z] (initial_state exact_params) (exact_bar 0 2))
    as [st'|] eqn:Hs; [|vm_compute in Hs; discriminate].
  destruct (entry_bar_equity exact_params [0%Z] (initial_state exact_params) st'
              (exact_bar 0 2) Hs eq_refl) as (e & He & Heq).
  exists st', e. split; [reflexivity|]. split; [exact He|].
  rewrite Heq. vm_compute. reflexivity.
Defined.

(** * More about the signal engine *)

Local Open Scope nat_scope.

Lemma setitem_bind_last {A : Type} (h : list DataFrame) (d : DataFrame)
    (c : string) (f : DataFrame -> res Series) (k : unit -> M A) :
  (setitem (length h) c f ≫= k) (h ++ [d])
  = match assign c f d with
    | Ok d' => k tt (h ++ [d'])
    | Raise e => (Raise e, h ++ [d])
    end.
Proof.
  rewrite bind_run, setitem_last. by destruct (assign c f d).
Qed.

(** ** Labels and alignment *)

Lemma elem_of_unique (l : list Z) (t : Z) : t ∈ unique l <-> t ∈ l.
Proof.
  unfold unique.
  set (f := fun (acc : list Z) (t : Z) =>
              if bool_decide (t ∈ acc) then acc else acc ++ [t]).
  assert (forall acc, t ∈ foldl f acc l <-> t ∈ acc \/ t ∈ l) as Hfold.
  { induction l as [|u l IH]; intros acc; simpl.
    - rewrite elem_of_nil. tauto.
    - rewrite IH, elem_of_cons. unfold f. case_bool_decide as Hu.
      + split; [tauto|]. intros [?|[->|?]]; auto.
      + rewrite elem_of_app, list_elem_of_singleton. tauto. }
  rewrite Hfold, elem_of_nil. tauto.
Qed.

Lemma elem_of_index_intersection (a b : list Z) (t : Z) :
  t ∈ index_intersection a b <-> t ∈ a /\ t ∈ b.
Proof.
  unfold index_intersection. rewrite elem_of_unique, list_elem_of_filter. tauto.
Qed.

(** A label of an index without duplicates stands at one position. *)
Lemma positions_NoDup (idx : list Z) (t : Z) :
  NoDup idx -> t ∈ idx -> exists i, positions t idx = [i] /\ idx !! i = Some t.
Proof.
  intros Hnd (i & Hi)%list_elem_of_lookup. exists i. split; [|done].
  unfold positions.
  assert (i < length idx) as Hlt by (by apply lookup_lt_Some in Hi).
  rewrite (filter_seq_split _ (length idx) i Hlt Hi).
  assert (forall a n, (forall j, a <= j < a + n -> idx !! j <> Some t) ->
            filter (fun j => idx !! j = Some t) (seq a n) = []) as Hnone.
  { intros a n. revert a. induction n as [|n IH]; intros a Hno; [done|].
    simpl. rewrite filter_cons_False by (apply Hno; lia).
    apply IH. intros j Hj. apply Hno. lia. }
  rewrite !Hnone; [done|..].
  - intros j Hj Hj'. pose proof (proj1 (NoDup_alt idx) Hnd i j t Hi Hj'). lia.
  - intros j Hj Hj'. pose proof (proj1 (NoDup_alt idx) Hnd i j t Hi Hj'). lia.
Qed.

(** [loc] on a frame whose labels are distinct: every requested label that
    the frame has is found once. *)
Lemma loc_col_NoDup (src : DataFrame) (idx : list Z) (c : string) (v : Series) :
  NoDup (index src) -> columns src !! c = Some v ->
  (forall t, t ∈ idx -> t ∈ index src) ->
  exists s, loc_col src idx c = Ok s /\ length s = length idx.
Proof.
  intros Hnd Hc Hin. unfold loc_col, col. rewrite Hc. cbn [mbind res_bind].
  induction idx as [|t idx IH]; [by exists []|].
  destruct IH as (s & Hs & Hlen); [intros u Hu; apply Hin; by right|].
  destruct (positions_NoDup (index src) t Hnd) as (i & Hi & _);
    [apply Hin; by left|].
  exists (iloc v i :: s). split; [|simpl; by rewrite Hlen].
  cbn [mapM]. rewrite Hi. cbn [mbind res_bind]. rewrite Hs. done.
Qed.

Lemma select_app_l {A : Type} (rows : list nat) (l k : list A) :
  Forall (fun i => i < length l) rows -> select rows (l ++ k) = select rows l.
Proof.
  unfold select. induction 1 as [|i rows Hi _ IH]; [done|].
  csimpl. by rewrite IH, lookup_app_l.
Qed.

(** The rows that a filter on positions keeps, in their order. *)
Lemma select_filter_sublist {A : Type} (P : nat -> Prop)
    `{forall i, Decision (P i)} (l : list A) :
  select (filter P (seq 0 (length l))) l `sublist_of` l.
Proof.
  induction l as [|x l IH] using rev_ind; [done|].
  rewrite length_app. simpl. rewrite Nat.add_1_r, seq_S, filter_app. simpl.
  unfold select at 1. rewrite omap_app. apply sublist_app.
  - fold (select (filter P (seq 0 (length l))) (l ++ [x])).
    rewrite select_app_l; [done|].
    apply Forall_lookup. intros k i Hk. apply filter_seq_lookup in Hk. lia.
  - rewrite filter_cons, filter_nil. destruct (decide (P (length l))).
    + csimpl. by rewrite lookup_app_r, Nat.sub_diag.
    + apply sublist_nil_l.
Qed.

Lemma dropna_index_sublist (d : DataFrame) :
  index (dropna d) `sublist_of` index d.
Proof. apply select_filter_sublist. Qed.

Lemma unique_sublist (l : list Z) : unique l `sublist_of` l.
Proof.
  unfold unique.
  set (f := fun (acc : list Z) (t : Z) =>
              if bool_decide (t ∈ acc) then acc else acc ++ [t]).
  assert (forall acc, foldl f acc l `sublist_of` acc ++ l) as Hfold;
    [|apply (Hfold [])].
  induction l as [|t l IH]; intros acc; simpl; [by rewrite app_nil_r|].
  etrans; [apply IH|]. unfold f. case_bool_decide.
  - apply sublist_app; [done|]. by apply sublist_cons.
  - by rewrite <- app_assoc.
Qed.

Section Pipeline.
Variable ln : float -> float.
Variable polyfit : Series -> Series -> res (float * float).
Variable rmean rstd : nat -> Series -> float.

(** What [prepare_data] returns or raises is what the two frames it builds
    return or raise. *)
Lemma prepare_data_fst (self : Backtester) (h : list DataFrame)
    (fa fb : DataFrame) :
  h !! df_a self = Some fa -> h !! df_b self = Some fb ->
  (prepare_data ln polyfit rmean rstd self h).1
  = (d0 ← aligned_frame ln (params self) fa fb;
     d2 ← signal_frame polyfit rmean rstd (params self) (dropna d0);
     mret (length h + 2)).
Proof.
  intros Ha Hb. unfold prepare_data, aligned_frame, signal_frame.
  rewrite bind_run, (load_run _ _ fa Ha).
  rewrite bind_run, (load_run _ _ fb Hb).
  cbv zeta. rewrite bind_run. unfold alloc at 1.
  set (idx := index_intersection (index fa) (index fb)).
  rewrite setitem_bind_last.
  destruct (assign "price_a" _ (new_frame idx)) as [d1|]; [|done].
  cbn [mbind res_bind].
  rewrite setitem_bind_last.
  destruct (assign "price_b" _ d1) as [d1b|]; [|done].
  cbn [mbind res_bind]. rewrite bind_run.
  assert (exists r,
    (if use_log_price_spread (params self)
     then d ← assign "x" (log_col ln "price_b") d1b;
          assign "y" (log_col ln "price_a") d
     else d ← assign "y" (log_return_col ln "price_a") d1b;
          assign "x" (log_return_col ln "price_b") d) = r
    /\ ((if use_log_price_spread (params self)
         then setitem (length h) "x" (log_col ln "price_b");;
              setitem (length h) "y" (log_col ln "price_a")
         else setitem (length h) "y" (log_return_col ln "price_a");;
              setitem (length h) "x" (log_return_col ln "price_b"))
          (h ++ [d1b])).1 = (fun _ => tt) <$> r
    /\ forall d0, r = Ok d0 ->
       ((if use_log_price_spread (params self)
         then setitem (length h) "x" (log_col ln "price_b");;
              setitem (length h) "y" (log_col ln "price_a")
         else setitem (length h) "y" (log_return_col ln "price_a");;
              setitem (length h) "x" (log_return_col ln "price_b"))
          (h ++ [d1b])).2 = h ++ [d0]) as (r & -> & Hr1 & Hr2).
  { eexists. split; [reflexivity|].
    destruct (use_log_price_spread (params self));
      rewrite setitem_bind_last;
      (destruct (assign _ _ d1b) as [d1c|]; [|done]);
      rewrite setitem_last; cbn [mbind res_bind];
      (destruct (assign _ _ d1c) as [d0|]; [|done]);
      (split; [done|]); by intros ? [= <-]. }
  destruct ((if use_log_price_spread (params self)
             then setitem (length h) "x" (log_col ln "price_b");;
                  setitem (length h) "y" (log_col ln "price_a")
             else setitem (length h) "y" (log_return_col ln "price_a");;
                  setitem (length h) "x" (log_return_col ln "price_b"))
              (h ++ [d1b])) as [r1 h1].
  simpl in Hr1, Hr2. subst r1.
  destruct r as [d0|]; [|done]. cbn [fmap res_fmap mbind res_bind].
  rewrite (Hr2 d0 eq_refl). clear Hr2.
  rewrite bind_run, dropna_new_last.
  rewrite bind_run, (load_run _ _ (dropna d0)) by apply lookup_last_alloc.
  rewrite bind_run. unfold lift at 1.
  destruct (rolling_hedge polyfit _ (dropna d0)) as [[betas alphas]|]; [|done].
  cbn [mbind res_bind].
  rewrite setitem_bind_last.
  destruct (assign "beta" _ (dropna d0)) as [d2a|]; [|done].
  cbn [mbind res_bind]. rewrite setitem_bind_last.
  destruct (assign "alpha" _ d2a) as [d2b|]; [|done].
  cbn [mbind res_bind]. rewrite setitem_bind_last.
  destruct (assign "spread" _ d2b) as [d2c|]; [|done].
  cbn [mbind res_bind]. rewrite setitem_bind_last.
  destruct (assign "spread_mean" _ d2c) as [d2d|]; [|done].
  cbn [mbind res_bind]. rewrite setitem_bind_last.
  destruct (assign "spread_std" _ d2d) as [d2e|]; [|done].
  cbn [mbind res_bind]. rewrite setitem_bind_last.
  destruct (assign "z" _ d2e) as [d2|]; [|done].
  cbn [mbind res_bind]. rewrite dropna_new_last. simpl.
  rewrite !length_app. simpl. f_equal. lia.
Qed.

Lemma prepare_data_complete (self : Backtester) (h : list DataFrame)
    (fa fb d0 d2 : DataFrame) :
  h !! df_a self = Some fa -> h !! df_b self = Some fb ->
  aligned_frame ln (params self) fa fb = Ok d0 ->
  signal_frame polyfit rmean rstd (params self) (dropna d0) = Ok d2 ->
  prepare_data ln polyfit rmean rstd self h
  = (Ok (length h + 2), h ++ [d0; d2; dropna d2]).
Proof.
  intros Ha Hb H0 H2.
  pose proof (prepare_data_fst self h fa fb Ha Hb) as Hf.
  rewrite H0 in Hf. cbn [mbind res_bind] in Hf. rewrite H2 in Hf.
  cbn [mbind res_bind mret res_ret] in Hf.
  destruct (prepare_data ln polyfit rmean rstd self h) as [r h'] eqn:Hp.
  simpl in Hf. subst r.
  destruct (prepare_data_Ok ln polyfit rmean rstd self h h' _ fa fb Ha Hb Hp)
    as (d0' & d2' & H0' & H2' & _ & ->).
  rewrite H0 in H0'. injection H0' as <-.
  rewrite H2 in H2'. by injection H2' as <-.
Qed.

Lemma prepare_data_raises (self : Backtester) (h : list DataFrame)
    (fa fb : DataFrame) (e : exn) :
  h !! df_a self = Some fa -> h !! df_b self = Some fb ->
  (d0 ← aligned_frame ln (params self) fa fb;
   signal_frame polyfit rmean rstd (params self) (dropna d0)) = Raise e ->
  exists h', prepare_data ln polyfit rmean rstd self h = (Raise e, h').
Proof.
  intros Ha Hb He.
  pose proof (prepare_data_fst self h fa fb Ha Hb) as Hf.
  destruct (prepare_data ln polyfit rmean rstd self h) as [r h'] eqn:Hp.
  exists h'. f_equal. simpl in Hf. rewrite Hf.
  destruct (aligned_frame _ _ _ _) as [d0|]; cbn [mbind res_bind] in *;
    [|by injection He as <-].
  rewrite He. done.
Qed.

Lemma run_shape (self : Backtester) (h : list DataFrame) (fa fb : DataFrame) :
  h !! df_a self = Some fa -> h !! df_b self = Some fb ->
  exists h',
    run ln polyfit rmean rstd self h
    = ((fun x => (length h + 3, x.2))
         <$> backtest ln polyfit rmean rstd (params self) fa fb, h')
    /\ forall x, backtest ln polyfit rmean rstd (params self) fa fb = Ok x ->
                 h' !! (length h + 3) = Some x.1.
Proof.
  intros Ha Hb. unfold run, backtest. rewrite bind_run.
  destruct (aligned_frame ln (params self) fa fb) as [d0|e] eqn:H0;
    cbn [mbind res_bind].
  2:{ destruct (prepare_data_raises self h fa fb e Ha Hb) as [h1 ->];
        [by rewrite H0|by exists h1]. }
  destruct (signal_frame polyfit rmean rstd (params self) (dropna d0)) as [d2|e]
      eqn:H2;
    cbn [mbind res_bind].
  2:{ destruct (prepare_data_raises self h fa fb e Ha Hb) as [h1 ->];
        [by rewrite H0|by exists h1]. }
  rewrite (prepare_data_complete self h fa fb d0 d2 Ha Hb H0 H2).
  rewrite bind_run, (load_run _ _ (dropna d2)).
  2:{ rewrite lookup_app_r by lia.
      by replace (length h + 2 - length h) with 2 by lia. }
  rewrite bind_run. unfold lift at 1.
  destruct (iterrows (dropna d2)) as [bars|]; cbn [mbind res_bind];
    [|by eexists].
  rewrite bind_run. unfold lift at 1.
  destruct (simulate (params self) bars) as [st|]; cbn [mbind res_bind];
    [|by eexists].
  rewrite bind_run. unfold alloc at 1.
  rewrite bind_run, setitem_last.
  unfold assign, col. simpl. rewrite lookup_insert_eq. simpl.
  eexists. split.
  - unfold mret, M_ret. rewrite length_app. simpl. reflexivity.
  - intros x [= <-]. simpl.
    rewrite lookup_app_r by (rewrite length_app; simpl; lia).
    rewrite length_app. simpl.
    by replace (length h + 3 - (length h + 3)) with 0 by lia.
Qed.

(** [run] against the store computes [backtest] of the two frames that the
    object refers to, and returns a reference to a new object that holds
    the results. *)
Lemma run_backtest (self : Backtester) (h : list DataFrame)
    (fa fb : DataFrame) :
  h !! df_a self = Some fa -> h !! df_b self = Some fb ->
  (run ln polyfit rmean rstd self h).1
  = (fun x => (length h + 3, x.2)) <$> backtest ln polyfit rmean rstd
      (params self) fa fb
  /\ returned fst (run ln polyfit rmean rstd self h)
     = match backtest ln polyfit rmean rstd (params self) fa fb with
       | Ok x => Some x.1
       | Raise _ => None
       end.
Proof.
  intros Ha Hb. destruct (run_shape self h fa fb Ha Hb) as (h' & -> & Hres).
  unfold returned. simpl. split; [done|].
  destruct (backtest ln polyfit rmean rstd (params self) fa fb) as [x|];
      [|done].
  simpl. by apply Hres.
Qed.

(** X8.  [run] can be called again: a second call on the store that the
    first one left returns the same trade count and a new results frame
    equal to the first.  Nothing that [run] or [prepare_data] writes is
    read back by a later call. *)
Theorem run_repeatable (self : Backtester) (h h1 : list DataFrame)
    (fa fb : DataFrame) (r n : nat) :
  h !! df_a self = Some fa -> h !! df_b self = Some fb ->
  run ln polyfit rmean rstd self h = (Ok (r, n), h1) ->
  exists r' h2,
    run ln polyfit rmean rstd self h1 = (Ok (r', n), h2)
    /\ r' <> r
    /\ is_Some (h1 !! r)
    /\ h2 !! r' = h1 !! r
    /\ h2 !! r = h1 !! r.
Proof.
  intros Ha Hb Hr.
  destruct (run_shape self h fa fb Ha Hb) as (h' & Hr' & Hres).
  rewrite Hr in Hr'. injection Hr' as Hx <-.
  destruct (backtest ln polyfit rmean rstd (params self) fa fb) as [[res n']|]
      eqn:Hbt;
    [|done].
  simpl in Hx. injection Hx as -> ->.
  specialize (Hres _ eq_refl). simpl in Hres.
  destruct (preserves_run ln polyfit rmean rstd (length h) self h (le_n _))
    as (Htake & Hlen & _).
  rewrite Hr in Htake, Hlen. simpl in Htake, Hlen. rewrite firstn_all in Htake.
  assert (forall l d, h !! l = Some d -> h1 !! l = Some d) as Hkeep.
  { intros l d Hl. rewrite <- Htake in Hl.
    rewrite lookup_take_lt in Hl; [done|].
    apply lookup_lt_Some in Hl. rewrite length_take in Hl. lia. }
  destruct (run_shape self h1 fa fb (Hkeep _ _ Ha) (Hkeep _ _ Hb))
    as (h2 & Hr2 & Hres2).
  rewrite Hbt in Hr2. simpl in Hr2. specialize (Hres2 _ Hbt). simpl in Hres2.
  exists (length h1 + 3), h2. split; [done|].
  assert (length h + 3 < length h1) as Hlt by (by apply lookup_lt_Some in Hres).
  split; [lia|]. split; [by eexists|]. split; [by rewrite Hres, Hres2|].
  destruct (preserves_run ln polyfit rmean rstd (length h1) self h1 (le_n _))
    as (Htake2 & _ & _).
  rewrite Hr2 in Htake2. simpl in Htake2. rewrite firstn_all in Htake2.
  transitivity (take (length h1) h2 !! (length h + 3)).
  - by rewrite lookup_take_lt.
  - by rewrite Htake2.
Qed.

(** X9.  The constructor takes a snapshot: once the object is built,
    whatever the caller stores into any of the objects it had before
    (the two frames it passed included) changes neither what [run] returns
    or raises nor the results frame. *)
Theorem constructor_snapshot (a b c : nat) (p : Params float)
    (h h1 : list DataFrame) (self : Backtester) (d : DataFrame) :
  __init__ a b p h = (Ok self, h1) ->
  c < length h ->
  (run ln polyfit rmean rstd self (<[c := d]> h1)).1 =
      (run ln polyfit rmean rstd self h1).1
  /\ returned fst (run ln polyfit rmean rstd self (<[c := d]> h1))
     = returned fst (run ln polyfit rmean rstd self h1).
Proof.
  unfold __init__. intros Hi Hc.
  rewrite bind_run in Hi. unfold load at 1 in Hi.
  destruct (h !! a) as [fa|] eqn:Ha; [|done].
  rewrite bind_run in Hi. unfold alloc at 1 in Hi.
  rewrite bind_run in Hi. unfold load at 1 in Hi.
  destruct ((h ++ [fa]) !! b) as [fb|] eqn:Hb; [|done].
  rewrite bind_run in Hi. unfold alloc at 1 in Hi.
  injection Hi as <- <-.
  assert (((h ++ [fa]) ++ [fb]) !! length h = Some fa) as Hfa.
  { rewrite lookup_app_l by (rewrite length_app; simpl; lia).
    apply lookup_last_alloc. }
  assert (((h ++ [fa]) ++ [fb]) !! length (h ++ [fa]) = Some fb) as Hfb
    by apply lookup_last_alloc.
  destruct (run_backtest {| df_a := length h; df_b := length (h ++ [fa]);
                            params := p |}
              ((h ++ [fa]) ++ [fb]) fa fb Hfa Hfb) as [-> ->].
  destruct (run_backtest {| df_a := length h; df_b := length (h ++ [fa]);
                            params := p |}
              (<[c := d]> ((h ++ [fa]) ++ [fb])) fa fb) as [-> ->].
  - simpl. rewrite list_lookup_insert_ne by lia. exact Hfa.
  - simpl. rewrite list_lookup_insert_ne by (rewrite length_app; simpl; lia).
    exact Hfb.
  - by rewrite length_insert.
Qed.

(** X10.  A frame without a [close] column: when the first frame has none,
    [prepare_data] and [run] raise [KeyError]; so they do when the first
    frame has one and distinct labels and the second frame has none. *)
Theorem missing_close_raises_KeyError (self : Backtester) (h : list DataFrame)
    (fa fb : DataFrame) :
  h !! df_a self = Some fa -> h !! df_b self = Some fb ->
  columns fa !! "close" = None
  \/ (NoDup (index fa) /\ is_Some (columns fa !! "close")
      /\ columns fb !! "close" = None) ->
  (prepare_data ln polyfit rmean rstd self h).1 = Raise KeyError
  /\ (run ln polyfit rmean rstd self h).1 = Raise KeyError.
Proof.
  intros Ha Hb Hclose.
  assert (aligned_frame ln (params self) fa fb = Raise KeyError) as H0.
  { unfold aligned_frame, assign, loc_col, col. cbv zeta.
    destruct Hclose as [->|(Hnd & [va Hva] & Hvb)]; [done|].
    rewrite Hva, Hvb. cbn [mbind res_bind].
    destruct (loc_col_NoDup fa (index_intersection (index fa) (index fb))
                "close" va Hnd Hva) as (s & Hs & _).
    { intros t Ht. by apply elem_of_index_intersection in Ht as [? _]. }
    unfold loc_col, col in Hs. rewrite Hva in Hs. cbn [mbind res_bind] in Hs.
    rewrite Hs. done. }
  split.
  - rewrite (prepare_data_fst self h fa fb Ha Hb), H0. done.
  - destruct (run_backtest self h fa fb Ha Hb) as [-> _].
    unfold backtest. by rewrite H0.
Qed.

Lemma hedge_loop_cases (hw : nat) (d : DataFrame) (xs ys : Series)
    (range : list nat) :
  columns d !! "x" = Some xs -> columns d !! "y" = Some ys ->
  (exists r, hedge_loop polyfit hw d range = Ok r)
  \/ (exists e x y, hedge_loop polyfit hw d range = Raise e
                    /\ polyfit x y = Raise e).
Proof.
  intros Hx Hy. induction range as [|i range IH]; simpl; [left; by eexists|].
  unfold hedge_at, col. rewrite Hx, Hy. cbn [mbind res_bind].
  destruct (i <? hw).
  - cbn [mbind res_bind].
    destruct IH as [[[betas alphas] ->]|(e & x & y & -> & He)].
    + left. by eexists.
    + right. by exists e, x, y.
  - destruct (polyfit _ _) as [[beta alpha]|e] eqn:Hfit; cbn [mbind res_bind].
    + destruct IH as [[[betas alphas] ->]|(e & x & y & -> & He)].
      * left. by eexists.
      * right. by exists e, x, y.
    + right. by eexists e, _, _.
Qed.

Lemma signal_frame_cases (p : Params float) (d : DataFrame) (xs ys : Series) :
  columns d !! "x" = Some xs -> columns d !! "y" = Some ys ->
  (exists d2, signal_frame polyfit rmean rstd p d = Ok d2)
  \/ (exists e x y, signal_frame polyfit rmean rstd p d = Raise e
                    /\ polyfit x y = Raise e)
  \/ (rolling_window (spread_window p) = Raise ValueError
      /\ signal_frame polyfit rmean rstd p d = Raise ValueError).
Proof.
  intros Hx Hy. unfold signal_frame, rolling_hedge.
  destruct (hedge_loop_cases (hedge_window p) d xs ys
              (seq 0 (length (index d))) Hx Hy)
    as [[[betas alphas] ->]|(e & x & y & -> & He)];
    [|right; left; by exists e, x, y].
  cbn [mbind res_bind].
  unfold assign, spread_col, rolling_col, rolling_window, z_col, col. simpl.
  repeat (first [rewrite lookup_insert_eq
                | rewrite lookup_insert_ne by done]; simpl).
  rewrite Hy, Hx. simpl.
  destruct (match spread_window p with
            | PyInt n => if (n <? 0)%Z then Raise ValueError
                         else Ok (Z.to_nat n)
            | PyFloat _ => Raise ValueError
            end) as [sw|e] eqn:Hw.
  2:{ right. right.
      assert (e = ValueError) as ->.
      { destruct (spread_window p) as [n|x]; [|by injection Hw].
        destruct (n <? 0)%Z; [by injection Hw|done]. }
      split; [done|].
      destruct (use_log_price_spread p); simpl;
        repeat (first [rewrite lookup_insert_eq
                      | rewrite lookup_insert_ne by done]; simpl);
        rewrite ?Hw; reflexivity. }
  - left.
    destruct (use_log_price_spread p); simpl;
      repeat (first [rewrite lookup_insert_eq
                    | rewrite lookup_insert_ne by done]; simpl);
      rewrite ?Hw; simpl;
      repeat (first [rewrite lookup_insert_eq
                    | rewrite lookup_insert_ne by done]; simpl);
      rewrite ?Hw; simpl;
      repeat (first [rewrite lookup_insert_eq
                    | rewrite lookup_insert_ne by done]; simpl);
      by eexists.
Qed.

(** With a [close] column and distinct labels in both frames, the
    alignment of lines 47-62 raises nothing. *)
Lemma aligned_frame_total (p : Params float) (fa fb : DataFrame) :
  NoDup (index fa) -> NoDup (index fb) ->
  is_Some (columns fa !! "close") -> is_Some (columns fb !! "close") ->
  exists d0, aligned_frame ln p fa fb = Ok d0.
Proof.
  intros Hna Hnb [va Hva] [vb Hvb]. unfold aligned_frame. cbv zeta.
  set (idx := index_intersection (index fa) (index fb)).
  destruct (loc_col_NoDup fa idx "close" va Hna Hva) as (pa & Hpa & _).
  { intros t Ht. by apply elem_of_index_intersection in Ht as [? _]. }
  destruct (loc_col_NoDup fb idx "close" vb Hnb Hvb) as (pb & Hpb & _).
  { intros t Ht. by apply elem_of_index_intersection in Ht as [_ ?]. }
  unfold assign. rewrite Hpa, Hpb. cbn [mbind res_bind mret res_ret].
  unfold log_col, log_return_col, col. simpl.
  destruct (use_log_price_spread p); simpl;
    repeat (first [rewrite lookup_insert_eq
                  | rewrite lookup_insert_ne by done]; simpl);
    by eexists.
Qed.

(** X11.  With a [close] column and distinct labels in both frames, and
    with a [hedge_window] that is a Python int, one of three:
    [prepare_data] returns, and [spread_window] is an int that is not
    negative; or it raises what [np.polyfit] raised on one of the
    regression windows; or every regression returned, [spread_window] is a
    negative int or a float, and it raises the [ValueError] of [rolling].
    Nothing else in it can fail. *)
Theorem prepare_data_returns_or_raises (self : Backtester)
    (h : list DataFrame) (fa fb : DataFrame) :
  h !! df_a self = Some fa -> h !! df_b self = Some fb ->
  NoDup (index fa) -> NoDup (index fb) ->
  is_Some (columns fa !! "close") -> is_Some (columns fb !! "close") ->
  (exists l h' out,
      prepare_data ln polyfit rmean rstd self h = (Ok l, h')
      /\ h' !! l = Some out
      /\ exists n, spread_window (params self) = PyInt n /\ (0 <= n)%Z)
  \/ (exists e h' x y,
        prepare_data ln polyfit rmean rstd self h = (Raise e, h')
        /\ polyfit x y = Raise e)
  \/ (exists h',
        prepare_data ln polyfit rmean rstd self h = (Raise ValueError, h')
        /\ match spread_window (params self) with
           | PyInt n => (n < 0)%Z
           | PyFloat _ => True
           end).
Proof.
  intros Ha Hb Hna Hnb Hca Hcb.
  destruct (aligned_frame_total (params self) fa fb Hna Hnb Hca Hcb)
    as [d0 H0].
  destruct (aligned_frame_Ok ln (params self) fa fb d0 H0)
    as (pa & pb & x & y & Hcols & _ & _).
  destruct (signal_frame_cases (params self) (dropna d0)
              (select (kept_rows d0) x) (select (kept_rows d0) y))
    as [[d2 H2]|[(e & wx & wy & H2 & He)|[Hneg H2]]].
  - simpl. rewrite lookup_fmap, Hcols.
    by rewrite !lookup_insert_ne, lookup_insert_eq by done.
  - simpl. rewrite lookup_fmap, Hcols.
    by rewrite !lookup_insert_ne, lookup_insert_eq by done.
  - left. rewrite (prepare_data_complete self h fa fb d0 d2 Ha Hb H0 H2).
    eexists _, _, (dropna d2). split; [done|]. split.
    + rewrite lookup_app_r by lia.
      by replace (length h + 2 - length h) with 2 by lia.
    + pose proof (signal_frame_window polyfit rmean rstd _ _ _ H2) as Hw.
      unfold rolling_window in Hw.
      destruct (spread_window (params self)) as [n|w]; [|done].
      exists n. split; [done|].
      destruct (n <? 0)%Z eqn:Hn; [done|]. by apply Z.ltb_ge in Hn.
  - right. left.
    destruct (prepare_data_raises self h fa fb e Ha Hb) as [h' ->].
    + by rewrite H0.
    + by exists e, h', wx, wy.
  - right. right.
    destruct (prepare_data_raises self h fa fb ValueError Ha Hb) as [h' ->].
    + by rewrite H0.
    + exists h'. split; [done|]. unfold rolling_window in Hneg.
      destruct (spread_window (params self)) as [n|w]; [|done].
      destruct (n <? 0)%Z eqn:Hn; [|done]. by apply Z.ltb_lt in Hn.
Qed.

(** X12.  Too little history: when the two frames share fewer than
    [hedge_window + spread_window] labels and [run] returns, no row survives
    the warm-up, the loop body is never entered, the trade count is 0 and
    the results frame has no row. *)
Theorem short_history_no_trades (self : Backtester) (h h' : list DataFrame)
    (r n : nat) (fa fb : DataFrame) :
  h !! df_a self = Some fa -> h !! df_b self = Some fb ->
  run ln polyfit rmean rstd self h = (Ok (r, n), h') ->
  length (index_intersection (index fa) (index fb))
    < hedge_window (params self) + window_size (spread_window (params self)) ->
  n = 0 /\ h' !! r = Some (results_frame [] []).
Proof.
  intros Ha Hb Hr Hshort.
  destruct (run_Ok ln polyfit rmean rstd self h h' r n fa fb Ha Hb Hr)
    as (d0 & d2 & bars & st & H0 & H2 & Hbars & Hsim & -> & Hres).
  assert (index (dropna d2) = []) as Hnil.
  { destruct (index (dropna d2)) as [|t idx] eqn:Hidx; [done|]. exfalso.
    destruct (survivor_position ln polyfit rmean rstd (params self) fa fb d0 d2
                t H0 H2)
      as (i & Hi & Hlook); [rewrite Hidx; by left|].
    apply lookup_lt_Some in Hlook. lia. }
  rewrite Hnil in Hres. unfold iterrows in Hbars. rewrite Hnil in Hbars.
  injection Hbars as <-. injection Hsim as <-. done.
Qed.

(** X13.  The frame that [prepare_data] returns has the ten columns
    [price_a], [price_b], [x], [y], [beta], [alpha], [spread],
    [spread_mean], [spread_std] and [z] and no other; each of them is as
    long as the index and holds no NaN.  So [run] finds the four fields it
    reads on every row, and none of them is NaN. *)
Theorem prepared_frame_complete (self : Backtester) (h h' : list DataFrame)
    (l : nat) (fa fb out : DataFrame) :
  h !! df_a self = Some fa -> h !! df_b self = Some fb ->
  prepare_data ln polyfit rmean rstd self h = (Ok l, h') ->
  h' !! l = Some out ->
  (forall c, is_Some (columns out !! c) <-> c ∈ prepared_columns)
  /\ (forall c v, columns out !! c = Some v ->
        length v = length (index out)
        /\ Forall (fun x => is_nan x = false) v).
Proof.
  intros Ha Hb Hp Hl.
  destruct (prepare_data_result ln polyfit rmean rstd self h h' l fa fb Ha Hb
              Hp)
    as (d0 & d2 & H0 & H2 & Hl' & Hidx).
  rewrite Hl' in Hl. injection Hl as <-.
  destruct (aligned_frame_Ok ln (params self) fa fb d0 H0)
    as (pa & pb & x & y & Hc0 & _ & _).
  destruct (signal_frame_Ok polyfit rmean rstd (params self) _ _ H2)
    as (betas & alphas & spread & _ & _ & _ & Hc2).
  split.
  - intros c. cbn [dropna columns]. rewrite lookup_fmap, fmap_is_Some, Hc2.
    cbn [dropna columns]. unfold prepared_columns.
    rewrite !elem_of_cons, elem_of_nil.
    repeat (rewrite lookup_insert_is_Some').
    rewrite lookup_fmap, fmap_is_Some, Hc0.
    repeat (rewrite lookup_insert_is_Some').
    rewrite lookup_empty, is_Some_alt. intuition congruence.
  - intros c v Hc. split; [by apply (dropna_col_length d2 c)|].
    apply Forall_lookup. intros k z Hk.
    assert (k < length (index (dropna d2))) as Hlt.
    { rewrite <- (dropna_col_length d2 c v Hc). by apply lookup_lt_Some in Hk. }
    pose proof (dropna_col_notna d2 c v k Hc Hlt) as Hn.
    rewrite (iloc_lookup _ _ _ Hk) in Hn. unfold notna in Hn.
    by apply negb_true_iff in Hn.
Qed.

(** X14.  The labels of the frame that [prepare_data] returns are
    distinct, each of them is a label of both frames, and they stand in the
    order in which the aligned frame of line 48 has them: the two [dropna]
    only remove rows. *)
Theorem prepared_index_labels (self : Backtester) (h h' : list DataFrame)
    (l : nat) (fa fb out : DataFrame) :
  h !! df_a self = Some fa -> h !! df_b self = Some fb ->
  prepare_data ln polyfit rmean rstd self h = (Ok l, h') ->
  h' !! l = Some out ->
  NoDup (index out)
  /\ (forall t, t ∈ index out -> t ∈ index fa /\ t ∈ index fb)
  /\ exists d0, aligned_frame ln (params self) fa fb = Ok d0
                /\ index out `sublist_of` index d0.
Proof.
  intros Ha Hb Hp Hl.
  pose proof (prepared_index_NoDup ln polyfit rmean rstd self h h' l fa fb out
                Ha Hb Hp Hl) as Hnd.
  destruct (prepare_data_result ln polyfit rmean rstd self h h' l fa fb
              Ha Hb Hp) as (d0 & d2 & H0 & H2 & Hl' & Hidx).
  rewrite Hl' in Hl. injection Hl as <-.
  assert (index (dropna d2) `sublist_of` index d0) as Hsub.
  { etrans; [apply dropna_index_sublist|]. rewrite Hidx.
    apply dropna_index_sublist. }
  split; [done|]. split.
  - intros t Ht. apply (elem_of_sublist _ _ _ Ht) in Hsub.
    rewrite (aligned_frame_index _ _ _ _ _ H0) in Hsub.
    by apply elem_of_index_intersection in Hsub.
  - by exists d0.
Qed.

End Pipeline.

(** * The engine properties at sample inputs *)

Lemma run_repeatable_witness :
  exists r n h1 r' h2,
    run ln_float ols_fit window_mean window_std five_self
        (five_store ++ [five_a; five_b])
    = (Ok (r, n), h1)
    /\ run ln_float ols_fit window_mean window_std five_self h1 =
        (Ok (r', n), h2)
    /\ h2 !! r' = h1 !! r.
Proof.
  destruct (run ln_float ols_fit window_mean window_std five_self
              (five_store ++ [five_a; five_b]))
    as [[[r n]|e] h1] eqn:Hr; [|vm_compute in Hr; discriminate].
  destruct (run_repeatable ln_float ols_fit window_mean window_std five_self
              (five_store ++ [five_a; five_b]) h1 five_a five_b r n
              eq_refl eq_refl Hr) as (r' & h2 & Hr2 & _ & _ & Heq & _).
  exists r, n, h1, r', h2.
  split; [reflexivity|]. split; [exact Hr2|exact Heq].
Defined.

Lemma constructor_snapshot_witness :
  (run ln_float ols_fit window_mean window_std five_self
     (<[0 := five_b]> (five_store ++ [five_a; five_b]))).1
  = (run ln_float ols_fit window_mean window_std five_self
       (five_store ++ [five_a; five_b])).1.
Proof.
  refine (proj1
            (constructor_snapshot ln_float ols_fit window_mean window_std 0 1 0
               warm_params
                   five_store (five_store ++ [five_a; five_b]) five_self five_b
                   eq_refl _)).
  simpl. lia.
Defined.

Lemma missing_close_raises_KeyError_witness :
  (prepare_data ln_float ols_fit window_mean window_std bare_self bare_store).1
      = Raise KeyError
  /\ (run ln_float ols_fit window_mean window_std bare_self bare_store).1 =
      Raise KeyError.
Proof.
  apply (missing_close_raises_KeyError ln_float ols_fit window_mean window_std
           bare_self bare_store
           (new_frame [0; 1; 2]%Z) five_b eq_refl eq_refl).
  left. reflexivity.
Defined.

Lemma prepare_data_returns_or_raises_witness :
  (exists l h' out,
      prepare_data ln_float ols_fit window_mean window_std five_self
        (five_store ++ [five_a; five_b]) = (Ok l, h')
      /\ h' !! l = Some out
      /\ exists n, spread_window (params five_self) = PyInt n /\ (0 <= n)%Z)
  \/ (exists e h' x y,
        prepare_data ln_float ols_fit window_mean window_std five_self
          (five_store ++ [five_a; five_b]) = (Raise e, h')
        /\ ols_fit x y = Raise e)
  \/ (exists h',
        prepare_data ln_float ols_fit window_mean window_std five_self
          (five_store ++ [five_a; five_b]) = (Raise ValueError, h')
        /\ match spread_window (params five_self) with
           | PyInt n => (n < 0)%Z
           | PyFloat _ => True
           end).
Proof.
  apply (prepare_data_returns_or_raises ln_float ols_fit window_mean
           window_std five_self (five_store ++ [five_a; five_b])
           five_a five_b eq_refl eq_refl).
  - apply (bool_decide_unpack _). vm_compute. exact I.
  - apply (bool_decide_unpack _). vm_compute. exact I.
  - eexists. vm_compute. reflexivity.
  - eexists. vm_compute. reflexivity.
Defined.

(** A negative [spread_window] on the sample, and one that is a float: the
    regressions return and [rolling] raises. *)
Example negative_window_raises :
  (prepare_data ln_float ols_fit window_mean window_std negative_window_self
     (five_store ++ [five_a; five_b])).1 = Raise ValueError
  /\ (prepare_data ln_float ols_fit window_mean window_std float_window_self
        (five_store ++ [five_a; five_b])).1 = Raise ValueError.
Proof. split; vm_compute; reflexivity. Qed.

Lemma short_history_no_trades_witness :
  exists r h',
    run ln_float ols_fit window_mean window_std wide_self
        (five_store ++ [five_a; five_b])
    = (Ok (r, 0), h')
    /\ h' !! r = Some (results_frame [] []).
Proof.
  destruct (run ln_float ols_fit window_mean window_std wide_self
              (five_store ++ [five_a; five_b]))
    as [[[r n]|e] h'] eqn:Hr; [|vm_compute in Hr; discriminate].
  destruct (short_history_no_trades ln_float ols_fit window_mean window_std
              wide_self
              (five_store ++ [five_a; five_b]) h' r n
              five_a five_b eq_refl eq_refl Hr) as [-> Hres].
  - vm_compute. lia.
  - exists r, h'. split; [reflexivity|exact Hres].
Defined.

Lemma prepared_frame_complete_witness :
  exists l h' out,
    prepare_data ln_float ols_fit window_mean window_std five_self
        (five_store ++ [five_a; five_b])
    = (Ok l, h')
    /\ h' !! l = Some out
    /\ (forall c, is_Some (columns out !! c) <-> c ∈ prepared_columns)
    /\ (forall c v, columns out !! c = Some v ->
          length v = length (index out)
          /\ Forall (fun x => is_nan x = false) v).
Proof.
  destruct (prepare_data ln_float ols_fit window_mean window_std five_self
              (five_store ++ [five_a; five_b])) as [[l|e] h'] eqn:Hp;
    [|vm_compute in Hp; discriminate].
  destruct (prepare_data_result ln_float ols_fit window_mean window_std
              five_self
              (five_store ++ [five_a; five_b]) h' l five_a five_b
              eq_refl eq_refl Hp) as (d0 & d2 & _ & _ & Hl & _).
  exists l, h', (dropna d2). split; [reflexivity|]. split; [exact Hl|].
  exact (prepared_frame_complete ln_float ols_fit window_mean window_std
           five_self
           (five_store ++ [five_a; five_b]) h' l five_a five_b (dropna d2)
           eq_refl eq_refl Hp Hl).
Defined.

Lemma prepared_index_labels_witness :
  exists l h' out,
    prepare_data ln_float ols_fit window_mean window_std five_self
      (five_store ++ [five_a; five_b]) = (Ok l, h')
    /\ h' !! l = Some out
    /\ NoDup (index out)
    /\ (forall t, t ∈ index out -> t ∈ index five_a /\ t ∈ index five_b).
Proof.
  destruct (prepare_data ln_float ols_fit window_mean window_std five_self
              (five_store ++ [five_a; five_b])) as [[l|e] h'] eqn:Hp;
    [|vm_compute in Hp; discriminate].
  destruct (prepare_data_result ln_float ols_fit window_mean window_std
              five_self (five_store ++ [five_a; five_b]) h' l five_a five_b
              eq_refl eq_refl Hp) as (d0 & d2 & _ & _ & Hl & _).
  exists l, h', (dropna d2). split; [reflexivity|]. split; [exact Hl|].
  destruct (prepared_index_labels ln_float ols_fit window_mean window_std
              five_self (five_store ++ [five_a; five_b]) h' l five_a five_b
              (dropna d2) eq_refl eq_refl Hp Hl) as (Hnd & Hin & _).
  split; [exact Hnd|exact Hin].
Defined.

Lemma simulate_total_witness :
  exists st, simulate float_hold_params hold_bars = Ok st.
Proof.
  apply (simulate_total float_hold_params hold_bars).
  - intros limit [= <-]. exists 2%Z. reflexivity.
  - repeat constructor.
Defined.

(** The float limit 2.5 closes the position of [hold_bars] on the third
    bar, as the int 2 does. *)
Example float_limit_exit :
  (fun st => (position st, trade_count st))
    <$> run_bars float_hold_params [0; 1; 2; 3]%Z
          (initial_state float_hold_params) (take 3 hold_bars)
  = Ok (0%Z, 1%nat).
Proof. vm_compute. reflexivity. Qed.

(** With an infinite limit the first bar that starts in a position
    raises. *)
Example infinite_limit_raises :
  simulate unbounded_hold_params (take 1 hold_bars) = Ok short_state
  /\ simulate unbounded_hold_params hold_bars = Raise OverflowError.
Proof. split; vm_compute; reflexivity. Qed.

Lemma decisions_independent_of_cost_witness :
  exists s2,
    simulate (with_cost demo_params 5%float) [demo_bar 0 2%float; demo_bar 1 0.1%float] = Ok s2
    /\ position s2 = 0%Z
    /\ trade_count s2 = 1.
Proof.
  destruct (simulate (with_cost demo_params 1%float) [demo_bar 0 2%float; demo_bar 1 0.1%float])
    as [s1|] eqn:Hr1; [|vm_compute in Hr1; discriminate].
  destruct (decisions_independent_of_cost demo_params 1%float 5%float
              [demo_bar 0 2%float; demo_bar 1 0.1%float] s1 Hr1)
    as (s2 & Hr2 & Hpos & _ & _ & _ & Htc & _).
  vm_compute in Hr1. injection Hr1 as <-.
  exists s2. split; [exact Hr2|]. split; [by rewrite <- Hpos|by rewrite <- Htc].
Defined.

Lemma prepare_data_no_lookahead_witness :
  exists i betas betas',
    kept_rows five_aligned !! i = Some 3
    /\ columns five_signal !! "beta" = Some betas
    /\ columns five_signal_late !! "beta" = Some betas'
    /\ betas !! i = betas' !! i.
Proof.
  destruct (prepare_data_no_lookahead ln_float ols_fit window_mean window_std
              warm_params
              five_a five_b five_a_late five_b
              five_aligned five_aligned_late five_signal five_signal_late
              [100; 101; 103; 102; 105]%float [50; 51; 50; 52; 51]%float
              [100; 101; 103; 90; 120]%float [50; 51; 50; 52; 51]%float 3)
    as (i & betas & alphas & betas' & alphas' & Hi & _ & Hb & _ & Hb' & _
        & Heq & _);
    try (vm_compute; reflexivity); try (vm_compute; lia).
  exists i, betas, betas'.
  split; [exact Hi|]. split; [exact Hb|]. split; [exact Hb'|exact Heq].
Defined.

(** * What [run] can raise *)

Section LoopRaises.
Context {F : Type} `{Num F}.
Variable p : Params F.
Local Open Scope num_scope.

(** With its labels in the index, the age check returns or raises what
    [int(max_hold_bars)] raises. *)
Lemma held_too_long_cases (idx : list Z) (st : State F) (t : Z) :
  t ∈ idx ->
  (forall e, entry_idx st = Some e -> e ∈ idx) ->
  (exists held, held_too_long p idx st t = Ok held)
  \/ (exists limit e,
        max_hold_bars p = Some limit /\ py_int limit = Raise e
        /\ position st <> 0%Z
        /\ held_too_long p idx st t = Raise e).
Proof.
  intros Ht He. unfold held_too_long.
  destruct (position st =? 0)%Z eqn:Hpos; [left; by eexists|].
  apply Z.eqb_neq in Hpos. cbn [negb].
  destruct (max_hold_bars p) as [limit|]; [|left; by eexists].
  destruct (entry_idx st) as [e|] eqn:Hent; [|left; by eexists].
  destruct (get_loc_Ok idx t Ht) as [i ->].
  destruct (get_loc_Ok idx e (He e eq_refl)) as [j ->].
  cbn [mbind res_bind].
  destruct (py_int limit) as [m|e1] eqn:Hm; [left; by eexists|].
  right. by exists limit, e1.
Qed.

Lemma step_entry_idx (idx : list Z) (st st' : State F) (b : Bar F) (e : Z) :
  step p idx st b = Ok st' ->
  entry_idx st' = Some e -> e = bar_t b \/ entry_idx st = Some e.
Proof.
  intros (held & mid & _ & Hm & ->)%step_inv. cbv zeta.
  destruct (exit_triggered _ _ _ _); [done|]. simpl.
  apply entry_phase_cases in Hm as [[-> _]|(_ & _ & Ho & _)]; [auto|].
  apply open_position_fields in Ho as (qa & qb & _ & _ & ->). simpl.
  intros [= <-]. by left.
Qed.

(** A bar of the index, from a state entered on the index: the only
    exceptions are the division by a price that is zero and what
    [int(max_hold_bars)] raises. *)
Lemma step_Raise (idx : list Z) (st : State F) (b : Bar F) (e : exn) :
  bar_t b ∈ idx ->
  (forall e', entry_idx st = Some e' -> e' ∈ idx) ->
  step p idx st b = Raise e ->
  (e = ZeroDivisionError
   /\ ((bar_price_a b =? of_int 0) = true
       \/ (bar_price_b b =? of_int 0) = true))
  \/ (exists limit, max_hold_bars p = Some limit /\ py_int limit = Raise e).
Proof.
  intros Ht He Hs. unfold step in Hs.
  destruct (held_too_long_cases idx st (bar_t b) Ht He)
    as [[held Hh]|(limit & e1 & Hmax & Hint & _ & Hh)];
    rewrite Hh in Hs; cbn [mbind res_bind] in Hs;
    [left|right; injection Hs as <-; by exists limit].
  unfold entry_phase in Hs.
  destruct (position st =? 0)%Z;
    [|cbn [mbind res_bind mret res_ret] in Hs;
      by destruct (exit_triggered _ _ _ _)].
  destruct (negb _);
    [|cbn [mbind res_bind mret res_ret] in Hs;
      by destruct (exit_triggered _ _ _ _)].
  unfold open_position, pydiv in Hs.
  destruct (bar_price_a b =? of_int 0); cbn [mbind res_bind] in Hs;
    [injection Hs as <-; auto|].
  destruct (bar_price_b b =? of_int 0); cbn [mbind res_bind] in Hs;
    [injection Hs as <-; auto|].
  cbn [mret res_ret mbind res_bind] in Hs.
  by destruct (exit_triggered _ _ _ _).
Qed.

Lemma run_bars_Raise (idx : list Z) (bars : list (Bar F)) (e : exn) :
  forall st,
  (forall e', entry_idx st = Some e' -> e' ∈ idx) ->
  Forall (fun b => bar_t b ∈ idx) bars ->
  run_bars p idx st bars = Raise e ->
  (e = ZeroDivisionError
   /\ exists b, b ∈ bars
                /\ ((bar_price_a b =? of_int 0) = true
                    \/ (bar_price_b b =? of_int 0) = true))
  \/ (exists limit, max_hold_bars p = Some limit /\ py_int limit = Raise e).
Proof.
  induction bars as [|b bars IH]; intros st He Hall Hr; simpl in Hr; [done|].
  apply Forall_cons in Hall as [Ht Hall].
  destruct (step p idx st b) as [st1|e1] eqn:Hs; cbn [mbind res_bind] in Hr.
  - destruct (IH st1) as [(-> & b' & Hb' & Hz)|Hlim]; [|done|done| |by right].
    + intros e' He'.
      destruct (step_entry_idx idx st st1 b e' Hs He') as [->|?]; auto.
    + left. split; [done|]. exists b'. split; [by right|done].
  - injection Hr as ->.
    destruct (step_Raise idx st b e Ht He Hs) as [[-> Hz]|Hlim]; [|by right].
    left. split; [done|]. exists b. split; [by left|done].
Qed.

Lemma simulate_Raise (bars : list (Bar F)) (e : exn) :
  simulate p bars = Raise e ->
  (e = ZeroDivisionError
   /\ exists b, b ∈ bars
                /\ ((bar_price_a b =? of_int 0) = true
                    \/ (bar_price_b b =? of_int 0) = true))
  \/ (exists limit, max_hold_bars p = Some limit /\ py_int limit = Raise e).
Proof.
  unfold simulate. apply run_bars_Raise; [done|].
  apply Forall_forall. intros b Hb. by apply list_elem_of_fmap_2.
Qed.

End LoopRaises.

Local Open Scope float_scope.

Section RunRaises.
Variable ln : float -> float.
Variable polyfit : Series -> Series -> res (float * float).
Variable rmean rstd : nat -> Series -> float.

(** The rows of a frame that has the four columns the loop reads. *)
Lemma iterrows_Ok (d : DataFrame) :
  is_Some (columns d !! "z") -> is_Some (columns d !! "beta") ->
  is_Some (columns d !! "price_a") -> is_Some (columns d !! "price_b") ->
  exists bars, iterrows d = Ok bars.
Proof.
  intros [z Hz] [beta Hb] [pa Hpa] [pb Hpb]. unfold iterrows, col.
  destruct (index d); [by eexists|].
  rewrite Hz, Hb, Hpa, Hpb. by eexists.
Qed.

Lemma iterrows_prices (d : DataFrame) (bars : list (Bar float))
    (b : Bar float) :
  iterrows d = Ok bars -> b ∈ bars ->
  exists (k : nat) (pa pb : Series),
    (k < length (index d))%nat
    /\ columns d !! "price_a" = Some pa /\ columns d !! "price_b" = Some pb
    /\ bar_price_a b = iloc pa k /\ bar_price_b b = iloc pb k.
Proof.
  unfold iterrows, col. destruct (index d) as [|t idx] eqn:Hidx.
  { intros [= <-] Hb. by apply elem_of_nil in Hb. }
  rewrite <- Hidx. clear Hidx.
  destruct (columns d !! "z") as [z|]; [|done].
  destruct (columns d !! "beta") as [beta|]; [|done].
  destruct (columns d !! "price_a") as [pa|]; [|done].
  destruct (columns d !! "price_b") as [pb|]; [|done].
  cbn [mbind res_bind mret res_ret]. intros Hbars Hb.
  injection Hbars as <-.
  apply list_elem_of_lookup in Hb as [k Hk].
  rewrite list_lookup_imap in Hk.
  destruct (index d !! k) as [u|] eqn:Hu; [|done].
  simpl in Hk. injection Hk as <-.
  exists k, pa, pb. repeat split; try done. by apply lookup_lt_Some in Hu.
Qed.

(** X25.  Once [prepare_data] has returned, the rest of [run] raises
    nothing but the [ZeroDivisionError] of the sizing and what
    [int(self.max_hold_bars)] raises.  One of three: [run] returns; or it
    raises [ZeroDivisionError] and the prepared frame has a row whose
    [price_a] or [price_b] is zero; or [max_hold_bars] is a float that [int]
    refuses, a NaN or an infinity, and [run] raises the [ValueError] or the
    [OverflowError] of that conversion.  The four fields are found on every
    row, and every [get_loc] finds its label. *)
Theorem run_raises_after_prepare_data (self : Backtester)
    (h h1 : list DataFrame) (l : nat) (fa fb out : DataFrame) :
  h !! df_a self = Some fa -> h !! df_b self = Some fb ->
  prepare_data ln polyfit rmean rstd self h = (Ok l, h1) ->
  h1 !! l = Some out ->
  (exists r n h2, run ln polyfit rmean rstd self h = (Ok (r, n), h2))
  \/ ((run ln polyfit rmean rstd self h).1 = Raise ZeroDivisionError
      /\ exists (k : nat) (pa pb : Series),
           (k < length (index out))%nat
           /\ columns out !! "price_a" = Some pa
           /\ columns out !! "price_b" = Some pb
           /\ ((iloc pa k =? 0) = true \/ (iloc pb k =? 0) = true))
  \/ (exists (limit : pynum) (e : exn),
        max_hold_bars (params self) = Some limit
        /\ py_int limit = Raise e
        /\ (e = ValueError \/ e = OverflowError)
        /\ (run ln polyfit rmean rstd self h).1 = Raise e).
Proof.
  intros Ha Hb Hp Hl.
  destruct (prepare_data_result ln polyfit rmean rstd self h h1 l fa fb Ha Hb
              Hp)
    as (d0 & d2 & H0 & H2 & Hl' & Hidx).
  rewrite Hl' in Hl. injection Hl as <-.
  destruct (run_shape ln polyfit rmean rstd self h fa fb Ha Hb) as
      (h2 & Hr & _).
  rewrite Hr. unfold backtest. rewrite H0. cbn [mbind res_bind].
  rewrite H2. cbn [mbind res_bind].
  destruct (signal_frame_Ok polyfit rmean rstd (params self) _ _ H2)
    as (betas & alphas & spread & _ & _ & _ & Hc2).
  destruct (aligned_frame_Ok ln (params self) fa fb d0 H0)
    as (pa & pb & x & y & Hc0 & _ & _).
  destruct (iterrows_Ok (dropna d2)) as [bars Hbars].
  1-4: cbn [dropna columns]; rewrite lookup_fmap, Hc2;
       repeat (first [rewrite lookup_insert_eq
                     | rewrite lookup_insert_ne by done]);
       try done;
       cbn [dropna columns]; rewrite lookup_fmap, Hc0;
       repeat (first [rewrite lookup_insert_eq
                     | rewrite lookup_insert_ne by done]); done.
  rewrite Hbars. cbn [mbind res_bind].
  destruct (simulate (params self) bars) as [st|e] eqn:Hsim;
    cbn [mbind res_bind mret res_ret fmap res_fmap].
  - left. by eexists _, _, _.
  - right.
    apply simulate_Raise in Hsim as [(-> & b & Hin & Hz)|(limit & Hmax & Hint)].
    + left. split; [done|].
      destruct (iterrows_prices (dropna d2) bars b Hbars Hin)
        as (k & qa & qb & Hk & Hqa & Hqb & Ea & Eb).
      exists k, qa, qb. rewrite <- Ea, <- Eb. by repeat split.
    + right. exists limit, e. repeat split; try done.
      by apply (py_int_Raise limit).
Qed.

End RunRaises.

Lemma run_raises_after_prepare_data_witness :
  (exists r n h2,
      run ln_float ols_fit window_mean window_std five_self
          (five_store ++ [five_a; five_b])
      = (Ok (r, n), h2))
  \/ ((run ln_float ols_fit window_mean window_std five_self
         (five_store ++ [five_a; five_b])).1
      = Raise ZeroDivisionError
      /\ exists (k : nat) (pa pb : Series),
           (k < length (index (dropna five_signal)))%nat
           /\ columns (dropna five_signal) !! "price_a" = Some pa
           /\ columns (dropna five_signal) !! "price_b" = Some pb
           /\ ((iloc pa k =? 0) = true \/ (iloc pb k =? 0) = true))
  \/ (exists (limit : pynum) (e : exn),
        max_hold_bars (params five_self) = Some limit
        /\ py_int limit = Raise e
        /\ (e = ValueError \/ e = OverflowError)
        /\ (run ln_float ols_fit window_mean window_std five_self
              (five_store ++ [five_a; five_b])).1 = Raise e).
Proof.
  destruct (prepare_data ln_float ols_fit window_mean window_std five_self
              (five_store ++ [five_a; five_b])) as [[l|e] h1] eqn:Hp;
    [|vm_compute in Hp; discriminate].
  apply (run_raises_after_prepare_data ln_float ols_fit window_mean window_std
           five_self
           (five_store ++ [five_a; five_b]) h1 l five_a five_b
           (dropna five_signal) eq_refl eq_refl Hp).
  vm_compute in Hp. injection Hp as <- <-. vm_compute. reflexivity.
Defined.

(** With an infinite limit, [prepare_data] returns on the sample, [run]
    enters on the first prepared row and raises on the second. *)
Example infinite_limit_run :
  (run ln_float ols_fit window_mean window_std unbounded_trade_self
     (five_store ++ [five_a; five_b])).1 = Raise OverflowError.
Proof. vm_compute. reflexivity. Qed.

(** * The live execution layer *)

Local Open Scope float_scope.

Section LiveDecision.
Variable Timestamp : Type.
Variable total_seconds : Timestamp -> Timestamp -> option float.

(** X16.  No signal, no action: when the feature frame is empty, or the
    [z_spread] of its last row is NaN, [decide_portfolio_target] returns an
    empty dict and leaves the state dict as it is, whatever the state.  In
    particular a position is not closed on such a call, however long it
    has been held: the time limit is only looked at after the NaN check. *)
Theorem no_signal_no_action (features : DataFrame)
    (state : ExecLayer.StateDict Timestamp) (p : ExecLayer.StrategyParams)
    (ep : ExecLayer.ExecParams) (now_ts : Timestamp) :
  frame_empty features = true
  \/ (exists v, columns features !! "z_spread" = Some v
                /\ is_nan (iloc v (length (index features) - 1)) = true) ->
  ExecLayer.decide_portfolio_target total_seconds features state p ep now_ts
  = ExecLayer.Returned (∅, state).
Proof.
  unfold ExecLayer.decide_portfolio_target, ExecLayer.last_z, col.
  intros [->|(v & -> & Hnan)]; [done|].
  destruct (frame_empty features); [done|].
  cbn [mbind res_bind mret res_ret]. by rewrite Hnan.
Qed.

(** One call, from a state whose entry time, if any, is one of the
    timestamps [seen] so far. *)
Lemma decide_consistent (features : DataFrame)
    (state : ExecLayer.StateDict Timestamp) (p : ExecLayer.StrategyParams)
    (ep : ExecLayer.ExecParams) (now_ts : Timestamp) (seen : list Timestamp) :
  ExecLayer.consistent state ->
  (forall t0, ExecLayer.entry_time state = Some t0 -> t0 ∈ seen) ->
  match ExecLayer.decide_portfolio_target total_seconds features state p ep
          now_ts with
  | ExecLayer.Returned (_, state') =>
      ExecLayer.consistent state'
      /\ (forall t0, ExecLayer.entry_time state' = Some t0 ->
            t0 ∈ seen ++ [now_ts])
  | ExecLayer.Raised e =>
      e = ExecLayer.KeyError
      \/ (e = ExecLayer.TypeError
          /\ exists t0, t0 ∈ seen /\ total_seconds now_ts t0 = None)
  end.
Proof.
  intros Hc Hseen. pose proof Hc as [Hbeta Hst].
  assert (forall t0, ExecLayer.entry_time state = Some t0 ->
            t0 ∈ seen ++ [now_ts]) as Hseen'
    by (intros t0 Ht0; apply elem_of_app; left; by apply Hseen).
  unfold ExecLayer.decide_portfolio_target.
  destruct (frame_empty features); [done|].
  destruct (ExecLayer.last_z features) as [z|]; [|by left].
  destruct (is_nan z); [done|].
  destruct (ExecLayer.in_trade state); simpl.
  - destruct Hst as [_ [t0 Ht0]]. rewrite Ht0.
    destruct (total_seconds now_ts t0) as [seconds|] eqn:Hsec.
    + destruct (_ || _); [|done]. by repeat split.
    + right. split; [done|]. exists t0. split; [by apply Hseen|done].
  - assert (forall sd : ExecLayer.Side,
              let state' :=
                {| ExecLayer.in_trade := true; ExecLayer.side := Some sd;
                   ExecLayer.entry_time := Some now_ts;
                   ExecLayer.entry_beta := ExecLayer.entry_beta state |} in
              ExecLayer.consistent state'
              /\ (forall t0, ExecLayer.entry_time state' = Some t0 ->
                    t0 ∈ seen ++ [now_ts])) as Henter.
    { intros sd. simpl. split.
      - split; [done|]. simpl. split; by eexists.
      - intros t0 [= <-]. apply elem_of_app. right. by left. }
    destruct (ExecLayer.z_entry p <? z); [apply Henter|].
    destruct (z <? - ExecLayer.z_entry p); [apply Henter|done].
Qed.

Lemma decide_each_consistent (polls : list (DataFrame * Timestamp))
    (p : ExecLayer.StrategyParams) (ep : ExecLayer.ExecParams) :
  forall (seen : list Timestamp) (state : ExecLayer.StateDict Timestamp),
  ExecLayer.consistent state ->
  (forall t0, ExecLayer.entry_time state = Some t0 -> t0 ∈ seen) ->
  match ExecLayer.decide_each total_seconds polls state p ep with
  | ExecLayer.Returned (targets, state') =>
      ExecLayer.consistent state' /\ length targets = length polls
  | ExecLayer.Raised e =>
      e = ExecLayer.KeyError
      \/ (e = ExecLayer.TypeError
          /\ exists a b, a ∈ seen ++ polls.*2 /\ b ∈ seen ++ polls.*2
                         /\ total_seconds a b = None)
  end.
Proof.
  induction polls as [|[features now_ts] polls IH]; intros seen state Hst Hseen;
    simpl; [done|].
  pose proof (decide_consistent features state p ep now_ts seen Hst Hseen)
    as Hd.
  destruct (ExecLayer.decide_portfolio_target _ _ _ _ _ _)
    as [[target state']|e].
  - destruct Hd as [Hst' Hseen'].
    specialize (IH (seen ++ [now_ts]) state' Hst' Hseen').
    rewrite <- app_assoc in IH. simpl in IH.
    destruct (ExecLayer.decide_each _ _ _ _ _) as [[targets state'']|e];
      [|done].
    destruct IH as [? Hlen]. simpl. by rewrite Hlen.
  - destruct Hd as [->|(-> & t0 & Ht0 & Hsec)]; [by left|]. right.
    split; [done|]. exists now_ts, t0. split; [|split; [|done]].
    + apply elem_of_app. right. by left.
    + apply elem_of_app. by left.
Qed.

(** X17.  A caller that starts from [init_state] and passes the same state
    dict to every call never sees the [TypeError] of a missing entry time
    on line 93.  The only exceptions are the [KeyError] of a feature frame
    without a [z_spread] column and the [TypeError] of two of the caller's
    own timestamps that cannot be subtracted, one with a time zone and one
    without.  After any number of calls the state is one that the function
    itself produces: [side] and [entry_time] are set exactly while
    [in_trade] is true, and [entry_beta] is still [None], since no line
    assigns it. *)
Theorem polling_keeps_state_consistent
    (polls : list (DataFrame * Timestamp)) (p : ExecLayer.StrategyParams)
    (ep : ExecLayer.ExecParams) :
  match ExecLayer.decide_each total_seconds polls ExecLayer.init_state p ep with
  | ExecLayer.Returned (targets, state) =>
      ExecLayer.consistent state /\ length targets = length polls
  | ExecLayer.Raised e =>
      e = ExecLayer.KeyError
      \/ (e = ExecLayer.TypeError
          /\ exists a b, a ∈ polls.*2 /\ b ∈ polls.*2
                         /\ total_seconds a b = None)
  end.
Proof.
  apply (decide_each_consistent polls p ep [] ExecLayer.init_state); done.
Qed.

(** X18.  What [decide_portfolio_target] returns is either an empty dict,
    with the state dict untouched, or a target for both legs and no other
    key, with opposite signs: [base_size] shares of one leg against
    [-base_size] of the other when it enters (only from a state that is not
    in a trade), zero for both when it exits (only from a state that is in
    a trade).  A call never reverses a position and never returns a target
    for one leg only. *)
Theorem targets_are_paired (features : DataFrame)
    (state state' : ExecLayer.StateDict Timestamp)
    (p : ExecLayer.StrategyParams) (ep : ExecLayer.ExecParams)
    (now_ts : Timestamp) (target : gmap string Z) :
  ExecLayer.decide_portfolio_target total_seconds features state p ep now_ts
  = ExecLayer.Returned (target, state') ->
  (target = ∅ /\ state' = state)
  \/ (exists a : Z,
        target = {[ "A" := a; "B" := (- a)%Z ]}
        /\ ExecLayer.in_trade state' = negb (ExecLayer.in_trade state)
        /\ (if ExecLayer.in_trade state then a = 0%Z
            else (a = ExecLayer.base_size p \/ a = (- ExecLayer.base_size p)%Z)
                 /\ ExecLayer.entry_time state' = Some now_ts)).
Proof.
  unfold ExecLayer.decide_portfolio_target.
  destruct (frame_empty features); [intros [= <- <-]; by left|].
  destruct (ExecLayer.last_z features) as [z|]; [|done].
  destruct (is_nan z); [intros [= <- <-]; by left|].
  destruct (ExecLayer.in_trade state) eqn:Hin; simpl.
  - destruct (ExecLayer.entry_time state) as [t0|]; [|done].
    destruct (total_seconds now_ts t0) as [seconds|]; [|done].
    destruct (_ || _); intros [= <- <-]; [|by left].
    right. by exists 0%Z.
  - destruct (ExecLayer.z_entry p <? z).
    { intros [= <- <-]. right. exists (- ExecLayer.base_size p)%Z.
      rewrite Z.opp_involutive. simpl. auto. }
    destruct (z <? - ExecLayer.z_entry p); intros [= <- <-]; [|by left].
    right. exists (ExecLayer.base_size p). simpl. auto.
Qed.

(** X19.  The live layer enters in the direction the backtester enters in:
    from a state that is not in a trade, on a defined [z_spread] and with
    the same threshold, the target for leg A is [base_size] times the
    position that [entry_signal] gives for the backtest loop (-1 short
    spread, +1 long spread), the target for leg B is the opposite, and no
    target is returned where the loop stays flat. *)
Theorem live_entry_agrees_with_backtest (features : DataFrame)
    (state : ExecLayer.StateDict Timestamp) (p : ExecLayer.StrategyParams)
    (ep : ExecLayer.ExecParams) (now_ts : Timestamp) (bp : Params float)
    (v : Series) :
  z_entry bp = ExecLayer.z_entry p ->
  frame_empty features = false ->
  columns features !! "z_spread" = Some v ->
  is_nan (iloc v (length (index features) - 1)) = false ->
  ExecLayer.in_trade state = false ->
  let d := entry_signal bp (iloc v (length (index features) - 1)) in
  exists target state',
    ExecLayer.decide_portfolio_target total_seconds features state p ep now_ts
    = ExecLayer.Returned (target, state')
    /\ ExecLayer.in_trade state' = negb (d =? 0)%Z
    /\ target !! "A"
       = (if (d =? 0)%Z then None else Some (d * ExecLayer.base_size p)%Z)
    /\ target !! "B"
       = (if (d =? 0)%Z then None else Some (- d * ExecLayer.base_size p)%Z).
Proof.
  intros Hthr Hempty Hv Hnan Hflat d. subst d.
  unfold ExecLayer.decide_portfolio_target, ExecLayer.last_z, col, entry_signal.
  rewrite Hempty, Hv. cbn [mbind res_bind mret res_ret].
  rewrite Hnan, Hflat, Hthr. cbn [negb num_ltb num_neg float_num].
  destruct (ExecLayer.z_entry p <? _).
  { eexists _, _. split; [reflexivity|]. simpl. repeat split.
    all: by destruct (ExecLayer.base_size p). }
  destruct (_ <? - ExecLayer.z_entry p).
  - eexists _, _. split; [reflexivity|]. simpl. repeat split.
    all: by destruct (ExecLayer.base_size p).
  - eexists _, _. split; [reflexivity|]. by rewrite Hflat.
Qed.

End LiveDecision.

(** ** Orders *)

Section ExactOrders.
Local Open Scope Q_scope.

(** X20.  In exact arithmetic, [trade_to_target] places no order exactly
    when the reported position already is the target; otherwise the order
    has a positive quantity, and buying (or selling) that quantity takes
    the reported position to the target. *)
Theorem trade_to_target_reaches_target (positions : list (Holding Q))
    (symbol : string) (target : Z) :
  let current := ExecLayer.get_position positions symbol in
  match ExecLayer.trade_to_target positions symbol target with
  | None => current == inject_Z target
  | Some order =>
      ~ current == inject_Z target
      /\ 0 < totalQuantity order
      /\ current + (match action order with
                    | BUY => totalQuantity order
                    | SELL => - totalQuantity order
                    end) == inject_Z target
  end.
Proof.
  cbv zeta. unfold ExecLayer.trade_to_target.
  set (current := ExecLayer.get_position positions symbol).
  cbn [num_sub num_eqb num_ltb num_abs of_int Q_num].
  change (inject_Z 0) with 0.
  destruct (Qeq_bool (inject_Z target - current) 0) eqn:Hz.
  - apply Qeq_bool_iff in Hz. lra.
  - apply Qeq_bool_false in Hz. cbn [action totalQuantity].
    destruct (Qle_bool (inject_Z target - current) 0) eqn:Hle; cbn [negb].
    + apply Qle_bool_iff in Hle.
      rewrite Qabs_neg by done. repeat split; lra.
    + assert (~ inject_Z target - current <= 0) as Hgt
        by (rewrite <- Qle_bool_iff; congruence).
      rewrite Qabs_pos by lra. repeat split; lra.
Qed.

End ExactOrders.

Section Positions.
Context {F : Type} `{Num F}.

Lemma get_position_filter (positions : list (Holding F)) (symbol : string) :
  ExecLayer.get_position positions symbol
  = InitialConnection.get_position positions symbol.
Proof.
  unfold InitialConnection.get_position.
  induction positions as [|p positions IH]; [done|]. simpl.
  rewrite filter_cons. destruct (String.eqb_spec (held_symbol p) symbol).
  - by rewrite decide_True.
  - by rewrite decide_False.
Qed.

Lemma get_position_not_held (positions : list (Holding F)) (symbol : string) :
  (forall p, p ∈ positions -> held_symbol p <> symbol) ->
  ExecLayer.get_position positions symbol = of_int 0.
Proof.
  induction positions as [|p positions IH]; intros Hnone; [done|]. simpl.
  destruct (String.eqb_spec (held_symbol p) symbol) as [Heq|_].
  - by destruct (Hnone p (list_elem_of_here _ _)).
  - apply IH. intros q Hq. apply Hnone. by right.
Qed.

(** X21.  The two position lookups, the loop of the executor and the list
    comprehension of the first script, return the same number: the
    position of the first holding that the broker reports for the symbol
    (later ones in the same symbol are not added), and 0 when it reports
    none. *)
Theorem get_position_agree (positions : list (Holding F)) (symbol : string) :
  ExecLayer.get_position positions symbol
  = InitialConnection.get_position positions symbol
  /\ (forall p rest, ExecLayer.get_position
                       (p :: rest) (held_symbol p) = held_position p)
  /\ ((forall p, p ∈ positions -> held_symbol p <> symbol) ->
      ExecLayer.get_position positions symbol = of_int 0).
Proof.
  split; [apply get_position_filter|]. split; [|apply get_position_not_held].
  intros p rest. simpl. by rewrite String.eqb_refl.
Qed.

End Positions.

(** X22.  With the default [max_position = 0], [place_mkt_order] never
    sends an order for a ticker in which the broker reports no holding,
    whatever the side and the volume: the position it reads is [0.0], and
    [0.0 >= 0] makes it skip. *)
Theorem default_max_position_blocks_flat_ticker
    (positions : list (Holding float)) (ticker : string) (side : Action)
    (volume : float) :
  (forall p, p ∈ positions -> held_symbol p <> ticker) ->
  InitialConnection.place_mkt_order positions ticker side volume 0 = None.
Proof.
  intros Hnone. unfold InitialConnection.place_mkt_order.
  by rewrite <- get_position_filter, (get_position_not_held _ _ Hnone).
Qed.

(** * The live layer at sample inputs *)

(** A position held for ten hours, against a limit of two: it is kept
    while the last [z_spread] is NaN, and closed on a defined one. *)
Lemma no_signal_no_action_witness :
  ExecLayer.decide_portfolio_target seconds_between
    (feature_frame [0; 60]%Z [1; nan]) short_trade live_params live_exec
    36000%Z
  = ExecLayer.Returned (∅, short_trade).
Proof.
  apply (no_signal_no_action Z seconds_between
           (feature_frame [0; 60]%Z [1; nan]) short_trade live_params
           live_exec 36000%Z).
  right. exists [1; nan]. split; reflexivity.
Defined.

Example time_exit :
  ExecLayer.decide_portfolio_target seconds_between
    (feature_frame [0; 60]%Z [1; 1]) short_trade live_params live_exec
    36000%Z
  = ExecLayer.Returned ({[ "A" := 0%Z; "B" := 0%Z ]}, ExecLayer.init_state).
Proof. vm_compute. reflexivity. Qed.

(** Two polls that the caller stamps with and without a time zone: the
    first one enters, the second one cannot compute the holding time. *)
Example mixed_time_zones :
  ExecLayer.decide_each zoned_seconds_between
    [(feature_frame [0]%Z [1], (0%Z, true));
     (feature_frame [0; 60]%Z [1; 1], (60%Z, false))]
    ExecLayer.init_state live_params live_exec
  = ExecLayer.Raised ExecLayer.TypeError.
Proof. vm_compute. reflexivity. Qed.

(** A state in a trade without an entry time, which only a caller can
    build. *)
Example missing_entry_time :
  ExecLayer.decide_portfolio_target seconds_between
    (feature_frame [0; 60]%Z [1; 1])
    {| ExecLayer.in_trade := true; ExecLayer.side := None;
       ExecLayer.entry_time := None; ExecLayer.entry_beta := None |}
    live_params live_exec 36000%Z
  = ExecLayer.Raised ExecLayer.TypeError.
Proof. vm_compute. reflexivity. Qed.

Lemma targets_are_paired_witness :
  (({[ "A" := (-50)%Z; "B" := 50%Z ]} : gmap string Z) = ∅
   /\ entered_short = ExecLayer.init_state)
  \/ (exists a : Z,
        ({[ "A" := (-50)%Z; "B" := 50%Z ]} : gmap string Z)
        = {[ "A" := a; "B" := (- a)%Z ]}
        /\ ExecLayer.in_trade entered_short
           = negb (ExecLayer.in_trade (ExecLayer.init_state (Timestamp:=Z)))
        /\ (if ExecLayer.in_trade (ExecLayer.init_state (Timestamp:=Z))
            then a = 0%Z
            else (a = ExecLayer.base_size live_params
                  \/ a = (- ExecLayer.base_size live_params)%Z)
                 /\ ExecLayer.entry_time entered_short = Some 60%Z)).
Proof.
  apply (targets_are_paired Z seconds_between
           (feature_frame [0; 60]%Z [0.1; 0.5]) ExecLayer.init_state
           entered_short live_params live_exec 60%Z).
  vm_compute. reflexivity.
Defined.

Lemma live_entry_agrees_with_backtest_witness :
  exists target state',
    ExecLayer.decide_portfolio_target seconds_between
      (feature_frame [0; 60]%Z [0.1; 2]) ExecLayer.init_state paired_params
      live_exec 60%Z
    = ExecLayer.Returned (target, state')
    /\ ExecLayer.in_trade state' = true
    /\ target !! "A" = Some (-50)%Z
    /\ target !! "B" = Some 50%Z.
Proof.
  exact (live_entry_agrees_with_backtest Z seconds_between
           (feature_frame [0; 60]%Z [0.1; 2]) ExecLayer.init_state
           paired_params live_exec 60%Z demo_params [0.1; 2]
           eq_refl eq_refl eq_refl eq_refl eq_refl).
Defined.

Lemma default_max_position_blocks_flat_ticker_witness :
  InitialConnection.place_mkt_order other_holding "AAPL" BUY 100 0 = None.
Proof.
  apply (default_max_position_blocks_flat_ticker other_holding "AAPL" BUY 100).
  intros p Hp. apply list_elem_of_singleton in Hp as ->. discriminate.
Defined.

(** With a limit above the holding, the same order goes out. *)
Example order_below_max_position :
  InitialConnection.place_mkt_order other_holding "AAPL" BUY 100 300
  = Some {| action := BUY; totalQuantity := 100 |}.
Proof. vm_compute. reflexivity. Qed.

(** * The drawdown *)

Section ExactDrawdown.
Local Open Scope Q_scope.

Lemma running_max_step (m x : Q) :
  0 < m ->
  let m' := if negb (Qle_bool x m) then x else m in
  0 < m' /\ m <= m' /\ x <= m' /\ (x == m' <-> m <= x).
Proof.
  intros Hm. cbv zeta. destruct (Qle_bool x m) eqn:Hle; cbn [negb].
  - apply Qle_bool_iff in Hle. repeat split; try lra.
  - assert (~ x <= m) by (rewrite <- Qle_bool_iff; congruence).
    repeat split; try lra.
Qed.

Lemma drawdown_bounds (x m : Q) :
  0 < x -> 0 < m -> x <= m -> -1 < (x - m) / m /\ (x - m) / m <= 0.
Proof.
  intros Hx Hm Hle. split.
  - apply Qlt_shift_div_l; [done|]. lra.
  - apply Qle_shift_div_r; [done|]. lra.
Qed.

Lemma drawdown_zero (x m : Q) : 0 < m -> ((x - m) / m == 0 <-> x == m).
Proof.
  intros Hm. split.
  - intros Hz. assert ((x - m) / m * m == x - m) as Hmul by (field; lra).
    rewrite Hz in Hmul. lra.
  - intros ->. field. lra.
Qed.

Lemma drawdowns_from_cons (m x : Q) (v : list Q) :
  drawdowns_from m (x :: v)
  = (let m' := if negb (Qle_bool x m) then x else m in
     (x - m') / m' :: drawdowns_from m' v).
Proof. reflexivity. Qed.

Lemma drawdowns_from_bounds (v : list Q) :
  forall m, 0 < m -> Forall (fun e => 0 < e) v ->
  Forall (fun d => -1 < d /\ d <= 0) (drawdowns_from m v).
Proof.
  induction v as [|x v IH]; intros m Hm Hv; [constructor|].
  apply Forall_cons in Hv as [Hx Hv]. rewrite drawdowns_from_cons.
  destruct (running_max_step m x Hm) as (Hm' & _ & Hle & _). cbv zeta in *.
  constructor; [by apply drawdown_bounds|by apply IH].
Qed.

Lemma nondecreasing_from_proper (m m2 : Q) (v : list Q) :
  m == m2 -> nondecreasing_from m v <-> nondecreasing_from m2 v.
Proof. intros Heq. destruct v as [|x v]; simpl; [done|]. by rewrite Heq. Qed.

Lemma drawdowns_from_zero (v : list Q) :
  forall m, 0 < m -> Forall (fun e => 0 < e) v ->
  Forall (fun d => d == 0) (drawdowns_from m v) <-> nondecreasing_from m v.
Proof.
  induction v as [|x v IH]; intros m Hm Hv; [by split; [|constructor]|].
  apply Forall_cons in Hv as [Hx Hv]. rewrite drawdowns_from_cons.
  destruct (running_max_step m x Hm) as (Hm' & _ & Hle & Hiff).
  cbv zeta in *. rewrite Forall_cons, (drawdown_zero _ _ Hm'), Hiff.
  rewrite (IH _ Hm' Hv). simpl. split; intros [Hmx Hnd]; (split; [done|]).
  - eapply nondecreasing_from_proper; [|exact Hnd]. by apply Hiff.
  - eapply nondecreasing_from_proper; [|exact Hnd]. symmetry. by apply Hiff.
Qed.

(** The least entry is an entry, and no entry is below it. *)
Lemma least_spec (v : list Q) (d : Q) :
  least v = Some d -> d ∈ v /\ Forall (fun y => d <= y) v.
Proof.
  destruct v as [|x v]; [done|]. simpl. intros [= <-].
  set (f := fun m y : Q => if negb (Qle_bool m y) then y else m).
  assert (forall v x, (foldl f x v = x \/ foldl f x v ∈ v)
                      /\ foldl f x v <= x
                      /\ Forall (fun y => foldl f x v <= y) v) as Hfold.
  { clear x v. induction v as [|y v IH]; intros x; simpl.
    - repeat split; [by left|lra|constructor].
    - destruct (IH (f x y)) as (Hin & Hle & Hall).
      assert ((f x y = x \/ f x y = y) /\ f x y <= x /\ f x y <= y)
        as (Hf & Hfx & Hfy).
      { unfold f. destruct (Qle_bool x y) eqn:Hxy; cbn [negb].
        - apply Qle_bool_iff in Hxy. repeat split; [by left|lra|lra].
        - assert (~ x <= y) by (rewrite <- Qle_bool_iff; congruence).
          repeat split; [by right|lra|lra]. }
      repeat split.
      + destruct Hin as [Hin|Hin]; [|right; by right].
        rewrite Hin. destruct Hf as [->| ->]; [by left|right; by left].
      + lra.
      + constructor; [lra|done]. }
  destruct (Hfold v x) as (Hin & Hle & Hall). split.
  - destruct Hin as [->|Hin]; [by left|by right].
  - by constructor.
Qed.

(** X23.  In exact arithmetic and on an equity series whose points are all
    positive, the maximum drawdown of lines 198-200 exists as soon as there
    is a point, lies in [(-1, 0]], and is 0 exactly when the series never
    falls. *)
Theorem max_drawdown_exact (equity : list Q) :
  Forall (fun e => 0 < e) equity ->
  match max_drawdown equity with
  | None => equity = []
  | Some dd => -1 < dd /\ dd <= 0 /\ (dd == 0 <-> nondecreasing equity)
  end.
Proof.
  intros Hpos. destruct equity as [|x v]; [done|].
  apply Forall_cons in Hpos as [Hx Hv].
  unfold max_drawdown.
  change (drawdowns (x :: v)) with ((x - x) / x :: drawdowns_from x v).
  destruct (least _) as [dd|] eqn:Hl; [|done].
  apply least_spec in Hl as [Hin Hall].
  pose proof (drawdowns_from_bounds v x Hx Hv) as Hb.
  assert ((x - x) / x == 0) as H0 by (field; lra).
  assert (Forall (fun d => -1 < d /\ d <= 0) ((x - x) / x :: drawdowns_from x v))
    as Hb' by (constructor; [rewrite H0; lra|done]).
  destruct (proj1 (Forall_forall _ _) Hb' dd Hin) as [Hlo Hhi].
  split; [done|]. split; [done|]. simpl.
  rewrite <- (drawdowns_from_zero v x Hx Hv). split.
  - intros Hz. apply Forall_cons in Hall as [_ Hall].
    apply Forall_forall. intros d Hd.
    pose proof (proj1 (Forall_forall _ _) Hall d Hd) as Hd1.
    pose proof (proj1 (Forall_forall _ _) Hb d Hd) as [_ Hd2].
    cbv beta in Hd1. lra.
  - intros Hz. apply elem_of_cons in Hin as [->|Hin]; [done|].
    by apply (proj1 (Forall_forall _ _) Hz).
Qed.

End ExactDrawdown.

Local Open Scope float_scope.

Lemma series_dropna_defined (v : Series) :
  Forall (fun x => is_nan x = false) v -> series_dropna v = v.
Proof.
  unfold series_dropna. induction 1 as [|x v Hx _ IH]; [done|].
  rewrite filter_cons_True by (unfold notna; by rewrite Hx). by rewrite IH.
Qed.

Lemma series_dropna_undefined (v : Series) :
  Forall (fun x => is_nan x = true) v -> series_dropna v = [].
Proof.
  unfold series_dropna. induction 1 as [|x v Hx _ IH]; [done|].
  by rewrite filter_cons_False by (unfold notna; by rewrite Hx).
Qed.

Lemma cummax_running_max (v : Series) : cummax v = running_max v.
Proof.
  (* the two definitions are the same recursion, read at [float] *)
  reflexivity.
Qed.

(** X24.  On a results frame whose equity column holds no NaN and gives no
    NaN drawdown, [Max_Drawdown] is the least of
    [(equity - running maximum) / running maximum] over the rows; when the
    equity column has no defined value at all (no row, for one), it is
    NaN.  The mean and the standard deviation of pandas play no part in
    it. *)
Theorem max_drawdown_of_results (series_mean series_std : Series -> float)
    (results : DataFrame) (e r : Series) :
  columns results !! "equity" = Some e ->
  columns results !! "returns" = Some r ->
  exists m,
    performance_metrics series_mean series_std results = Ok m
    /\ (Forall (fun x => is_nan x = false) e ->
        Forall (fun x => is_nan x = false) (drawdowns e) ->
        Max_Drawdown m = default nan (max_drawdown e))
    /\ (Forall (fun x => is_nan x = true) e -> Max_Drawdown m = nan).
Proof.
  intros He Hr. unfold performance_metrics, col. rewrite He, Hr.
  cbn [mbind res_bind mret res_ret]. eexists. split; [reflexivity|].
  cbn [Max_Drawdown]. split.
  - intros Hdef Hdd. rewrite (series_dropna_defined e Hdef), cummax_running_max.
    change (zip_with PrimFloat.div
              (zip_with PrimFloat.sub e (running_max e)) (running_max e))
      with (drawdowns e).
    unfold series_min, max_drawdown. rewrite (series_dropna_defined _ Hdd).
    by destruct (drawdowns e).
  - intros Hnan. by rewrite (series_dropna_undefined e Hnan).
Qed.

(** * The drawdown at sample inputs *)

Lemma max_drawdown_exact_witness :
  exists dd,
    max_drawdown [100; 90; 95]%Q = Some dd /\ (-1 < dd)%Q /\ (dd <= 0)%Q.
Proof.
  pose proof (max_drawdown_exact [100; 90; 95]%Q) as Hw.
  destruct (max_drawdown [100; 90; 95]%Q) as [dd|].
  - exists dd. split; [reflexivity|].
    destruct Hw as (Hlo & Hhi & _); [repeat constructor|]. by split.
  - discriminate Hw. repeat constructor.
Defined.

Lemma max_drawdown_of_results_witness :
  exists m,
    performance_metrics mean pstd (results_frame [0; 1; 2]%Z [100; 90; 95])
    = Ok m
    /\ Max_Drawdown m = -0.1.
Proof.
  destruct (max_drawdown_of_results mean pstd
              (results_frame [0; 1; 2]%Z [100; 90; 95])
              [100; 90; 95] (pct_change [100; 90; 95]) eq_refl eq_refl)
    as (m & Hm & Hdd & _).
  exists m. split; [exact Hm|].
  rewrite Hdd; [reflexivity|repeat constructor|repeat constructor].
Defined.
